(** * rag-devops: the retrieval core

  A shallow embedding of the two programs of the repository that make up
  the retrieval core,

  - [service/embedding_advance/embedding.py], the batch ingestion run
    (module [Embedding]), and
  - [service/api_advance/api.py], the query service (module [Api]),

  and of the handlers of the page that calls the query service,
  [service/app_advance/app.py] (module [App]), together with the facts
  about them that the specification relies on.

  The programs are glue around collaborators that live outside the
  repository: the OpenSearch cluster reached through [opensearchpy], the
  embedding model, the operating system (clock, file system) and, for
  the page, the services behind HTTP.  The collaborators are inputs of
  the embedding: every call to one of them is answered by an oracle and
  recorded in a trace, and the code of the repository is translated
  statement by statement around these calls. *)

From Stdlib Require Import ZArith String List Lia.
From stdpp Require Import base option list gmap strings pretty.

Open Scope string_scope.
Open Scope Z_scope.

(** ** Python values shared by both programs *)

Module Py.

(** The exception classes that the two programs raise, catch or can
    receive from their collaborators. *)
Inductive exn_class : Type :=
| TransportError        (* opensearchpy.exceptions, any other HTTP status *)
| RequestError          (* opensearchpy, HTTP 400 *)
| NotFoundError         (* opensearchpy, HTTP 404 *)
| ConnectionError       (* opensearchpy *)
| ConnectionTimeout     (* opensearchpy, subclass of ConnectionError *)
| NewConnectionError    (* urllib3.exceptions *)
| TimeoutError          (* builtin *)
| ValueError            (* builtin *)
| KeyError              (* builtin *)
| AttributeError        (* builtin *)
| OSError               (* builtin: open(), makedirs, pickle *)
| PdfReadError          (* pypdf.errors *)
| BulkIndexError        (* opensearchpy.helpers.errors *)
| RuntimeError.         (* builtin: torch, model loading *)

#[global] Instance exn_class_eq_dec : EqDecision exn_class.
Proof. solve_decision. Defined.

(** [parent c] is the direct base class of [c] below [Exception]. *)
Definition parent (c : exn_class) : option exn_class :=
  match c with
  | RequestError | NotFoundError | ConnectionError => Some TransportError
  | ConnectionTimeout => Some ConnectionError
  | _ => None
  end.

(** [isinstance c d]: an exception of class [c] is caught by
    [except d].  The hierarchy is two levels deep. *)
Definition isinstance (c d : exn_class) : bool :=
  bool_decide (c = d)
  || bool_decide (parent c = Some d)
  || bool_decide (parent c ≫= parent = Some d).

(** An exception instance.  [Exn c s] is an instance of class [c] with
    [str(e) = s]; [HTTPException] is FastAPI's, which the query service
    raises towards its caller. *)
Inductive exn : Type :=
| Exn (cls : exn_class) (str : string)
| HTTPException (status_code : Z) (detail : string).

Definition str (e : exn) : string :=
  match e with
  | Exn _ s => s
  | HTTPException _ d => d
  end.

(** [except cls] on an exception instance. *)
Definition caught_by (e : exn) (d : exn_class) : bool :=
  match e with
  | Exn c _ => isinstance c d
  | HTTPException _ _ => false
  end.

(** The outcome of a call: a value, or a raised exception. *)
Inductive result (A : Type) : Type :=
| Ok (a : A)
| Raise (e : exn).
Arguments Ok {A} a.
Arguments Raise {A} e.

(** [needle in haystack] on strings. *)
Fixpoint contains (needle haystack : string) : bool :=
  String.prefix needle haystack
  || match haystack with
     | EmptyString => false
     | String _ rest => contains needle rest
     end.

End Py.
Export Py.

(** ** The index store

  The OpenSearch cluster as the programs see it through [opensearchpy]:
  a finite map from index names to an index, which has a mapping and the
  records written so far.  Only the three requests that the programs send
  are modelled. *)

Module OpenSearch.
Section Store.

Context {float : Type}.

(** The body of [indices.create]: the properties of the mapping. *)
Record mapping : Type := Mapping {
  knn_field : string;          (* name of the knn_vector property *)
  dimension : Z;
  method_name : string;
  space_type : string;
  engine : string;
  text_field : string;         (* name of the text property *)
  object_field : string        (* name of the object property *)
}.

(** The value under ["metadata"] in a [_source]: an object, or a value
    of another type, which has no method [get]; [type_name] is the name
    of its Python type, [NoneType] for JSON null. *)
Inductive metadata_value : Type :=
| Object (entries : gmap string string)
| NotObject (type_name : string).

(** A stored record: its [_source].  The keys ["content"] and
    ["metadata"] may be missing. *)
Record record : Type := Record_ {
  content : option string;
  metadata : option metadata_value;
  embedding : list float
}.

Record index_data : Type := IndexData {
  ix_mapping : mapping;
  ix_docs : list record
}.

(** The body built by [create_search_query]. *)
Record search_query : Type := SearchQuery {
  sq_size : Z;
  sq_source : list string;
  sq_lang : string;
  sq_script : string;
  sq_field : string;
  sq_query_value : list float;
  sq_space_type : string
}.

Record hit : Type := Hit {
  hit_source : record;
  hit_score : float
}.

(** [response["hits"]["hits"]]. *)
Record response : Type := Response {
  hits : list hit
}.

(** [client.indices.exists(index)]. *)
Definition indices_exists (st : gmap string index_data) (index : string) : bool :=
  bool_decide (is_Some (st !! index)).

(** [client.indices.create(index, body)]: the store refuses to create an
    index that exists. *)
Definition indices_create (st : gmap string index_data) (index : string)
    (body : mapping) : result unit * gmap string index_data :=
  if indices_exists st index
  then (Raise (Exn RequestError
                 ("RequestError(400, 'resource_already_exists_exception', 'index ["
                  +:+ index +:+ "] already exists')")), st)
  else (Ok tt, <[index := IndexData body []]> st).

(** The scoring script and the order on scores are the engine's. *)
Context (knn_score : list float → list float → float).
Context (score_leb : float → float → bool).

Fixpoint insert_hit (h : hit) (l : list hit) : list hit :=
  match l with
  | [] => [h]
  | h' :: l' =>
      if score_leb (hit_score h') (hit_score h)
      then h :: l
      else h' :: insert_hit h l'
  end.

(** Hits by descending score; equal scores keep insertion order. *)
Definition ranked (q : list float) (docs : list record) : list hit :=
  foldr insert_hit [] (map (λ r, Hit r (knn_score q (embedding r))) docs).

(** [client.search(index, body)]: a missing index is a 404, a query
    vector that does not fit a stored vector is a 400
    ([search_phase_execution_exception]), otherwise the [size] best
    records are returned. *)
Definition search (st : gmap string index_data) (index : string)
    (body : search_query) : result response :=
  match st !! index with
  | None =>
      Raise (Exn NotFoundError
               ("NotFoundError(404, 'index_not_found_exception', 'no such index ["
                +:+ index +:+ "]')"))
  | Some ix =>
      if forallb (λ r, (length (embedding r) =? length (sq_query_value body))%nat)
           (ix_docs ix)
      then Ok (Response (take (Z.to_nat (sq_size body))
                           (ranked (sq_query_value body) (ix_docs ix))))
      else Raise (Exn RequestError
                    "RequestError(400, 'search_phase_execution_exception', 'runtime error')")
  end.

End Store.
Arguments mapping : clear implicits.
Arguments record : clear implicits.
Arguments index_data : clear implicits.
Arguments search_query : clear implicits.
Arguments hit : clear implicits.
Arguments response : clear implicits.
End OpenSearch.

(** ** The query service: [service/api_advance/api.py] *)

Module Api.
Import OpenSearch.
Section Service.

Context {float : Type}.

(** [numpy]'s [astype(np.float32)] on one component. *)
Context (float32 : float → float).

(** [class QueryRequest(BaseModel)]: the request body has one field. *)
Record QueryRequest : Type := { query : string }.

(** The default of [getenv("OPENSEARCH_INDEX", ...)]. *)
Definition INDEX_NAME : string := "webinar_pdf_index".

(** The name handed to [SentenceTransformer] when the module is loaded. *)
Definition model : string := "BAAI/bge-m3".

(** The two collaborators of the endpoint: [model.encode] and
    [opensearch_client.search].  Either may raise. *)
Record collaborators : Type := {
  model_encode : string → result (list float);
  opensearch_search : string → search_query float → result (response float)
}.

(** What the endpoint does to the outside, in order. *)
Inductive log_line : Type :=
| Searching_for (q : string)
| Executing_search_query (body : search_query float)
| Got_response (r : response float)
| OpenSearch_request_error (s : string)
| Search_phase_execution_exception
| Error_during_search (s : string).

Inductive event : Type :=
| LogInfo (l : log_line)
| LogError (l : log_line)
| ModelEncode (text : string)
| OpenSearchSearch (index : string) (body : search_query float).

(** Computations of the endpoint: a trace that grows, and a value or a
    raised exception. *)
Definition M (A : Type) : Type := list event → list event * result A.

#[local] Instance M_ret : MRet M := λ A a t, (t, Ok a).

#[local] Instance M_bind : MBind M := λ A B k m t,
  match m t with
  | (t', Ok a) => k a t'
  | (t', Raise e) => (t', Raise e)
  end.

Definition raise {A} (e : exn) : M A := λ t, (t, Raise e).

(** A call to a collaborator: recorded, then answered. *)
Definition call {A} (ev : event) (answer : result A) : M A :=
  λ t, ((t ++ [ev])%list, answer).

Definition emit (ev : event) : M unit := call ev (Ok tt).

(** [try: body except ...: handler]. *)
Definition try_except {A} (body : M A) (handler : exn → M A) : M A :=
  λ t, match body t with
       | (t', Raise e) => handler e t'
       | r => r
       end.

(** [def create_search_query(query_vector, top_k=3)]. *)
Definition default_top_k : Z := 3.

Definition create_search_query (query_vector : list float) (top_k : Z)
    : search_query float :=
  {| sq_size := top_k;
     sq_source := ["content"; "metadata"];
     sq_lang := "knn";
     sq_script := "knn_score";
     sq_field := "embedding";
     sq_query_value := query_vector;
     sq_space_type := "cosinesimil" |}.

(** One entry of ["results"]. *)
Record result_item : Type := {
  text : string;
  item_metadata : gmap string string;
  score : float;
  file_path : string
}.

(** The body of a successful answer: the dictionary has the one key
    ["results"]. *)
Record search_response : Type := { results : list result_item }.

(** One entry of the list comprehension over the hits.  The last of its
    four expressions calls [.get("file_path", "N/A")] on the value under
    ["metadata"] ([{}] when the key is missing), which raises when that
    value is no object. *)
Definition item_of_hit (h : hit float) : result result_item :=
  match metadata (hit_source h) with
  | Some (NotObject type_name) =>
      Raise (Exn AttributeError
               ("'" +:+ type_name +:+ "' object has no attribute 'get'"))
  | Some (Object entries) =>
      Ok {| text := default "" (content (hit_source h));
            item_metadata := entries;
            score := hit_score h;
            file_path := default "N/A" (entries !! "file_path") |}
  | None =>
      Ok {| text := default "" (content (hit_source h));
            item_metadata := ∅;
            score := hit_score h;
            file_path := "N/A" |}
  end.

(** The list comprehension: the first hit that raises ends it. *)
Fixpoint items_of_hits (hits : list (hit float)) : result (list result_item) :=
  match hits with
  | [] => Ok []
  | h :: hits =>
      match item_of_hit h with
      | Raise e => Raise e
      | Ok item =>
          match items_of_hits hits with
          | Raise e => Raise e
          | Ok items => Ok (item :: items)
          end
      end
  end.

(** An expression that calls no collaborator. *)
Definition evaluate {A} (value : result A) : M A := λ t, (t, value).

(** The statements under [try:] in [search]. *)
Definition search_body (c : collaborators) (request : QueryRequest)
    : M search_response :=
  emit (LogInfo (Searching_for (query request)));;
  query_embedding ← call (ModelEncode (query request))
                         (model_encode c (query request));
  let query_embedding := map float32 query_embedding in
  let search_query := create_search_query query_embedding default_top_k in
  emit (LogInfo (Executing_search_query search_query));;
  response ← call (OpenSearchSearch INDEX_NAME search_query)
                  (opensearch_search c INDEX_NAME search_query);
  emit (LogInfo (Got_response response));;
  let hits := hits response in
  results ← evaluate (items_of_hits hits);
  mret {| results := results |}.

(** The two [except] clauses of [search], in the order they are tried. *)
Definition search_handler (e : exn) : M search_response :=
  if caught_by e RequestError then
    emit (LogError (OpenSearch_request_error (str e)));;
    let error_detail := str e in
    (if contains "search_phase_execution_exception" error_detail
     then emit (LogError Search_phase_execution_exception)
     else mret tt);;
    raise (HTTPException 400 ("Search request error: " +:+ error_detail))
  else
    emit (LogError (Error_during_search (str e)));;
    raise (HTTPException 500 ("Internal server error: " +:+ str e)).

(** [@app.post("/search") async def search(request: QueryRequest)]. *)
Definition search (c : collaborators) (request : QueryRequest)
    : M search_response :=
  try_except (search_body c request) search_handler.

(** The endpoint run on its own: the trace it leaves and its outcome. *)
Definition run_search (c : collaborators) (request : QueryRequest)
    : list event * result search_response :=
  search c request [].

(** The calls to collaborators in a trace. *)
Definition is_encode (ev : event) : bool :=
  match ev with ModelEncode _ => true | _ => false end.

Definition is_store_search (ev : event) : bool :=
  match ev with OpenSearchSearch _ _ => true | _ => false end.

(** The body that [search] sends for the embedding [v]. *)
Definition query_sent (v : list float) : search_query float :=
  create_search_query (map float32 v) default_top_k.

(** The trace up to the call of the model, and up to the call of the
    store. *)
Definition until_encode (q : string) : list event :=
  [LogInfo (Searching_for q); ModelEncode q].

Definition until_search (q : string) (v : list float) : list event :=
  until_encode q
  ++ [LogInfo (Executing_search_query (query_sent v));
      OpenSearchSearch INDEX_NAME (query_sent v)].

(** The status and the detail that the [except] clauses give to an
    exception. *)
Definition status_for (e : exn) : Z :=
  if caught_by e RequestError then 400 else 500.

Definition detail_for (e : exn) : string :=
  (if caught_by e RequestError
   then "Search request error: "
   else "Internal server error: ") +:+ str e.

Definition is_log (ev : event) : bool :=
  match ev with
  | LogInfo _ | LogError _ => true
  | _ => false
  end.

(** The service wired to a store: [opensearch_client.search] answered by
    the cluster in state [st]. *)
Definition against
    (knn_score : list float → list float → float)
    (score_leb : float → float → bool)
    (encode : string → result (list float))
    (st : gmap string (index_data float)) : collaborators :=
  {| model_encode := encode;
     opensearch_search := OpenSearch.search knn_score score_leb st |}.

(** *** The health endpoint *)

(** The three requests of [health_check] to the cluster.  Each may raise. *)
Record health_collaborators : Type := {
  cluster_health : result (gmap string string);
  client_indices_exists : string → result bool;
  client_indices_get_mapping : string → result mapping
}.

Inductive health_event : Type :=
| ClusterHealth
| IndicesExists (index : string)
| IndicesGetMapping (index : string)
| LogCurrentMapping (m : mapping)
| LogHealthCheckFailed (s : string).

(** The dictionary that [health_check] returns. *)
Record health_report : Type := {
  status : string;
  opensearch_status : string;
  index_exists : bool;
  report_mapping : option mapping
}.

Definition H (A : Type) : Type :=
  list health_event → list health_event * result A.

#[local] Instance H_ret : MRet H := λ A a t, (t, Ok a).

#[local] Instance H_bind : MBind H := λ A B k m t,
  match m t with
  | (t', Ok a) => k a t'
  | (t', Raise e) => (t', Raise e)
  end.

Definition health_call {A} (ev : health_event) (answer : result A) : H A :=
  λ t, ((t ++ [ev])%list, answer).

Definition health_log (ev : health_event) : H unit := health_call ev (Ok tt).

(** [d[key]] on a dictionary. *)
Definition getitem (d : gmap string string) (key : string) : H string :=
  λ t, (t, match d !! key with
           | Some v => Ok v
           | None => Raise (Exn KeyError ("'" +:+ key +:+ "'"))
           end).

(** The statements under [try:] in [health_check]. *)
Definition health_body (c : health_collaborators) : H health_report :=
  health ← health_call ClusterHealth (cluster_health c);
  index_exists ← health_call (IndicesExists INDEX_NAME)
                   (client_indices_exists c INDEX_NAME);
  mapping ←
    (if index_exists : bool then
       mapping ← health_call (IndicesGetMapping INDEX_NAME)
                   (client_indices_get_mapping c INDEX_NAME);
       health_log (LogCurrentMapping mapping);;
       mret (Some mapping)
     else mret None);
  opensearch_status ← getitem health "status";
  mret {| status := "healthy";
          opensearch_status := opensearch_status;
          index_exists := index_exists;
          report_mapping := if index_exists then mapping else None |}.

(** [@app.get("/health") async def health_check()]. *)
Definition health_check (c : health_collaborators) : H health_report :=
  λ t, match health_body c t with
       | (t', Raise e) =>
           ((t' ++ [LogHealthCheckFailed (str e)])%list,
            Raise (HTTPException 503 ("Service unhealthy: " +:+ str e)))
       | r => r
       end.

(** The endpoint answers 503 for the exception [e], and the failure is
    the last thing it logged. *)
Definition unhealthy (c : health_collaborators) (e : exn) : Prop :=
  snd (health_check c [])
  = Raise (HTTPException 503 ("Service unhealthy: " +:+ str e))
  ∧ last (fst (health_check c [])) = Some (LogHealthCheckFailed (str e)).

Definition is_get_mapping (ev : health_event) : bool :=
  match ev with
  | IndicesGetMapping _ => true
  | _ => false
  end.

End Service.
Arguments collaborators : clear implicits.
Arguments event : clear implicits.
Arguments result_item : clear implicits.
Arguments search_response : clear implicits.
End Api.

(** ** The ingestion run: [service/embedding_advance/embedding.py] *)

Module Embedding.
Import OpenSearch.
Section Pipeline.

Context {float : Type}.

(** *** Configuration (the defaults of the environment lookups) *)

Definition OPENSEARCH_ENDPOINT : string := "http://opensearch:9200".
Definition OPENSEARCH_INDEX : string := "webinar_pdf_index".
Definition TEXT_FIELD : string := "content".
Definition EMBEDDING_FIELD : string := "embedding".
Definition CHUNK_SIZE : Z := 512.
Definition CHUNK_OVERLAP : Z := 128.
Definition MODEL_NAME : string := "BAAI/bge-m3".
Definition VECTOR_DIM : Z := 1024.

(** *** Data *)

(** [llama_index.core.Document]. *)
Record Document : Type := {
  doc_text : string;
  doc_metadata : gmap string string
}.

(** A node made by the splitter, with the id that the library gave it. *)
Record node : Type := {
  node_id : string;
  node_text : string;
  node_metadata : gmap string string
}.

Inductive level : Type := INFO | WARNING | ERROR.

(** Everything the run does to the outside, in order. *)
Inductive event : Type :=
| Log (lvl : level) (msg : string)
| RequestsGet (url : string)
| Sleep (seconds : Z)
| NewOpenSearch (host : string) (port : Z)
| IndicesExists (index : string)
| IndicesCreate (index : string) (body : mapping)
| MakeDirs (path : string)
| ReadPdf (path : string)
| LoadModel (model_name : string) (max_length : Z) (device : string)
| GetTextEmbedding (text : string)
| NewVectorClient (index : string) (dim : Z)
| BulkWrite (index : string) (records : list (record float))
| PickleDump (path : string).

(** *** The collaborators

    [http_get n] answers the [n]-th [requests.get] of the run: how long
    the request takes, in milliseconds, and the status code of the
    response or the exception raised.  [transport n] tells whether the
    [n]-th request of an OpenSearch client reaches the cluster, or
    which exception the client raises instead.  [makedirs] is the
    exception of [os.makedirs], if it raises one.

    What llama-index does with a node is its own business, and an input
    as well: [embed_input] is the text of a node that it hands to the
    model (the text of the node with its metadata in front),
    [stored_metadata] the metadata that it stores with the node (the
    entries of the node and those that the library adds), and
    [client_mapping dim] the mapping that its client gives to an index
    that the client itself creates. *)
Record environment : Type := {
  http_get : nat → N * result Z;
  transport : nat → option exn;
  cuda_is_available : bool;
  pdf_dir_exists : bool;
  makedirs : option exn;
  glob : list string;
  read_pages : string → result (list string);
  get_nodes_from_documents : Z → Z → string → list Document → list node;
  load_model : option exn;
  get_text_embedding : string → result (list float);
  embed_input : node → string;
  stored_metadata : node → gmap string string;
  client_mapping : Z → mapping;
  pickle_dump : option exn
}.

(** The state of the outside world during a run.  The clock counts
    milliseconds. *)
Record world : Type := World {
  clock : Z;
  store : gmap string (index_data float);
  gets_sent : nat;
  client_requests : nat;
  trace : list event
}.

(** *** Computations

    A computation changes the world and returns or raises; [None] stands
    for a loop that was still running when the fuel ran out. *)
Definition M (A : Type) : Type := world → option (world * result A).

#[local] Instance M_ret : MRet M := λ A a w, Some (w, Ok a).

#[local] Instance M_bind : MBind M := λ A B k m w,
  match m w with
  | Some (w', Ok a) => k a w'
  | Some (w', Raise e) => Some (w', Raise e)
  | None => None
  end.

Definition raise {A} (e : exn) : M A := λ w, Some (w, Raise e).

Definition out_of_fuel {A} : M A := λ _, None.

Definition try_except {A} (body : M A) (handler : exn → M A) : M A :=
  λ w, match body w with
       | Some (w', Raise e) => handler e w'
       | r => r
       end.

Definition record_event (ev : event) (w : world) : world :=
  World (clock w) (store w) (gets_sent w) (client_requests w)
        (trace w ++ [ev])%list.

Definition emit (ev : event) : M unit := λ w, Some (record_event ev w, Ok tt).

Definition logger_info (msg : string) : M unit := emit (Log INFO msg).
Definition logger_warning (msg : string) : M unit := emit (Log WARNING msg).
Definition logger_error (msg : string) : M unit := emit (Log ERROR msg).

(** [time.time()], in milliseconds. *)
Definition time_time : M Z := λ w, Some (w, Ok (clock w)).

Definition seconds (s : Z) : Z := 1000 * s.

(** [time.sleep(s)]. *)
Definition time_sleep (s : Z) : M unit := λ w,
  Some (World (clock w + seconds s) (store w) (gets_sent w) (client_requests w)
              (trace w ++ [Sleep s])%list, Ok tt).

(** [requests.get(url).status_code]: no timeout is passed, the request
    takes as long as it takes. *)
Definition requests_get (env : environment) (url : string) : M Z := λ w,
  let '(took, answer) := http_get env (gets_sent w) in
  Some (World (clock w + Z.of_N took) (store w) (S (gets_sent w))
              (client_requests w) (trace w ++ [RequestsGet url])%list,
        answer).

(** One request of an OpenSearch client: it is counted and recorded, and
    reaches the cluster unless the transport fails. *)
Definition client_request {A} (env : environment) (ev : event)
    (serve : gmap string (index_data float)
             → result A * gmap string (index_data float)) : M A := λ w,
  let w' := World (clock w) (store w) (gets_sent w) (S (client_requests w))
                  (trace w ++ [ev])%list in
  match transport env (client_requests w) with
  | Some e => Some (w', Raise e)
  | None =>
      let '(answer, st) := serve (store w) in
      Some (World (clock w') st (gets_sent w') (client_requests w') (trace w'),
            answer)
  end.

(** *** [wait_for_opensearch] *)

(** The body of the [while] loop: [Some v] when the body returns [v],
    [None] when the loop goes on. *)
Definition wait_step (env : environment) : M (option bool) :=
  try_except
    (status_code ← requests_get env OPENSEARCH_ENDPOINT;
     if bool_decide (status_code = 200)
     then logger_info "OpenSearch is ready";; mret (Some true)
     else mret None)
    (λ _, logger_info "Waiting for OpenSearch...";;
          time_sleep 5;;
          mret None).

Fixpoint wait_loop (fuel : nat) (env : environment) (start_time timeout : Z)
    : M bool :=
  match fuel with
  | O => out_of_fuel
  | S fuel =>
      now ← time_time;
      if bool_decide (now - start_time < seconds timeout) then
        returned ← wait_step env;
        match returned with
        | Some v => mret v
        | None => wait_loop fuel env start_time timeout
        end
      else raise (Exn TimeoutError "OpenSearch did not become ready in time")
  end.

(** [def wait_for_opensearch(timeout=300)]. *)
Definition wait_for_opensearch (fuel : nat) (env : environment) (timeout : Z)
    : M bool :=
  start_time ← time_time;
  wait_loop fuel env start_time timeout.

(** *** [setup_opensearch] *)

Inductive client : Type := OpenSearchClient (host : string) (port : Z).

Definition new_OpenSearch (host : string) (port : Z) : M client :=
  emit (NewOpenSearch host port);; mret (OpenSearchClient host port).

Definition client_indices_exists (env : environment) (index : string) : M bool :=
  client_request env (IndicesExists index)
    (λ st, (Ok (indices_exists st index), st)).

Definition client_indices_create (env : environment) (index : string)
    (body : mapping) : M unit :=
  client_request env (IndicesCreate index body)
    (λ st, indices_create st index body).

Definition index_mapping : mapping :=
  {| knn_field := EMBEDDING_FIELD;
     dimension := VECTOR_DIM;
     method_name := "hnsw";
     space_type := "cosinesimil";
     engine := "nmslib";
     text_field := TEXT_FIELD;
     object_field := "metadata" |}.

(** The statements under [try:] in the retry loop. *)
Definition setup_attempt (env : environment) (host : string) (port : Z)
    : M client :=
  client ← new_OpenSearch host port;
  exists_ ← client_indices_exists env OPENSEARCH_INDEX;
  (if negb exists_ then
     let mapping := index_mapping in
     client_indices_create env OPENSEARCH_INDEX mapping;;
     logger_info ("Created index " +:+ OPENSEARCH_INDEX)
   else mret tt);;
  mret client.

(** [range(n)]. *)
Definition range (n : Z) : list Z := map Z.of_nat (seq 0 (Z.to_nat n)).

(** The [for attempt in range(max_retries)] loop; it returns [None] when
    the loop ends without a [return]. *)
Fixpoint setup_loop (env : environment) (host : string) (port : Z)
    (max_retries : Z) (attempts : list Z) : M (option client) :=
  match attempts with
  | [] => mret None
  | attempt :: attempts =>
      returned ←
        try_except
          (client ← setup_attempt env host port; mret (Some client))
          (λ e,
             if caught_by e ConnectionError || caught_by e NewConnectionError
             then
               if bool_decide (attempt = max_retries - 1) then raise e
               else
                 logger_warning ("Connection attempt " +:+ pretty (attempt + 1)
                                 +:+ " failed, retrying...");;
                 time_sleep 5;;
                 mret None
             else raise e);
      match returned with
      | Some client => mret (Some client)
      | None => setup_loop env host port max_retries attempts
      end
  end.

(** [def setup_opensearch(max_retries=5)].  [host] and [port] are what
    the two [split] expressions give on [OPENSEARCH_ENDPOINT]. *)
Definition setup_opensearch (fuel : nat) (env : environment) (max_retries : Z)
    : M (option client) :=
  let host := "opensearch" in
  let port := 9200 in
  wait_for_opensearch fuel env 300;;
  setup_loop env host port max_retries (range max_retries).

(** *** [read_pdf] and [process_documents] *)

Definition newline : string := String (Ascii.ascii_of_nat 10) "".

(** [open], [pypdf.PdfReader] and [extract_text] on every page: the
    texts of the pages, or the exception that one of the three raised. *)
Definition extract_pages (env : environment) (file_path : string)
    : M (list string) := λ w,
  Some (record_event (ReadPdf file_path) w, read_pages env file_path).

(** [def read_pdf(file_path)]. *)
Definition read_pdf (env : environment) (file_path : string) : M Document :=
  try_except
    (pages ← extract_pages env file_path;
     let text := foldl (λ text page, text +:+ page +:+ newline) "" pages in
     mret {| doc_text := text;
             doc_metadata := {[ "file_path" := file_path ]} |})
    (λ e,
       logger_error ("Error reading PDF " +:+ file_path +:+ ": " +:+ str e);;
       raise e).

(** The [for pdf_file in pdf_dir.glob(...)] loop. *)
Fixpoint read_documents (env : environment) (pdf_files : list string)
    (documents : list Document) : M (list Document) :=
  match pdf_files with
  | [] => mret documents
  | pdf_file :: pdf_files =>
      logger_info ("Processing: " +:+ pdf_file);;
      documents ←
        try_except
          (doc ← read_pdf env pdf_file;
           mret (documents ++ [doc])%list)
          (λ e,
             logger_error ("Error processing " +:+ pdf_file +:+ ": " +:+ str e);;
             mret documents);
      read_documents env pdf_files documents
  end.

Definition torch_device (env : environment) : string :=
  if cuda_is_available env then "cuda" else "cpu".

(** [os.makedirs(path)]. *)
Definition os_makedirs (env : environment) (path : string) : M unit := λ w,
  Some (record_event (MakeDirs path) w,
        match makedirs env with
        | Some e => Raise e
        | None => Ok tt
        end).

(** [def process_documents()].  A directory that had to be created holds
    no file. *)
Definition process_documents (env : environment) : M (list Document) :=
  let device := torch_device env in
  logger_info ("Using device: " +:+ device);;
  (if negb (pdf_dir_exists env) then
     os_makedirs env "pdf_corpus";;
     logger_info "Created pdf_corpus directory"
   else mret tt);;
  documents ← read_documents env
                (if pdf_dir_exists env then glob env else []) [];
  logger_info ("Loaded " +:+ pretty (length documents) +:+ " documents");;
  mret documents.

(** *** [create_index] *)

(** [HuggingFaceEmbedding(model_name, max_length, device)]. *)
Definition HuggingFaceEmbedding (env : environment) (model_name : string)
    (max_length : Z) (device : string) : M unit := λ w,
  Some (record_event (LoadModel model_name max_length device) w,
        match load_model env with
        | Some e => Raise e
        | None => Ok tt
        end).

(** [embed_model.get_text_embedding(text)]. *)
Definition embed_text (env : environment) (text : string) : M (list float) :=
  λ w, Some (record_event (GetTextEmbedding text) w,
             get_text_embedding env text).

(** [OpensearchVectorClient(endpoint, index, dim, ...)]: the constructor
    looks the index up and, when the cluster does not have it, creates it
    with the mapping of the library for [dim]; the engine and the space
    type that are passed do not go into that mapping. *)
Definition OpensearchVectorClient (env : environment) (index : string)
    (dim : Z) (embedding_field text_field engine space_type : string)
    : M unit :=
  client_request env (NewVectorClient index dim)
    (λ st,
       match st !! index with
       | Some _ => (Ok tt, st)
       | None => (Ok tt, <[index := IndexData (client_mapping env dim) []]> st)
       end).

Definition fits (m : mapping) (r : record float) : bool :=
  bool_decide (Z.of_nat (length (embedding r)) = dimension m).

(** The bulk request that writes the records.  Every record is accepted
    or refused on its own: the store keeps those whose vector has the
    dimension of the mapping, and the request fails when one was
    refused.  A record is written under the id of its node, which the
    library makes anew for every node, so that no record that is there
    is replaced. *)
Definition bulk_write (env : environment) (index : string)
    (records : list (record float)) : M unit :=
  client_request env (BulkWrite index records)
    (λ st,
       match st !! index with
       | None =>
           (Raise (Exn NotFoundError
                     ("NotFoundError(404, 'index_not_found_exception', 'no such index ["
                      +:+ index +:+ "]')")), st)
       | Some ix =>
           let accepted := filter (λ r, fits (ix_mapping ix) r) records in
           let st' := <[index := IndexData (ix_mapping ix)
                                   (ix_docs ix ++ accepted)%list]> st in
           if forallb (fits (ix_mapping ix)) records
           then (Ok tt, st')
           else (Raise (Exn BulkIndexError "BulkIndexError: document(s) failed to index"), st')
       end).

(** The embedding of every node, in order.  The model is given
    [embed_input]; the record has the text of the node under the text
    field, [stored_metadata] under ["metadata"], and the vector. *)
Fixpoint embed_nodes (env : environment) (nodes : list node)
    : M (list (record float)) :=
  match nodes with
  | [] => mret []
  | n :: nodes =>
      v ← embed_text env (embed_input env n);
      records ← embed_nodes env nodes;
      mret ({| content := Some (node_text n);
               metadata := Some (Object (stored_metadata env n));
               embedding := v |} :: records)
  end.

(** [VectorStoreIndex(nodes, storage_context, embed_model)]: the nodes
    are embedded, then written to the store. *)
Definition VectorStoreIndex (env : environment) (nodes : list node)
    : M (list (record float)) :=
  match nodes with
  | [] => mret []
  | _ =>
      records ← embed_nodes env nodes;
      bulk_write env OPENSEARCH_INDEX records;;
      mret records
  end.

Definition pickle (env : environment) (path : string) : M unit := λ w,
  Some (record_event (PickleDump path) w,
        match pickle_dump env with
        | Some e => Raise e
        | None => Ok tt
        end).

(** [def create_index(documents)]. *)
Definition create_index (env : environment) (documents : list Document)
    : M (list (record float)) :=
  let device := torch_device env in
  let nodes := get_nodes_from_documents env CHUNK_SIZE CHUNK_OVERLAP " "
                 documents in
  logger_info ("Created " +:+ pretty (length nodes) +:+ " nodes");;
  HuggingFaceEmbedding env MODEL_NAME CHUNK_SIZE device;;
  embeddings ← embed_text env "test";
  let dim := Z.of_nat (length embeddings) in
  (if bool_decide (dim ≠ VECTOR_DIM) then
     raise (Exn ValueError
              ("Model produces " +:+ pretty dim
               +:+ "-dimensional vectors, but index expects "
               +:+ pretty VECTOR_DIM +:+ " dimensions"))
   else mret tt);;
  logger_info ("Embedding dimension: " +:+ pretty dim);;
  (* [retry_strategy] and [session] are built here and used nowhere *)
  OpensearchVectorClient env OPENSEARCH_INDEX dim EMBEDDING_FIELD TEXT_FIELD
    "nmslib" "cosinesimil";;
  index ← VectorStoreIndex env nodes;
  pickle env "index.pkl";;
  logger_info "Index created and saved to index.pkl";;
  mret index.

(** *** [force_update] *)

(** [def force_update()]. *)
Definition force_update (fuel : nat) (env : environment) : M unit :=
  try_except
    (setup_opensearch fuel env 5;;
     documents ← process_documents env;
     match documents with
     | [] => logger_error "No documents found to process"
     | _ =>
         create_index env documents;;
         logger_info "Force update completed successfully"
     end)
    (λ e,
       logger_error ("Error during force update: " +:+ str e);;
       raise e).

(** The world before a run. *)
Definition initial (st : gmap string (index_data float)) : world :=
  World 0 st 0 0 [].

(** *** What a run is expected to load

    The files of the corpus, the document that a readable file gives,
    and the documents and events that [process_documents] is expected
    to leave when the directory of the corpus is there or can be made. *)

Definition corpus (env : environment) : list string :=
  if pdf_dir_exists env then glob env else [].

Definition document_of (file_path : string) (pages : list string) : Document :=
  {| doc_text := foldl (λ text page, text +:+ page +:+ newline) "" pages;
     doc_metadata := {[ "file_path" := file_path ]} |}.

Definition loaded (env : environment) (pdf_files : list string)
    : list Document :=
  omap (λ p, match read_pages env p with
             | Ok pages => Some (document_of p pages)
             | Raise _ => None
             end) pdf_files.

Definition unreadable (env : environment) (pdf_files : list string)
    : list string :=
  List.filter (λ p, match read_pages env p with
                    | Ok _ => false
                    | Raise _ => true
                    end) pdf_files.

Definition read_events (env : environment) (pdf_files : list string)
    : list event :=
  flat_map
    (λ p, Log INFO ("Processing: " +:+ p)
          :: ReadPdf p
          :: match read_pages env p with
             | Ok _ => []
             | Raise e =>
                 [Log ERROR ("Error reading PDF " +:+ p +:+ ": " +:+ str e);
                  Log ERROR ("Error processing " +:+ p +:+ ": " +:+ str e)]
             end)
    pdf_files.

(** The directory of the corpus is there, or can be made. *)
Definition corpus_dir_ready (env : environment) : Prop :=
  pdf_dir_exists env = true ∨ makedirs env = None.

Definition process_events (env : environment) : list event :=
  Log INFO ("Using device: " +:+ torch_device env)
  :: (if pdf_dir_exists env then []
      else [MakeDirs "pdf_corpus"; Log INFO "Created pdf_corpus directory"])
  ++ read_events env (corpus env)
  ++ [Log INFO ("Loaded " +:+ pretty (length (loaded env (corpus env)))
                +:+ " documents")].

(** The world after the events [t]. *)
Definition add_trace (t : list event) (w : world) : world :=
  World (clock w) (store w) (gets_sent w) (client_requests w)
        (trace w ++ t)%list.

(** The cluster answers every probe with status 200 and every request
    of a client reaches it. *)
Definition reachable (env : environment) : Prop :=
  (∀ n, snd (http_get env n) = Ok 200) ∧ (∀ n, transport env n = None).

(** The world after one [requests.get] that took [took] milliseconds. *)
Definition after_get (took : N) (w : world) : world :=
  World (clock w + Z.of_N took) (store w) (S (gets_sent w))
        (client_requests w) (trace w ++ [RequestsGet OPENSEARCH_ENDPOINT])%list.

Definition after_sleep (s : Z) (w : world) : world :=
  World (clock w + seconds s) (store w) (gets_sent w) (client_requests w)
        (trace w ++ [Sleep s])%list.

(** The world after a request of a client was sent, and after the
    cluster changed to [st]. *)
Definition after_request (ev : event) (w : world) : world :=
  World (clock w) (store w) (gets_sent w) (S (client_requests w))
        (trace w ++ [ev])%list.

Definition with_store (st : gmap string (index_data float)) (w : world)
    : world :=
  World (clock w) st (gets_sent w) (client_requests w) (trace w).

(** The events of the readiness poll. *)
Definition is_poll_event (ev : event) : bool :=
  match ev with
  | RequestsGet _ | Sleep _ | Log INFO _ => true
  | _ => false
  end.

(** A computation that ends, and only adds to the trace. *)
Definition steady {A} (m : M A) : Prop :=
  ∀ w, ∃ w' r t, m w = Some (w', r) ∧ trace w' = (trace w ++ t)%list.

(** *** Reading a trace *)

Definition messages (t : list event) : list (level * string) :=
  omap (λ ev, match ev with Log l m => Some (l, m) | _ => None end) t.

Definition is_create (ev : event) : bool :=
  match ev with
  | IndicesCreate _ _ => true
  | _ => false
  end.

Definition is_write (ev : event) : bool :=
  match ev with
  | BulkWrite _ _ => true
  | _ => false
  end.

Definition is_attempt (ev : event) : bool :=
  match ev with
  | NewOpenSearch _ _ => true
  | _ => false
  end.

Definition is_sleep (ev : event) : bool :=
  match ev with
  | Sleep _ => true
  | _ => false
  end.

(** *** Accounting for a run *)

(** The probes that raised among [count] probes from the [first], and the
    time these probes took. *)
Definition probe_raises (env : environment) (n : nat) : bool :=
  match snd (http_get env n) with
  | Ok _ => false
  | Raise _ => true
  end.

Definition raised_among (env : environment) (first count : nat) : nat :=
  length (List.filter (probe_raises env) (seq first count)).

Definition time_of_probes (env : environment) (first count : nat) : Z :=
  foldr (λ n total, Z.of_N (fst (http_get env n)) + total) 0 (seq first count).

(** The exceptions that the retry loop catches. *)
Definition retryable (e : exn) : bool :=
  caught_by e ConnectionError || caught_by e NewConnectionError.

(** The model loads, and gives every text a vector of the configured
    dimension. *)
Definition model_works (env : environment) : Prop :=
  load_model env = None
  ∧ ∀ text, ∃ v, get_text_embedding env text = Ok v
                 ∧ Z.of_nat (length v) = VECTOR_DIM.

(** The record that is written for a node. *)
Definition vector_of (env : environment) (text : string) : list float :=
  match get_text_embedding env text with
  | Ok v => v
  | Raise _ => []
  end.

Definition record_of (env : environment) (n : node) : record float :=
  {| content := Some (node_text n);
     metadata := Some (Object (stored_metadata env n));
     embedding := vector_of env (embed_input env n) |}.

(** The nodes of the documents that a run loads. *)
Definition nodes_of (env : environment) : list node :=
  get_nodes_from_documents env CHUNK_SIZE CHUNK_OVERLAP " "
    (loaded env (corpus env)).

Definition uses_model (ev : event) : bool :=
  match ev with
  | LoadModel _ _ _ | GetTextEmbedding _ => true
  | _ => false
  end.

Definition is_read (ev : event) : bool :=
  match ev with
  | ReadPdf _ => true
  | _ => false
  end.

End Pipeline.
Arguments environment : clear implicits.
Arguments world : clear implicits.
Arguments event : clear implicits.
End Embedding.

(** ** The page: [service/app_advance/app.py]

    The parts of the page that call the query service: the check of its
    health, the handler of the search button, and the choice of the
    results that go into the prompt. *)

Module App.
Section Page.

Context {float : Type}.

(** [<] on scores, and [str.strip]. *)
Context (score_ltb : float → float → bool).
Context (strip : string → string).

Definition SEARCH_TIMEOUT : Z := 30.
Definition OLLAMA_TIMEOUT : Z := 120.
Definition MODEL_NAME : string := "qwen2:0.5b".
Definition API_URL : string := "http://api:8000".
Definition OLLAMA_URL : string := "http://ollama:11434".

(** The JSON that the page posts: [{"query": user_input}] to the query
    service, [{"name": MODEL_NAME}] and [llm_payload] to Ollama.  The
    entries ["stream"] and ["options"] of [llm_payload] are constants. *)
Inductive payload : Type :=
| Query (query : string)
| PullModel (name : string)
| Generate (model prompt : string).

(** A JSON object, by the keys that the page looks up: ["results"] in
    the answer of the query service, ["models"] with the ["name"] of each
    model and ["response"] in the answers of Ollama.  A key may be
    missing; the values have the types that the services give them. *)
Record json_object : Type := {
  key_results : option (list (Api.result_item float));
  key_models : option (list (option string));
  key_response : option string
}.

(** The body of a response: [response.json()] raises, or gives an
    object. *)
Inductive body : Type :=
| NotJson (error : string)
| Json (data : json_object).

Record response : Type := {
  status_code : Z;
  reason : string;
  response_body : body
}.

(** What a request of the session gives, retries included: a response,
    or an exception of [requests], of which the page only reads [str]. *)
Inductive answer : Type :=
| Responded (r : response)
| Failed (error : string).

(** The network: [http.get(url, timeout)] and
    [http.post(url, json, timeout)]. *)
Record network : Type := {
  http_get : string → Z → answer;
  http_post : string → payload → Z → answer
}.

(** [st.session_state]. *)
Record session_state : Type := {
  search_results : option (list (Api.result_item float));
  llm_response : option string
}.

Inductive page_event : Type :=
| HttpGet (url : string) (timeout : Z)
| HttpPost (url : string) (json : payload) (timeout : Z)
| StWarning (message : string)
| StError (message : string)
| StSuccess (message : string).

(** The page while a handler runs: the session and what was done. *)
Record page : Type := Page {
  session : session_state;
  done : list page_event
}.

(** How a block of the script ends: it falls through, it raises an
    exception (of which [str] is kept), or [st.stop()] ended the script. *)
Inductive outcome (A : Type) : Type :=
| Done (a : A)
| Raised (error : string)
| Stopped.
Arguments Done {A} a.
Arguments Raised {A} error.
Arguments Stopped {A}.

Definition U (A : Type) : Type := page → page * outcome A.

#[local] Instance U_ret : MRet U := λ A a p, (p, Done a).

#[local] Instance U_bind : MBind U := λ A B k m p,
  match m p with
  | (p', Done a) => k a p'
  | (p', Raised e) => (p', Raised e)
  | (p', Stopped) => (p', Stopped)
  end.

Definition raise {A} (error : string) : U A := λ p, (p, Raised error).

Definition act (ev : page_event) : U unit :=
  λ p, (Page (session p) (done p ++ [ev])%list, Done tt).

Definition st_warning (message : string) : U unit := act (StWarning message).
Definition st_error (message : string) : U unit := act (StError message).
Definition st_success (message : string) : U unit := act (StSuccess message).

(** [st.stop()]: the script ends here; no [except Exception] catches it. *)
Definition st_stop {A} : U A := λ p, (p, Stopped).

(** [except Exception as e]. *)
Definition try_except {A} (block : U A) (handler : string → U A) : U A :=
  λ p, match block p with
       | (p', Raised e) => handler e p'
       | r => r
       end.

(** A bare [except:]. *)
Definition try_except_all {A} (block : U A) (handler : U A) : U A :=
  λ p, match block p with
       | (p', Done a) => (p', Done a)
       | (p', _) => handler p'
       end.

Definition get (net : network) (url : string) (timeout : Z) : U response :=
  λ p, (Page (session p) (done p ++ [HttpGet url timeout])%list,
        match http_get net url timeout with
        | Responded r => Done r
        | Failed e => Raised e
        end).

Definition post (net : network) (url : string) (json : payload) (timeout : Z)
    : U response :=
  λ p, (Page (session p) (done p ++ [HttpPost url json timeout])%list,
        match http_post net url json timeout with
        | Responded r => Done r
        | Failed e => Raised e
        end).

(** [response.raise_for_status()]. *)
Definition raise_for_status (url : string) (r : response) : U unit :=
  if bool_decide (400 ≤ status_code r < 500) then
    raise (pretty (status_code r) +:+ " Client Error: " +:+ reason r
           +:+ " for url: " +:+ url)
  else if bool_decide (500 ≤ status_code r < 600) then
    raise (pretty (status_code r) +:+ " Server Error: " +:+ reason r
           +:+ " for url: " +:+ url)
  else mret tt.

(** [response.json()]. *)
Definition json (r : response) : U json_object :=
  match response_body r with
  | NotJson error => raise error
  | Json data => mret data
  end.

(** [data[key]]. *)
Definition getitem {A} (key : string) (value : option A) : U A :=
  match value with
  | Some v => mret v
  | None => raise ("'" +:+ key +:+ "'")
  end.

Definition get_session : U session_state := λ p, (p, Done (session p)).

Definition set_search_results (results : list (Api.result_item float))
    : U unit :=
  λ p, (Page {| search_results := Some results;
                llm_response := llm_response (session p) |} (done p),
        Done tt).

Definition set_llm_response (text : string) : U unit :=
  λ p, (Page {| search_results := search_results (session p);
                llm_response := Some text |} (done p),
        Done tt).

(** [def check_api_health()]. *)
Definition check_api_health (net : network) : U bool :=
  try_except_all
    (response ← get net (API_URL +:+ "/health") 5;
     mret (bool_decide (status_code response = 200)))
    (mret false).

(** [def ensure_model_loaded()]. *)
Definition ensure_model_loaded (net : network) : U bool :=
  try_except
    (response ← get net (OLLAMA_URL +:+ "/api/tags") 5;
     data ← json response;
     let models := default [] (key_models data) in
     if negb (existsb (λ name, bool_decide (name = Some MODEL_NAME)) models)
     then
       st_warning ("กำลังโหลดโมเดล " +:+ MODEL_NAME +:+ "...");;
       response ← post net (OLLAMA_URL +:+ "/api/pull") (PullModel MODEL_NAME)
                    600;
       mret (bool_decide (status_code response = 200))
     else mret true)
    (λ e, st_error ("ไม่สามารถโหลดโมเดลได้: " +:+ e);; mret false).

(** [def get_ollama_response(prompt)]. *)
Definition get_ollama_response (net : network) (prompt : string)
    : U (option string) :=
  let llm_payload := Generate MODEL_NAME prompt in
  try_except
    (response ← post net (OLLAMA_URL +:+ "/api/generate") llm_payload
                  OLLAMA_TIMEOUT;
     raise_for_status (OLLAMA_URL +:+ "/api/generate") response;;
     data ← json response;
     mret (Some (default "" (key_response data))))
    (λ e, st_error ("Error calling Ollama: " +:+ e);; mret None).

(** The block under [if st.button("ค้นหา"):]. *)
Definition search_clicked (net : network) (user_input : string) : U unit :=
  if bool_decide (user_input ≠ "") then
    try_except
      (healthy ← check_api_health net;
       (if negb healthy then
          st_error "ไม่สามารถเชื่อมต่อกับ API ได้";;
          st_stop
        else mret tt);;
       response ← post net (API_URL +:+ "/search") (Query user_input)
                    SEARCH_TIMEOUT;
       raise_for_status (API_URL +:+ "/search") response;;
       data ← json response;
       results ← getitem "results" (key_results data);
       set_search_results results;;
       st_success "ค้นพบข้อมูลที่เกี่ยวข้อง")
      (λ e, st_error ("เกิดข้อผิดพลาดในการค้นหา: " +:+ e))
  else mret tt.

(** [sorted(results, key=lambda x: x['score'], reverse=True)]: the sort
    is stable, results of equal score keep their order.  For scores that
    [<] orders, every stable sort gives this list. *)
Fixpoint insert_result (x : Api.result_item float)
    (l : list (Api.result_item float)) : list (Api.result_item float) :=
  match l with
  | [] => [x]
  | y :: l' =>
      if score_ltb (Api.score x) (Api.score y)
      then y :: insert_result x l'
      else x :: l
  end.

Definition sorted_by_score (results : list (Api.result_item float))
    : list (Api.result_item float) :=
  foldr insert_result [] results.

(** [sorted_results = sorted(...)[:2]]: the results that go into the
    prompt. *)
Definition sorted_results (results : list (Api.result_item float))
    : list (Api.result_item float) :=
  take 2 (sorted_by_score results).

(** [sep.join(l)]. *)
Fixpoint join (sep : string) (l : list string) : string :=
  match l with
  | [] => ""
  | s :: l' =>
      match l' with
      | [] => s
      | _ :: _ => s +:+ sep +:+ join sep l'
      end
  end.

(** [context] and [prompt] of the analysis. *)
Definition context_of (chosen : list (Api.result_item float)) : string :=
  join (Embedding.newline +:+ Embedding.newline)
    (map (λ result, "ข้อความ: " +:+ Api.text result +:+ Embedding.newline
                    +:+ "ที่มา: " +:+ Api.file_path result)
         chosen).

Definition prompt_of (user_input context : string) : string :=
  "<|im_start|>system" +:+ Embedding.newline
  +:+ "คุณเป็นผู้เชี่ยวชาญด้านการดูแลรักษาโครงข่าย Fiber Optic จะตอบคำถามโดยใช้ข้อมูลที่ให้มาเท่านั้น"
  +:+ Embedding.newline
  +:+ "<|im_end|>" +:+ Embedding.newline
  +:+ "<|im_start|>user" +:+ Embedding.newline
  +:+ "คำถาม: " +:+ user_input +:+ Embedding.newline +:+ Embedding.newline
  +:+ "ข้อมูลอ้างอิง:" +:+ Embedding.newline
  +:+ context +:+ "<|im_end|>" +:+ Embedding.newline
  +:+ "<|im_start|>assistant" +:+ Embedding.newline.

(** [if st.session_state.search_results:]. *)
Definition truthy (results : option (list (Api.result_item float))) : bool :=
  match results with
  | Some (_ :: _) => true
  | _ => false
  end.

(** The block under [if st.button("วิเคราะห์", ...):]. *)
Definition analyse_clicked (net : network) (user_input : string) : U unit :=
  state ← get_session;
  if truthy (search_results state) then
    try_except
      (loaded ← ensure_model_loaded net;
       (if negb loaded then
          st_error "ไม่สามารถโหลดโมเดล AI ได้";;
          st_stop
        else mret tt);;
       state ← get_session;
       results ← match search_results state with
                 | Some results => mret results
                 | None => raise "'NoneType' object is not iterable"
                 end;
       let sorted_results := sorted_results results in
       let context := context_of sorted_results in
       let prompt := prompt_of user_input context in
       response_text ← get_ollama_response net prompt;
       match response_text with
       | Some text =>
           if bool_decide (text ≠ "") then
             set_llm_response (strip text);;
             st_success "วิเคราะห์ข้อมูลเสร็จสิ้น"
           else st_error "ไม่สามารถวิเคราะห์ข้อมูลได้ กรุณาลองใหม่อีกครั้ง"
       | None => st_error "ไม่สามารถวิเคราะห์ข้อมูลได้ กรุณาลองใหม่อีกครั้ง"
       end)
      (λ e, st_error ("เกิดข้อผิดพลาดในการวิเคราะห์: " +:+ e))
  else mret tt.

(** No result is followed by one of a greater score. *)
Fixpoint descending (l : list (Api.result_item float)) : Prop :=
  match l with
  | x :: (y :: _) as l' =>
      score_ltb (Api.score x) (Api.score y) = false ∧ descending l'
  | _ => True
  end.

Definition is_post (ev : page_event) : bool :=
  match ev with
  | HttpPost _ _ _ => true
  | _ => false
  end.

Definition is_generate (ev : page_event) : bool :=
  match ev with
  | HttpPost _ (Generate _ _) _ => true
  | _ => false
  end.

Definition is_pull (ev : page_event) : bool :=
  match ev with
  | HttpPost _ (PullModel _) _ => true
  | _ => false
  end.

Definition is_error (ev : page_event) : bool :=
  match ev with
  | StError _ => true
  | _ => false
  end.

(** The response to the check of health is a 200, and a search that was
    posted was answered with results. *)
Definition healthy (net : network) : bool :=
  match http_get net (API_URL +:+ "/health") 5 with
  | Responded r => bool_decide (status_code r = 200)
  | Failed _ => false
  end.

Definition searched (net : network) (query : string)
    : option (list (Api.result_item float)) :=
  match http_post net (API_URL +:+ "/search") (Query query) SEARCH_TIMEOUT with
  | Responded r =>
      if bool_decide (400 ≤ status_code r < 600) then None
      else match response_body r with
           | Json data => key_results data
           | NotJson _ => None
           end
  | Failed _ => None
  end.

(** The models that Ollama lists, when it answers with an object; the
    model of the page is among them; the pull of the model is answered
    with a 200. *)
Definition listed (net : network) : option (list (option string)) :=
  match http_get net (OLLAMA_URL +:+ "/api/tags") 5 with
  | Responded r =>
      match response_body r with
      | Json data => Some (default [] (key_models data))
      | NotJson _ => None
      end
  | Failed _ => None
  end.

Definition has_model (models : list (option string)) : bool :=
  existsb (λ name, bool_decide (name = Some MODEL_NAME)) models.

Definition pulled (net : network) : bool :=
  match http_post net (OLLAMA_URL +:+ "/api/pull") (PullModel MODEL_NAME) 600
  with
  | Responded r => bool_decide (status_code r = 200)
  | Failed _ => false
  end.

Definition model_loaded (net : network) : bool :=
  match listed net with
  | Some models => has_model models || pulled net
  | None => false
  end.

(** The text that Ollama generates for a prompt, when the request is
    answered with a status that is no error and with an object. *)
Definition generated (net : network) (prompt : string) : option string :=
  match http_post net (OLLAMA_URL +:+ "/api/generate")
          (Generate MODEL_NAME prompt) OLLAMA_TIMEOUT with
  | Responded r =>
      if bool_decide (400 ≤ status_code r < 600) then None
      else match response_body r with
           | Json data => Some (default "" (key_response data))
           | NotJson _ => None
           end
  | Failed _ => None
  end.

(** The prompt that the analysis builds from the question and the
    results of the session. *)
Definition prompt_for (user_input : string)
    (results : option (list (Api.result_item float))) : string :=
  prompt_of user_input (context_of (sorted_results (default [] results))).

End Page.
Arguments Done {A} a.
Arguments Raised {A} error.
Arguments Stopped {A}.
Arguments json_object : clear implicits.
Arguments body : clear implicits.
Arguments response : clear implicits.
Arguments answer : clear implicits.
Arguments network : clear implicits.
Arguments session_state : clear implicits.
Arguments page : clear implicits.
End App.

(** ** Concrete runs

  The components of vectors and the scores are integers here; nothing
  below depends on what they are. *)

Module Scenario.
Import OpenSearch.

Definition dot (q v : list Z) : Z :=
  foldr Z.add 0 (zip_with Z.mul q v).

Definition same (x : Z) : Z := x.

(** An embedding model that answers every text with three components. *)
Definition encode3 (text : string) : result (list Z) := Ok [1; 2; 3].

(** A cluster without any index, one with the index and no record, and
    one with the index and a single record of dimension 1024. *)
Definition no_index : gmap string (index_data Z) := ∅.

Definition empty_index : gmap string (index_data Z) :=
  {[ Api.INDEX_NAME := IndexData Embedding.index_mapping [] ]}.

Definition splice_record : record Z :=
  {| content := Some "Fiber splice loss should not exceed 0.3 dB per joint";
     metadata := Some (Object {[ "file_path" := "pdf_corpus/splice.pdf" ]});
     embedding := replicate 1024 1 |}.

Definition one_record : gmap string (index_data Z) :=
  {[ Api.INDEX_NAME := IndexData Embedding.index_mapping [splice_record] ]}.

Definition service (st : gmap string (index_data Z)) : Api.collaborators Z :=
  Api.against dot Z.leb encode3 st.

(** Five records of dimension 3, as an index fed by [encode3] has. *)
Definition short_record (text : string) (v : list Z) : record Z :=
  {| content := Some text;
     metadata := Some (Object {[ "file_path" := "pdf_corpus/notes.pdf" ]});
     embedding := v |}.

Definition five_records : gmap string (index_data Z) :=
  {[ Api.INDEX_NAME :=
       IndexData Embedding.index_mapping
         [short_record "one" [1; 0; 0]; short_record "two" [0; 1; 0];
          short_record "three" [0; 0; 1]; short_record "four" [1; 1; 0];
          short_record "five" [1; 1; 1]] ]}.

(** Runs of the endpoint against these clusters. *)
Definition ask (st : gmap string (index_data Z)) (q : string)
    : list (Api.event Z) * result (Api.search_response Z) :=
  Api.run_search same (service st) {| Api.query := q |}.

(** *** Ingestion runs *)

(** A splitter that makes one node of each document. *)
Definition one_node_each (chunk_size chunk_overlap : Z) (separator : string)
    (documents : list Embedding.Document) : list Embedding.node :=
  map (λ d, {| Embedding.node_id :=
                 "node of "
                 +:+ default "" (Embedding.doc_metadata d !! "file_path");
               Embedding.node_text := Embedding.doc_text d;
               Embedding.node_metadata := Embedding.doc_metadata d |})
      documents.

(** What the library makes of a node: for the model, the text with the
    metadata in front; for the store, the entries of the node and five
    of its own. *)
Definition with_metadata (n : Embedding.node) : string :=
  "file_path: " +:+ default "" (Embedding.node_metadata n !! "file_path")
  +:+ Embedding.newline +:+ Embedding.newline +:+ Embedding.node_text n.

Definition as_stored (n : Embedding.node) : gmap string string :=
  <["_node_content" := "{id_: " +:+ Embedding.node_id n +:+ "}"]>
    (<["_node_type" := "TextNode"]>
       (<["document_id" := "None"]>
          (<["doc_id" := "None"]>
             (<["ref_doc_id" := "None"]> (Embedding.node_metadata n))))).

(** The mapping of an index that the client of the library creates: the
    vector field alone, compared by [l2]. *)
Definition library_mapping (dim : Z) : mapping :=
  {| knn_field := "embedding";
     dimension := dim;
     method_name := "hnsw";
     space_type := "l2";
     engine := "nmslib";
     text_field := "";
     object_field := "" |}.

(** A corpus of four files, of which only the last can be read. *)
Definition four_files : list string :=
  ["pdf_corpus/a.pdf"; "pdf_corpus/b.pdf"; "pdf_corpus/c.pdf";
   "pdf_corpus/d.pdf"].

Definition only_d (file_path : string) : result (list string) :=
  if String.eqb file_path "pdf_corpus/d.pdf"
  then Ok ["Fiber splice loss should not exceed 0.3 dB per joint"]
  else Raise (Exn PdfReadError "EOF marker not found").

(** The cluster answers within 20 milliseconds, the model produces 1024
    components. *)
Definition ready : Embedding.environment Z :=
  {| Embedding.http_get := λ _, (20%N, Ok 200);
     Embedding.transport := λ _, None;
     Embedding.cuda_is_available := false;
     Embedding.pdf_dir_exists := true;
     Embedding.makedirs := None;
     Embedding.glob := four_files;
     Embedding.read_pages := only_d;
     Embedding.get_nodes_from_documents := one_node_each;
     Embedding.load_model := None;
     Embedding.get_text_embedding := λ _, Ok (replicate 1024 1);
     Embedding.embed_input := with_metadata;
     Embedding.stored_metadata := as_stored;
     Embedding.client_mapping := library_mapping;
     Embedding.pickle_dump := None |}.

(** The same, with a model that produces 3 components. *)
Definition narrow_model : Embedding.environment Z :=
  {| Embedding.http_get := λ _, (20%N, Ok 200);
     Embedding.transport := λ _, None;
     Embedding.cuda_is_available := false;
     Embedding.pdf_dir_exists := true;
     Embedding.makedirs := None;
     Embedding.glob := four_files;
     Embedding.read_pages := only_d;
     Embedding.get_nodes_from_documents := one_node_each;
     Embedding.load_model := None;
     Embedding.get_text_embedding := encode3;
     Embedding.embed_input := with_metadata;
     Embedding.stored_metadata := as_stored;
     Embedding.client_mapping := library_mapping;
     Embedding.pickle_dump := None |}.

(** The cluster is down: every probe fails after 4 seconds, and no
    request of a client gets through. *)
Definition down : Embedding.environment Z :=
  {| Embedding.http_get :=
       λ _, (4000%N, Raise (Exn ConnectionError "Connection refused"));
     Embedding.transport :=
       λ _, Some (Exn ConnectionError "ConnectionError(Connection refused)");
     Embedding.cuda_is_available := false;
     Embedding.pdf_dir_exists := true;
     Embedding.makedirs := None;
     Embedding.glob := four_files;
     Embedding.read_pages := only_d;
     Embedding.get_nodes_from_documents := one_node_each;
     Embedding.load_model := None;
     Embedding.get_text_embedding := λ _, Ok (replicate 1024 1);
     Embedding.embed_input := with_metadata;
     Embedding.stored_metadata := as_stored;
     Embedding.client_mapping := library_mapping;
     Embedding.pickle_dump := None |}.

(** The world before a run on a cluster without any index. *)
Definition fresh : Embedding.world Z := Embedding.initial no_index.

(** What a run leaves: the clock, the messages logged, the outcome. *)
Definition summary {A} (run : option (Embedding.world Z * result A))
    : option (Z * list (Embedding.level * string) * result A) :=
  (λ out, (Embedding.clock (fst out),
           Embedding.messages (Embedding.trace (fst out)),
           snd out)) <$> run.

(** The messages of the run over [four_files] on a fresh cluster. *)
Definition log_of_four_files : list (Embedding.level * string) :=
  [(Embedding.INFO, "OpenSearch is ready");
   (Embedding.INFO, "Created index webinar_pdf_index");
   (Embedding.INFO, "Using device: cpu");
   (Embedding.INFO, "Processing: pdf_corpus/a.pdf");
   (Embedding.ERROR, "Error reading PDF pdf_corpus/a.pdf: EOF marker not found");
   (Embedding.ERROR, "Error processing pdf_corpus/a.pdf: EOF marker not found");
   (Embedding.INFO, "Processing: pdf_corpus/b.pdf");
   (Embedding.ERROR, "Error reading PDF pdf_corpus/b.pdf: EOF marker not found");
   (Embedding.ERROR, "Error processing pdf_corpus/b.pdf: EOF marker not found");
   (Embedding.INFO, "Processing: pdf_corpus/c.pdf");
   (Embedding.ERROR, "Error reading PDF pdf_corpus/c.pdf: EOF marker not found");
   (Embedding.ERROR, "Error processing pdf_corpus/c.pdf: EOF marker not found");
   (Embedding.INFO, "Processing: pdf_corpus/d.pdf");
   (Embedding.INFO, "Loaded 1 documents");
   (Embedding.INFO, "Created 1 nodes");
   (Embedding.INFO, "Embedding dimension: 1024");
   (Embedding.INFO, "Index created and saved to index.pkl");
   (Embedding.INFO, "Force update completed successfully")].

(** *** More runs of the ingestion *)

(** The cluster comes up late: the first two probes are refused after 4
    seconds, and so are the first two requests of a client. *)
Definition slow_start : Embedding.environment Z :=
  {| Embedding.http_get :=
       λ n, if (n <? 2)%nat
            then (4000%N, Raise (Exn ConnectionError "Connection refused"))
            else (20%N, Ok 200);
     Embedding.transport :=
       λ n, if (n <? 2)%nat
            then Some (Exn ConnectionError "ConnectionError(Connection refused)")
            else None;
     Embedding.cuda_is_available := false;
     Embedding.pdf_dir_exists := true;
     Embedding.makedirs := None;
     Embedding.glob := four_files;
     Embedding.read_pages := only_d;
     Embedding.get_nodes_from_documents := one_node_each;
     Embedding.load_model := None;
     Embedding.get_text_embedding := λ _, Ok (replicate 1024 1);
     Embedding.embed_input := with_metadata;
     Embedding.stored_metadata := as_stored;
     Embedding.client_mapping := library_mapping;
     Embedding.pickle_dump := None |}.

(** The cluster answers the probes, and every request of a client with
    an error that is no connection error. *)
Definition blocked : Embedding.environment Z :=
  {| Embedding.http_get := λ _, (20%N, Ok 200);
     Embedding.transport :=
       λ _, Some (Exn TransportError
                    "TransportError(503, 'cluster_block_exception')");
     Embedding.cuda_is_available := false;
     Embedding.pdf_dir_exists := true;
     Embedding.makedirs := None;
     Embedding.glob := four_files;
     Embedding.read_pages := only_d;
     Embedding.get_nodes_from_documents := one_node_each;
     Embedding.load_model := None;
     Embedding.get_text_embedding := λ _, Ok (replicate 1024 1);
     Embedding.embed_input := with_metadata;
     Embedding.stored_metadata := as_stored;
     Embedding.client_mapping := library_mapping;
     Embedding.pickle_dump := None |}.

(** Everything works but the pickle at the end. *)
Definition read_only_disk : Embedding.environment Z :=
  {| Embedding.http_get := λ _, (20%N, Ok 200);
     Embedding.transport := λ _, None;
     Embedding.cuda_is_available := false;
     Embedding.pdf_dir_exists := true;
     Embedding.makedirs := None;
     Embedding.glob := four_files;
     Embedding.read_pages := only_d;
     Embedding.get_nodes_from_documents := one_node_each;
     Embedding.load_model := None;
     Embedding.get_text_embedding := λ _, Ok (replicate 1024 1);
     Embedding.embed_input := with_metadata;
     Embedding.stored_metadata := as_stored;
     Embedding.client_mapping := library_mapping;
     Embedding.pickle_dump :=
       Some (Exn OSError "[Errno 30] Read-only file system: 'index.pkl'") |}.

(** The directory of the corpus is there, without any file. *)
Definition empty_corpus : Embedding.environment Z :=
  {| Embedding.http_get := λ _, (20%N, Ok 200);
     Embedding.transport := λ _, None;
     Embedding.cuda_is_available := false;
     Embedding.pdf_dir_exists := true;
     Embedding.makedirs := None;
     Embedding.glob := [];
     Embedding.read_pages := only_d;
     Embedding.get_nodes_from_documents := one_node_each;
     Embedding.load_model := None;
     Embedding.get_text_embedding := λ _, Ok (replicate 1024 1);
     Embedding.embed_input := with_metadata;
     Embedding.stored_metadata := as_stored;
     Embedding.client_mapping := library_mapping;
     Embedding.pickle_dump := None |}.

(** The directory of the corpus is missing, and cannot be made. *)
Definition no_corpus_dir : Embedding.environment Z :=
  {| Embedding.http_get := λ _, (20%N, Ok 200);
     Embedding.transport := λ _, None;
     Embedding.cuda_is_available := false;
     Embedding.pdf_dir_exists := false;
     Embedding.makedirs :=
       Some (Exn OSError "[Errno 13] Permission denied: 'pdf_corpus'");
     Embedding.glob := [];
     Embedding.read_pages := only_d;
     Embedding.get_nodes_from_documents := one_node_each;
     Embedding.load_model := None;
     Embedding.get_text_embedding := λ _, Ok (replicate 1024 1);
     Embedding.embed_input := with_metadata;
     Embedding.stored_metadata := as_stored;
     Embedding.client_mapping := library_mapping;
     Embedding.pickle_dump := None |}.

(** A later run over the same corpus: the library gives the nodes other
    ids. *)
Definition other_ids (chunk_size chunk_overlap : Z) (separator : string)
    (documents : list Embedding.Document) : list Embedding.node :=
  map (λ d, {| Embedding.node_id :=
                 "later node of "
                 +:+ default "" (Embedding.doc_metadata d !! "file_path");
               Embedding.node_text := Embedding.doc_text d;
               Embedding.node_metadata := Embedding.doc_metadata d |})
      documents.

Definition ready_again : Embedding.environment Z :=
  {| Embedding.http_get := λ _, (20%N, Ok 200);
     Embedding.transport := λ _, None;
     Embedding.cuda_is_available := false;
     Embedding.pdf_dir_exists := true;
     Embedding.makedirs := None;
     Embedding.glob := four_files;
     Embedding.read_pages := only_d;
     Embedding.get_nodes_from_documents := other_ids;
     Embedding.load_model := None;
     Embedding.get_text_embedding := λ _, Ok (replicate 1024 1);
     Embedding.embed_input := with_metadata;
     Embedding.stored_metadata := as_stored;
     Embedding.client_mapping := library_mapping;
     Embedding.pickle_dump := None |}.

(** The world before a run on a cluster that has the index, empty. *)
Definition indexed : Embedding.world Z := Embedding.initial empty_index.

Definition splice_document : Embedding.Document :=
  {| Embedding.doc_text :=
       "Fiber splice loss should not exceed 0.3 dB per joint";
     Embedding.doc_metadata := {[ "file_path" := "pdf_corpus/d.pdf" ]} |}.

(** A model of the query service that produces 1024 components. *)
Definition encode1024 (text : string) : result (list Z) :=
  Ok (replicate 1024 1).

(** An index of three records of dimension 3, of which the second has
    JSON null for metadata. *)
Definition null_metadata : gmap string (index_data Z) :=
  {[ Api.INDEX_NAME :=
       IndexData Embedding.index_mapping
         [short_record "one" [3; 0; 0];
          {| content := Some "two"; metadata := Some (NotObject "NoneType");
             embedding := [2; 0; 0] |};
          short_record "three" [1; 0; 0]] ]}.

(** *** The health endpoint *)

Definition green_cluster : Api.health_collaborators :=
  {| Api.cluster_health := Ok {[ "status" := "green" ]};
     Api.client_indices_exists := λ _, Ok true;
     Api.client_indices_get_mapping := λ _, Ok Embedding.index_mapping |}.

Definition cluster_gone : Api.health_collaborators :=
  {| Api.cluster_health :=
       Raise (Exn ConnectionError "ConnectionError(Connection refused)");
     Api.client_indices_exists := λ _, Ok false;
     Api.client_indices_get_mapping := λ _, Ok Embedding.index_mapping |}.

(** The cluster answers, without the key ["status"]. *)
Definition no_status : Api.health_collaborators :=
  {| Api.cluster_health := Ok {[ "cluster_name" := "docker-cluster" ]};
     Api.client_indices_exists := λ _, Ok false;
     Api.client_indices_get_mapping := λ _, Ok Embedding.index_mapping |}.

(** *** The page *)

Definition item (text : string) (score : Z) : Api.result_item Z :=
  {| Api.text := text;
     Api.item_metadata := {[ "file_path" := "pdf_corpus/notes.pdf" ]};
     Api.score := score;
     Api.file_path := "pdf_corpus/notes.pdf" |}.

(** Results out of order, with two of the same score, and the same
    results as the service ranks them. *)
Definition unranked : list (Api.result_item Z) :=
  [item "one" 3; item "two" 7; item "three" 7].

Definition by_score : list (Api.result_item Z) :=
  [item "two" 7; item "three" 7; item "one" 3].

(** A response with status 200, and an object without any of the keys
    that the page reads. *)
Definition ok (b : App.body Z) : App.answer Z :=
  App.Responded {| App.status_code := 200; App.reason := "OK";
                   App.response_body := b |}.

Definition no_key : App.json_object Z :=
  {| App.key_results := None; App.key_models := None;
     App.key_response := None |}.

(** Both services answer: the query service with [unranked], Ollama with
    the model in its list and with a text for every prompt. *)
Definition all_up : App.network Z :=
  {| App.http_get :=
       λ url _,
         if String.eqb url "http://ollama:11434/api/tags"
         then ok (App.Json {| App.key_results := None;
                              App.key_models := Some [Some "qwen2:0.5b"];
                              App.key_response := None |})
         else ok (App.Json no_key);
     App.http_post :=
       λ _ json _,
         match json with
         | App.Query _ =>
             ok (App.Json {| App.key_results := Some unranked;
                             App.key_models := None;
                             App.key_response := None |})
         | App.PullModel _ => ok (App.Json no_key)
         | App.Generate _ _ =>
             ok (App.Json {| App.key_results := None;
                             App.key_models := None;
                             App.key_response :=
                               Some "Keep the loss below 0.3 dB." |})
         end |}.

(** No service can be reached. *)
Definition all_down : App.network Z :=
  {| App.http_get := λ _ _, App.Failed "Connection refused";
     App.http_post := λ _ _ _, App.Failed "Connection refused" |}.

(** A text without blanks around it, which [strip] gives back. *)
Definition same_text (s : string) : string := s.

(** The page of a new session. *)
Definition new_page : App.page Z :=
  App.Page {| App.search_results := None; App.llm_response := None |} [].

End Scenario.

(** * Lists of events *)

Lemma filter_none {A} (p q : A → bool) (l : list A) :
(∀ x, q x = true → p x = false) →
forallb q l = true → List.filter p l = [].
Proof.
intros Hpq. induction l as [|x l IH]; [done|].
cbn. intros [Hx Hl]%andb_prop. rewrite (Hpq _ Hx). auto.
Qed.

(** * The query service *)

Section ApiFacts.
Import OpenSearch Api.

Context {float : Type} (float32 : float → float).

Implicit Types (c : collaborators float) (request : QueryRequest).
Implicit Types (t : list (event float)) (e : exn).

Lemma search_handler_raises e t :
  ∃ logged,
    search_handler e t
    = ((t ++ logged)%list, Raise (HTTPException (status_for e) (detail_for e)))
    ∧ forallb is_log logged = true.
Proof.
  unfold search_handler, status_for, detail_for.
  destruct (caught_by e RequestError).
  - destruct (contains "search_phase_execution_exception" (str e)).
    + exists [LogError (OpenSearch_request_error (str e));
              LogError Search_phase_execution_exception].
      split; [|reflexivity].
      cbv [mbind M_bind emit call raise mret M_ret].
      by rewrite <- app_assoc.
    + exists [LogError (OpenSearch_request_error (str e))].
      split; [|reflexivity].
      by cbv [mbind M_bind emit call raise mret M_ret].
  - exists [LogError (Error_during_search (str e))].
    split; [|reflexivity].
    by cbv [mbind M_bind emit call raise mret M_ret].
Qed.

(** The run of the endpoint, by cases on the answers of the two
    collaborators. *)
Lemma run_search_cases c request :
  run_search float32 c request =
    let q := query request in
    match model_encode c q with
    | Raise e => search_handler e (until_encode q)
    | Ok v =>
        match opensearch_search c INDEX_NAME (query_sent float32 v) with
        | Raise e => search_handler e (until_search float32 q v)
        | Ok r =>
            let got := (until_search float32 q v
                        ++ [LogInfo (Got_response r)])%list in
            match items_of_hits (hits r) with
            | Raise e => search_handler e got
            | Ok items => (got, Ok {| results := items |})
            end
        end
    end.
Proof.
  unfold run_search, search, try_except, search_body, until_search,
    until_encode, query_sent, evaluate.
  cbv [mbind M_bind emit call raise mret M_ret]. cbn.
  destruct (model_encode c (query request)) as [v|e]; [|reflexivity].
  destruct (opensearch_search c INDEX_NAME _) as [r|e]; [|reflexivity].
  destruct (items_of_hits (hits r)) as [items|e]; reflexivity.
Qed.

(** The list comprehension succeeds exactly when every hit gives an
    item, and raises what the first hit that gives none raises. *)
Lemma items_of_hits_ok (l : list (hit float)) items :
  items_of_hits l = Ok items →
  Forall2 (λ h item, item_of_hit h = Ok item) l items.
Proof.
  revert items. induction l as [|h l IH]; intros items.
  { intros [= <-]. constructor. }
  cbn [items_of_hits]. destruct (item_of_hit h) as [item|e] eqn:Hh; [|done].
  destruct (items_of_hits l) as [items'|e]; [|done].
  intros [= <-]. constructor; auto.
Qed.

Lemma items_of_hits_all (l : list (hit float)) :
  Forall (λ h, ∃ item, item_of_hit h = Ok item) l →
  ∃ items, items_of_hits l = Ok items.
Proof.
  induction 1 as [|h l [item Hh] _ [items IH]]; [by exists []|].
  exists (item :: items). cbn [items_of_hits]. by rewrite Hh, IH.
Qed.

Lemma items_of_hits_first_bad (before after : list (hit float)) h e :
  Forall (λ h, ∃ item, item_of_hit h = Ok item) before →
  item_of_hit h = Raise e →
  items_of_hits (before ++ h :: after) = Raise e.
Proof.
  intros Hbefore Hh.
  induction Hbefore as [|h' l [item Hh'] _ IH];
    cbn [app items_of_hits]; [by rewrite Hh|].
  by rewrite Hh', IH.
Qed.

(** The list comprehension gives one item for each hit, or raises. *)
Lemma items_of_hits_length (l : list (hit float)) items :
  items_of_hits l = Ok items → length items = length l.
Proof.
  revert items. induction l as [|h l IH]; intros items.
  { by intros [= <-]. }
  cbn [items_of_hits]. destruct (item_of_hit h) as [item|e]; [|done].
  destruct (items_of_hits l) as [items'|e]; [|done].
  intros [= <-]. cbn. by rewrite (IH items').
Qed.

Lemma filter_logged (p : event float → bool) (logged : list (event float)) :
  (∀ ev, is_log ev = true → p ev = false) →
  forallb is_log logged = true → List.filter p logged = [].
Proof.
  intros Hp. induction logged as [|ev l IH]; [done|].
  cbn. intros [Hev Hl]%andb_prop. rewrite (Hp _ Hev). auto.
Qed.

Lemma log_is_not_encode (ev : event float) :
  is_log ev = true → is_encode ev = false.
Proof. by destruct ev. Qed.

Lemma log_is_not_store_search (ev : event float) :
  is_log ev = true → is_store_search ev = false.
Proof. by destruct ev. Qed.

(** The store model returns at most [size] hits. *)
Lemma store_search_honours_size knn_score score_leb
    (st : gmap string (index_data float)) index body r :
  OpenSearch.search knn_score score_leb st index body = Ok r →
  (length (hits r) ≤ Z.to_nat (sq_size body))%nat.
Proof.
  unfold OpenSearch.search. destruct (st !! index) as [ix|]; [|done].
  destruct (forallb _ _); [|done].
  intros [= <-]. cbn. rewrite length_take. lia.
Qed.

(** C2, as the code has it.  When the query embeds: against a cluster
    that lacks the index the endpoint raises HTTP 500 (the store's
    [NotFoundError] reaches the generic [except] clause); against an
    existing index without records it returns the answer with an empty
    ["results"] list, the only key of the answer. *)
Theorem search_emptiness knn_score score_leb encode
    (st : gmap string (index_data float)) q v :
  encode q = Ok v →
  let outcome :=
    snd (run_search float32 (against knn_score score_leb encode st)
           {| query := q |}) in
  (st !! INDEX_NAME = None →
   outcome =
     Raise (HTTPException 500
              "Internal server error: NotFoundError(404, 'index_not_found_exception', 'no such index [webinar_pdf_index]')"))
  ∧ (∀ m, st !! INDEX_NAME = Some (IndexData m []) →
     outcome = Ok {| results := [] |}).
Proof.
  intros Hv outcome. subst outcome.
  rewrite run_search_cases. unfold against.
  cbn [query model_encode opensearch_search]. cbv zeta. rewrite Hv.
  unfold OpenSearch.search. split.
  - intros ->.
    match goal with
    | |- context [search_handler ?e ?t] =>
        destruct (search_handler_raises e t) as (logged & -> & _)
    end.
    reflexivity.
  - intros m ->. cbn. by rewrite take_nil.
Qed.

(** C3, as the code has it.  Whatever the query is, blank or not, the
    endpoint embeds it, and when the embedding succeeds it sends exactly
    one search to the store; no check of the query precedes either
    call. *)
Theorem search_embeds_every_query c q :
  let t := fst (run_search float32 c {| query := q |}) in
  List.filter is_encode t = [ModelEncode q]
  ∧ List.filter is_store_search t =
      match model_encode c q with
      | Ok v => [OpenSearchSearch INDEX_NAME (query_sent float32 v)]
      | Raise _ => []
      end.
Proof.
  intros t. subst t. rewrite run_search_cases; cbv zeta; cbn [query].
  destruct (model_encode c q) as [v|e].
  - destruct (opensearch_search c INDEX_NAME (query_sent float32 v)) as [r|e].
    + destruct (items_of_hits (hits r)) as [items|e]; [split; reflexivity|].
      match goal with
      | |- context [search_handler e ?t] =>
          destruct (search_handler_raises e t) as (logged & -> & Hlog)
      end.
      cbn [fst]. rewrite !List.filter_app.
      rewrite (filter_logged is_encode logged log_is_not_encode Hlog).
      by rewrite (filter_logged is_store_search logged
                    log_is_not_store_search Hlog).
    + destruct (search_handler_raises e (until_search float32 q v))
        as (logged & -> & Hlog).
      cbn [fst]. rewrite !List.filter_app.
      rewrite (filter_logged is_encode logged log_is_not_encode Hlog).
      by rewrite (filter_logged is_store_search logged
                    log_is_not_store_search Hlog).
  - destruct (search_handler_raises e (until_encode q))
      as (logged & -> & Hlog).
    cbn [fst]. rewrite !List.filter_app.
    rewrite (filter_logged is_encode logged log_is_not_encode Hlog).
    by rewrite (filter_logged is_store_search logged
                  log_is_not_store_search Hlog).
Qed.

(** C5.  A failure of a collaborator always comes out of the endpoint,
    as an [HTTPException] built from the exception [cause] that was
    raised: status 400 when [cause] is a [RequestError], the store's
    report of a malformed request, and status 500 for every other
    exception, be it of the model, of the store, or of the reading of
    the hits.  Nothing else makes the endpoint fail. *)
Theorem search_failure_status c request :
  (∀ cause,
     model_encode c (query request) = Raise cause →
     snd (run_search float32 c request)
     = Raise (HTTPException (if caught_by cause RequestError then 400 else 500)
                            (detail_for cause)))
  ∧ (∀ v cause,
       model_encode c (query request) = Ok v →
       opensearch_search c INDEX_NAME (query_sent float32 v) = Raise cause →
       snd (run_search float32 c request)
       = Raise (HTTPException
                  (if caught_by cause RequestError then 400 else 500)
                  (detail_for cause)))
  ∧ (∀ v r cause,
       model_encode c (query request) = Ok v →
       opensearch_search c INDEX_NAME (query_sent float32 v) = Ok r →
       items_of_hits (hits r) = Raise cause →
       snd (run_search float32 c request)
       = Raise (HTTPException
                  (if caught_by cause RequestError then 400 else 500)
                  (detail_for cause)))
  ∧ (∀ t e,
       run_search float32 c request = (t, Raise e) →
       ∃ cause,
         (model_encode c (query request) = Raise cause
          ∨ (∃ v, model_encode c (query request) = Ok v
                  ∧ opensearch_search c INDEX_NAME (query_sent float32 v)
                    = Raise cause)
          ∨ (∃ v r, model_encode c (query request) = Ok v
                    ∧ opensearch_search c INDEX_NAME (query_sent float32 v)
                      = Ok r
                    ∧ items_of_hits (hits r) = Raise cause))
         ∧ e = HTTPException
                 (if caught_by cause RequestError then 400 else 500)
                 (detail_for cause))
  ∧ (∀ cause,
       caught_by cause RequestError = true ↔ ∃ s, cause = Exn RequestError s).
Proof.
  rewrite run_search_cases; cbv zeta; cbn [query].
  assert (Hclass : ∀ cause,
    caught_by cause RequestError = true ↔ ∃ s, cause = Exn RequestError s).
  { intros [cls s|code d]; cbn.
    - split.
      + destruct cls; try discriminate. eauto.
      + by intros [s' [= -> _]].
    - split; [discriminate|]. by intros [s' ?]. }
  assert (Hraised : ∀ cause t,
    snd (search_handler cause t)
    = Raise (HTTPException (if caught_by cause RequestError then 400 else 500)
                           (detail_for cause))).
  { intros cause t.
    by destruct (search_handler_raises cause t) as (logged & -> & _). }
  destruct (model_encode c (query request)) as [v|cause] eqn:Hv.
  - destruct (opensearch_search c INDEX_NAME (query_sent float32 v))
      as [r|cause] eqn:Hr.
    + destruct (items_of_hits (hits r)) as [items|cause] eqn:Hitems.
      * split_and!; [done|by intros ? ? [= <-]; rewrite Hr| |done|done].
        intros v' r' cause [= <-]. rewrite Hr. intros [= <-].
        by rewrite Hitems.
      * split_and!; [done|by intros ? ? [= <-]; rewrite Hr| | |done].
        { intros v' r' cause' [= <-]. rewrite Hr. intros [= <-].
          rewrite Hitems. intros [= <-]. apply Hraised. }
        intros t e He. exists cause. split; [right; right; eauto|].
        pose proof (Hraised cause
                      (until_search float32 (query request) v
                       ++ [LogInfo (Got_response r)])%list) as Hout.
        rewrite He in Hout. by injection Hout.
    + split_and!; [done| |by intros ? ? ? [= <-]; rewrite Hr| |done].
      { intros v' cause' [= <-]. rewrite Hr. intros [= <-]. apply Hraised. }
      intros t e He. exists cause. split; [right; left; eauto|].
      pose proof (Hraised cause (until_search float32 (query request) v))
        as Hout.
      rewrite He in Hout. by injection Hout.
  - split_and!; [|done|done| |done].
    { intros cause' [= <-]. apply Hraised. }
    intros t e He. exists cause. split; [by left|].
    pose proof (Hraised cause (until_encode (query request))) as Hout.
    rewrite He in Hout. by injection Hout.
Qed.

(** C10.  Every search that the endpoint sends asks for 3 records, the
    request carries nothing but the query string, and, the store
    returning no more hits than the [size] asked for, the answer has at
    most 3 entries. *)
Theorem search_returns_at_most_three c request :
  (∀ index body r,
     opensearch_search c index body = Ok r →
     (length (hits r) ≤ Z.to_nat (sq_size body))%nat) →
  let run := run_search float32 c request in
  Forall (λ ev, match ev with
                | OpenSearchSearch _ body => sq_size body = 3
                | _ => True
                end) (fst run)
  ∧ match snd run with
    | Ok answer => (length (results answer) ≤ 3)%nat
    | Raise _ => True
    end
  ∧ request = {| query := query request |}.
Proof.
  intros Hsize run. subst run. rewrite run_search_cases; cbv zeta; cbn [query].
  assert (Hlogs : ∀ logged : list (event float),
    forallb is_log logged = true →
    Forall (λ ev, match ev with
                  | OpenSearchSearch _ body => sq_size body = 3
                  | _ => True
                  end) logged).
  { induction logged as [|ev l IH]; [constructor|].
    cbn. intros [Hev Hl]%andb_prop. constructor; [|auto]. by destruct ev. }
  split_and!; [| |by destruct request].
  - destruct (model_encode c (query request)) as [v|e].
    + destruct (opensearch_search c INDEX_NAME (query_sent float32 v)) as [r|e].
      * destruct (items_of_hits (hits r)) as [items|e].
        { cbn. repeat constructor. }
        match goal with
        | |- context [search_handler e ?t] =>
            destruct (search_handler_raises e t) as (logged & -> & Hlog)
        end.
        cbn [fst]. apply Forall_app. split; [|auto].
        cbn. repeat constructor.
      * destruct (search_handler_raises e (until_search float32 (query request) v))
          as (logged & -> & Hlog).
        cbn [fst]. apply Forall_app. split; [|auto].
        cbn. repeat constructor.
    + destruct (search_handler_raises e (until_encode (query request)))
        as (logged & -> & Hlog).
      cbn [fst]. apply Forall_app. split; [|auto].
      cbn. repeat constructor.
  - destruct (model_encode c (query request)) as [v|e].
    + destruct (opensearch_search c INDEX_NAME (query_sent float32 v))
        as [r|e] eqn:Hr.
      * destruct (items_of_hits (hits r)) as [items|e'] eqn:Hitems.
        { cbn. rewrite (items_of_hits_length _ _ Hitems).
          by apply Hsize in Hr. }
        match goal with
        | |- context [search_handler e' ?t] =>
            by destruct (search_handler_raises e' t) as (? & -> & _)
        end.
      * by destruct (search_handler_raises e
                       (until_search float32 (query request) v)) as (? & -> & _).
    + by destruct (search_handler_raises e (until_encode (query request)))
        as (? & -> & _).
Qed.

End ApiFacts.

(** ** Runs of the query service *)

Section ApiRuns.
Import OpenSearch Api Scenario.

(** C2, counterexample.  The cluster has no index: the search raises
    HTTP 500 instead of returning an empty list. *)
Lemma search_missing_index_raises :
  no_index !! INDEX_NAME = None
  ∧ snd (ask no_index "acceptable splice loss")
    = Raise (HTTPException 500
               "Internal server error: NotFoundError(404, 'index_not_found_exception', 'no such index [webinar_pdf_index]')").
Proof. split; reflexivity. Qed.

Lemma search_emptiness_witness :
  snd (ask no_index "acceptable splice loss")
  = Raise (HTTPException 500
             "Internal server error: NotFoundError(404, 'index_not_found_exception', 'no such index [webinar_pdf_index]')")
  ∧ snd (ask empty_index "acceptable splice loss") = Ok {| results := [] |}.
Proof.
  split.
  - apply (search_emptiness same dot Z.leb encode3 no_index
             "acceptable splice loss" [1; 2; 3] eq_refl).
    reflexivity.
  - apply (proj2 (search_emptiness same dot Z.leb encode3 empty_index
                    "acceptable splice loss" [1; 2; 3] eq_refl)
             Embedding.index_mapping).
    reflexivity.
Defined.

(** C3, counterexample.  A query of three spaces is embedded and
    searched, and the call succeeds. *)
Lemma blank_query_is_searched :
  snd (ask empty_index "   ") = Ok {| results := [] |}
  ∧ List.filter is_encode (fst (ask empty_index "   ")) = [ModelEncode "   "]
  ∧ List.filter is_store_search (fst (ask empty_index "   "))
    = [OpenSearchSearch INDEX_NAME (create_search_query [1; 2; 3] 3)].
Proof. split_and!; reflexivity. Qed.

(** C4, counterexample.  The model produces 3 components where the
    index holds vectors of dimension 1024: the search is sent all the
    same, and it is the store that refuses it. *)
Lemma mismatched_query_is_searched :
  encode3 "acceptable splice loss" = Ok [1; 2; 3]
  ∧ Z.of_nat (length [1; 2; 3]) ≠ Embedding.VECTOR_DIM
  ∧ List.filter is_store_search (fst (ask one_record "acceptable splice loss"))
    = [OpenSearchSearch INDEX_NAME (create_search_query [1; 2; 3] 3)]
  ∧ snd (ask one_record "acceptable splice loss")
    = Raise (HTTPException 400
               "Search request error: RequestError(400, 'search_phase_execution_exception', 'runtime error')").
Proof. split_and!; [reflexivity|discriminate|reflexivity|reflexivity]. Qed.

Lemma search_failure_status_witness :
  snd (ask one_record "acceptable splice loss")
  = Raise (HTTPException 400
             "Search request error: RequestError(400, 'search_phase_execution_exception', 'runtime error')")
  ∧ snd (ask no_index "acceptable splice loss")
    = Raise (HTTPException 500
               "Internal server error: NotFoundError(404, 'index_not_found_exception', 'no such index [webinar_pdf_index]')").
Proof.
  split.
  - apply (proj1 (proj2 (search_failure_status same (service one_record)
                           {| query := "acceptable splice loss" |}))
             [1; 2; 3]
             (Exn RequestError
                "RequestError(400, 'search_phase_execution_exception', 'runtime error')"));
      reflexivity.
  - apply (proj1 (proj2 (search_failure_status same (service no_index)
                           {| query := "acceptable splice loss" |}))
             [1; 2; 3]
             (Exn NotFoundError
                "NotFoundError(404, 'index_not_found_exception', 'no such index [webinar_pdf_index]')"));
      reflexivity.
Defined.

Lemma search_returns_at_most_three_witness :
  Forall (λ ev, match ev with
                | OpenSearchSearch _ body => sq_size body = 3
                | _ => True
                end) (fst (ask five_records "acceptable splice loss"))
  ∧ match snd (ask five_records "acceptable splice loss") with
    | Ok answer => (length (results answer) ≤ 3)%nat
    | Raise _ => True
    end
  ∧ {| query := "acceptable splice loss" |}
    = {| query := query {| query := "acceptable splice loss" |} |}.
Proof.
  apply (search_returns_at_most_three same (service five_records)
           {| query := "acceptable splice loss" |}).
  intros index body r. apply store_search_honours_size.
Defined.

(** Both programs name the same model; how each of them loads and
    calls it is the business of the two libraries. *)
Example model_names_agree : Api.model = Embedding.MODEL_NAME.
Proof. reflexivity. Qed.

(** The five records rank by score, and three of them come back. *)
Example search_five_records :
  snd (ask five_records "acceptable splice loss")
  = Ok {| results :=
            [ {| text := "five"; item_metadata := {[ "file_path" := "pdf_corpus/notes.pdf" ]};
                 score := 6; file_path := "pdf_corpus/notes.pdf" |};
              {| text := "three"; item_metadata := {[ "file_path" := "pdf_corpus/notes.pdf" ]};
                 score := 3; file_path := "pdf_corpus/notes.pdf" |};
              {| text := "four"; item_metadata := {[ "file_path" := "pdf_corpus/notes.pdf" ]};
                 score := 3; file_path := "pdf_corpus/notes.pdf" |} ] |}.
Proof. reflexivity. Qed.

End ApiRuns.

(** * The ingestion run *)

Section EmbeddingFacts.
Import OpenSearch Embedding.

Context {float : Type}.

#[local] Existing Instances M_ret M_bind.

Implicit Types (env : environment float) (w : world float).
Implicit Types (t : list (event float)) (e : exn).

Lemma add_trace_nil w : add_trace [] w = w.
Proof. destruct w. unfold add_trace. cbn. by rewrite app_nil_r. Qed.

Lemma add_trace_app t1 t2 w :
  add_trace t2 (add_trace t1 w) = add_trace (t1 ++ t2) w.
Proof. unfold add_trace. cbn. by rewrite app_assoc. Qed.

Lemma record_event_add (ev : event float) w :
  record_event ev w = add_trace [ev] w.
Proof. reflexivity. Qed.

Lemma messages_app t1 t2 :
  messages (t1 ++ t2) = (messages t1 ++ messages t2)%list.
Proof. apply omap_app. Qed.

(** *** [read_pdf] and [process_documents] *)

Lemma read_pdf_run env file_path w :
  read_pdf env file_path w =
    match read_pages env file_path with
    | Ok pages =>
        Some (add_trace [ReadPdf file_path] w,
              Ok (document_of file_path pages))
    | Raise e =>
        Some (add_trace
                [ReadPdf file_path;
                 Log ERROR ("Error reading PDF " +:+ file_path +:+ ": "
                            +:+ str e)] w,
              Raise e)
    end.
Proof.
  unfold read_pdf, try_except, extract_pages.
  cbv [mbind M_bind mret M_ret logger_error emit raise].
  destruct (read_pages env file_path) as [pages|e]; [reflexivity|].
  by rewrite !record_event_add, add_trace_app.
Qed.

Lemma read_documents_run env pdf_files documents w :
  read_documents env pdf_files documents w =
    Some (add_trace (read_events env pdf_files) w,
          Ok (documents ++ loaded env pdf_files)%list).
Proof.
  revert documents w.
  induction pdf_files as [|p files IH]; intros documents w.
  - cbn. by rewrite add_trace_nil, app_nil_r.
  - cbn [read_documents].
    cbv [mbind M_bind mret M_ret logger_info logger_error emit try_except].
    rewrite read_pdf_run.
    unfold loaded, read_events. cbn [omap list_omap flat_map].
    fold (loaded env files). fold (read_events env files).
    destruct (read_pages env p) as [pages|e].
    + rewrite IH, !record_event_add, !add_trace_app.
      by rewrite <- app_assoc.
    + rewrite IH, !record_event_add, !add_trace_app.
      reflexivity.
Qed.

Lemma process_documents_run env w :
  corpus_dir_ready env →
  process_documents env w =
    Some (add_trace (process_events env) w, Ok (loaded env (corpus env))).
Proof.
  intros Hready.
  unfold process_documents, process_events, os_makedirs.
  fold (corpus env).
  cbv [mbind M_bind mret M_ret logger_info emit].
  destruct (pdf_dir_exists env) eqn:Hdir; cbn [negb].
  - rewrite read_documents_run, !record_event_add, !add_trace_app.
    reflexivity.
  - destruct Hready as [Hthere|Hmake]; [congruence|]. rewrite Hmake.
    rewrite read_documents_run, !record_event_add, !add_trace_app.
    reflexivity.
Qed.

(** A directory that is missing and cannot be made ends
    [process_documents] before any file is looked at. *)
Lemma process_documents_raises env w e :
  pdf_dir_exists env = false → makedirs env = Some e →
  process_documents env w =
    Some (add_trace [Log INFO ("Using device: " +:+ torch_device env);
                     MakeDirs "pdf_corpus"] w,
          Raise e).
Proof.
  intros Hdir Hmake. unfold process_documents, os_makedirs.
  cbv [mbind M_bind mret M_ret logger_info emit].
  rewrite Hdir, Hmake. cbn [negb].
  by rewrite !record_event_add, !add_trace_app.
Qed.

Lemma loaded_length env pdf_files :
  length (loaded env pdf_files)
  = (length pdf_files - length (unreadable env pdf_files))%nat.
Proof.
  assert (H : (length (loaded env pdf_files)
               + length (unreadable env pdf_files) = length pdf_files)%nat);
    [|lia].
  induction pdf_files as [|p files IH]; [done|].
  unfold loaded, unreadable in *. cbn.
  destruct (read_pages env p); cbn; lia.
Qed.

Lemma loaded_elem env pdf_files d :
  d ∈ loaded env pdf_files
  ↔ ∃ p pages, p ∈ pdf_files ∧ read_pages env p = Ok pages
               ∧ d = document_of p pages.
Proof.
  unfold loaded. rewrite list_elem_of_omap. split.
  - intros (p & Hp & Hd). destruct (read_pages env p) as [pages|] eqn:Hr;
      [|done].
    injection Hd as <-. eauto.
  - intros (p & pages & Hp & Hr & ->). exists p. by rewrite Hr.
Qed.

Lemma skipped_is_logged env pdf_files p e :
  p ∈ pdf_files → read_pages env p = Raise e →
  (ERROR, "Error processing " +:+ p +:+ ": " +:+ str e)
  ∈ messages (read_events env pdf_files).
Proof.
  intros Hp Hr. induction pdf_files as [|p' files IH].
  - by apply elem_of_nil in Hp.
  - unfold read_events. cbn [flat_map]. fold (read_events env files).
    rewrite messages_app. apply elem_of_app.
    apply elem_of_cons in Hp as [->|Hp].
    + left. rewrite Hr. cbn. set_solver.
    + right. auto.
Qed.

(** C7.  A file that cannot be read never makes [process_documents]
    raise.  With the directory of the corpus there (or made by the call)
    it returns the documents of the readable files of the corpus, in the
    order of the corpus and one for each: N - M documents for N files of
    which M cannot be read.  For each of the M it has logged an error and
    gone on to the next file.  The one exception that comes out of the
    call is that of [os.makedirs], for a directory that is missing and
    cannot be made; then there is no file to read. *)
Theorem process_documents_skips_unreadable env w :
  (pdf_dir_exists env = true ∨ makedirs env = None →
   ∃ w',
     process_documents env w = Some (w', Ok (loaded env (corpus env)))
     ∧ length (loaded env (corpus env))
       = (length (corpus env) - length (unreadable env (corpus env)))%nat
     ∧ (∀ d, d ∈ loaded env (corpus env)
             ↔ ∃ p pages, p ∈ corpus env ∧ read_pages env p = Ok pages
                          ∧ d = document_of p pages)
     ∧ (∀ p e, p ∈ corpus env → read_pages env p = Raise e →
               (ERROR, "Error processing " +:+ p +:+ ": " +:+ str e)
               ∈ messages (trace w'))
     ∧ store w' = store w)
  ∧ (∀ e, pdf_dir_exists env = false → makedirs env = Some e →
     corpus env = []
     ∧ ∃ w',
         process_documents env w = Some (w', Raise e)
         ∧ List.filter is_read (trace w') = List.filter is_read (trace w)
         ∧ store w' = store w).
Proof.
  split.
  - intros Hready. exists (add_trace (process_events env) w).
    split_and!.
    + by apply process_documents_run.
    + apply loaded_length.
    + intros d. apply loaded_elem.
    + intros p e Hp Hr. cbn [add_trace trace].
      unfold process_events. rewrite messages_app.
      apply elem_of_app. right.
      change (?a :: ?l ++ ?r)%list with ([a] ++ l ++ r)%list.
      rewrite !messages_app, !elem_of_app.
      right. right. left. by apply skipped_is_logged.
    + reflexivity.
  - intros e Hdir Hmake. split; [unfold corpus; by rewrite Hdir|].
    rewrite (process_documents_raises env w e Hdir Hmake).
    eexists. split; [reflexivity|]. cbn [trace store add_trace].
    rewrite List.filter_app. cbn. by rewrite app_nil_r.
Qed.

(** *** [wait_for_opensearch] *)

Lemma wait_step_run env w :
  wait_step env w =
    match snd (http_get env (gets_sent w)) with
    | Ok status_code =>
        if bool_decide (status_code = 200)
        then Some (add_trace [Log INFO "OpenSearch is ready"]
                     (after_get (fst (http_get env (gets_sent w))) w),
                   Ok (Some true))
        else Some (after_get (fst (http_get env (gets_sent w))) w, Ok None)
    | Raise _ =>
        Some (after_sleep 5
                (add_trace [Log INFO "Waiting for OpenSearch..."]
                   (after_get (fst (http_get env (gets_sent w))) w)),
              Ok None)
    end.
Proof.
  unfold wait_step, try_except, requests_get.
  cbv [mbind M_bind mret M_ret logger_info emit time_sleep].
  destruct (http_get env (gets_sent w)) as [took [status_code|e]]; cbn [fst snd].
  - by destruct (bool_decide (status_code = 200)).
  - reflexivity.
Qed.

Lemma wait_loop_unfold fuel env start_time timeout w :
  wait_loop (S fuel) env start_time timeout w =
    if bool_decide (clock w - start_time < seconds timeout) then
      match wait_step env w with
      | Some (w', Ok (Some v)) => Some (w', Ok v)
      | Some (w', Ok None) => wait_loop fuel env start_time timeout w'
      | Some (w', Raise e) => Some (w', Raise e)
      | None => None
      end
    else Some (w, Raise (Exn TimeoutError
                           "OpenSearch did not become ready in time")).
Proof.
  cbn [wait_loop]. cbv [mbind M_bind mret M_ret time_time raise].
  destruct (bool_decide (clock w - start_time < seconds timeout));
    [|reflexivity].
  destruct (wait_step env w) as [[w' [[v|]|e]]|]; reflexivity.
Qed.

(** The poll talks to nobody but the endpoint: the store, and the
    requests of clients, are as before. *)
Lemma wait_loop_quiet fuel env start_time timeout w w' r :
  wait_loop fuel env start_time timeout w = Some (w', r) →
  store w' = store w ∧ client_requests w' = client_requests w
  ∧ ∃ t, trace w' = (trace w ++ t)%list ∧ forallb is_poll_event t = true.
Proof.
  revert w. induction fuel as [|fuel IH]; intros w; [done|].
  rewrite wait_loop_unfold.
  destruct (bool_decide (clock w - start_time < seconds timeout)).
  - rewrite wait_step_run.
    destruct (snd (http_get env (gets_sent w))) as [status_code|e].
    + destruct (bool_decide (status_code = 200)).
      * intros [= <- <-]. split_and!; [done..|]. cbn.
        eexists. rewrite <- app_assoc. split; [reflexivity|done].
      * intros Hrun. apply IH in Hrun as (-> & -> & t & -> & Ht).
        split_and!; [done..|]. cbn.
        eexists. rewrite <- app_assoc. split; [reflexivity|done].
    + intros Hrun. apply IH in Hrun as (-> & -> & t & -> & Ht).
      split_and!; [done..|]. cbn.
      eexists. rewrite <- !app_assoc. split; [reflexivity|done].
  - intros [= <- <-]. split_and!; [done..|].
    exists []. by rewrite app_nil_r.
Qed.

(** The only exception of the poll is its [TimeoutError]. *)
Lemma wait_loop_raises fuel env start_time timeout w w' e :
  wait_loop fuel env start_time timeout w = Some (w', Raise e) →
  e = Exn TimeoutError "OpenSearch did not become ready in time".
Proof.
  revert w. induction fuel as [|fuel IH]; intros w; [done|].
  rewrite wait_loop_unfold. case_bool_decide; [|by intros [= _ <-]].
  rewrite wait_step_run.
  destruct (snd (http_get env (gets_sent w))) as [status_code|e'].
  - case_bool_decide; [done|]. apply IH.
  - apply IH.
Qed.


(** *** [setup_opensearch] *)

Lemma client_request_run {A} env (ev : event float)
    (serve : gmap string (index_data float)
             → result A * gmap string (index_data float)) w :
  client_request env ev serve w =
    match transport env (client_requests w) with
    | Some e => Some (after_request ev w, Raise e)
    | None =>
        Some (with_store (snd (serve (store w))) (after_request ev w),
              fst (serve (store w)))
    end.
Proof.
  unfold client_request.
  destruct (transport env (client_requests w)); [reflexivity|].
  by destruct (serve (store w)).
Qed.

(** One attempt, by cases on the transport and on the index. *)
Lemma setup_attempt_run env host port w :
  setup_attempt env host port w =
    let asked := after_request (IndicesExists OPENSEARCH_INDEX)
                   (add_trace [NewOpenSearch host port] w) in
    match transport env (client_requests w) with
    | Some e => Some (asked, Raise e)
    | None =>
        if indices_exists (store w) OPENSEARCH_INDEX
        then Some (asked, Ok (OpenSearchClient host port))
        else
          let sent := after_request
                        (IndicesCreate OPENSEARCH_INDEX index_mapping) asked in
          match transport env (S (client_requests w)) with
          | Some e => Some (sent, Raise e)
          | None =>
              Some (add_trace [Log INFO ("Created index " +:+ OPENSEARCH_INDEX)]
                      (with_store
                         (<[OPENSEARCH_INDEX := IndexData index_mapping []]>
                            (store w)) sent),
                    Ok (OpenSearchClient host port))
          end
    end.
Proof.
  destruct w as [c st g n tr].
  unfold setup_attempt, new_OpenSearch, client_indices_exists,
    client_indices_create, client_request, indices_create.
  cbv [mbind M_bind mret M_ret logger_info emit record_event after_request
       add_trace with_store clock store gets_sent client_requests trace].
  destruct (transport env n) as [e|]; [reflexivity|].
  destruct (indices_exists st OPENSEARCH_INDEX) eqn:Hex;
    cbn [negb]; [reflexivity|].
  destruct (transport env (S n)) as [e|]; [reflexivity|].
  rewrite ?Hex. reflexivity.
Qed.

Lemma setup_loop_unfold env host port max_retries attempt attempts w :
  setup_loop env host port max_retries (attempt :: attempts) w =
    match setup_attempt env host port w with
    | Some (w', Ok client) => Some (w', Ok (Some client))
    | Some (w', Raise e) =>
        if caught_by e ConnectionError || caught_by e NewConnectionError then
          if bool_decide (attempt = max_retries - 1) then Some (w', Raise e)
          else
            setup_loop env host port max_retries attempts
              (after_sleep 5
                 (add_trace
                    [Log WARNING ("Connection attempt " +:+ pretty (attempt + 1)
                                  +:+ " failed, retrying...")] w'))
        else Some (w', Raise e)
    | None => None
    end.
Proof.
  cbn [setup_loop]. unfold try_except.
  cbv [mbind M_bind mret M_ret logger_warning emit time_sleep raise].
  destruct (setup_attempt env host port w) as [[w' [client|e]]|];
    [reflexivity| |reflexivity].
  destruct (caught_by e ConnectionError || caught_by e NewConnectionError);
    [|reflexivity].
  destruct (bool_decide (attempt = max_retries - 1)); reflexivity.
Qed.

(** What one attempt leaves behind: one client was made, nothing slept;
    and when the index exists nothing is created and the only error is
    one of the transport. *)
Lemma setup_attempt_events env host port w :
  ∃ w' r t,
    setup_attempt env host port w = Some (w', r)
    ∧ trace w' = (trace w ++ t)%list
    ∧ List.filter is_attempt t = [NewOpenSearch host port]
    ∧ List.filter is_sleep t = []
    ∧ gets_sent w' = gets_sent w
    ∧ clock w' = clock w
    ∧ (is_Some (store w !! OPENSEARCH_INDEX) →
       store w' = store w
       ∧ List.filter is_create t = []
       ∧ (r = Ok (OpenSearchClient host port)
          ∨ ∃ e n, r = Raise e ∧ transport env n = Some e)).
Proof.
  rewrite setup_attempt_run. cbv zeta.
  destruct (transport env (client_requests w)) as [e|] eqn:Ht.
  { eexists _, _, [_; _]. split; [reflexivity|]. cbn.
    rewrite <- app_assoc. split_and!; try done.
    intros _. split_and!; try done. right. eauto. }
  destruct (indices_exists (store w) OPENSEARCH_INDEX) eqn:Hex.
  { eexists _, _, [_; _]. split; [reflexivity|]. cbn.
    rewrite <- app_assoc. split_and!; try done.
    intros _. split_and!; try done. by left. }
  assert (Hno : ¬ is_Some (store w !! OPENSEARCH_INDEX)).
  { by apply bool_decide_eq_false in Hex. }
  destruct (transport env (S (client_requests w))) as [e|].
  - eexists _, _, [_; _; _]. split; [reflexivity|]. cbn.
    rewrite <- !app_assoc. split_and!; done.
  - eexists _, _, [_; _; _; _]. split; [reflexivity|]. cbn.
    rewrite <- !app_assoc. split_and!; done.
Qed.


(** An index that exists is left alone by the retry loop, whatever the
    transport does: nothing is created, the store is as before, and an
    exception that comes out is one that the transport raised. *)
Lemma setup_loop_keeps_index env host port max_retries attempts w w' r :
  is_Some (store w !! OPENSEARCH_INDEX) →
  setup_loop env host port max_retries attempts w = Some (w', r) →
  store w' = store w
  ∧ List.filter is_create (trace w') = List.filter is_create (trace w)
  ∧ ∀ e, r = Raise e → ∃ n, transport env n = Some e.
Proof.
  revert w. induction attempts as [|attempt attempts IH]; intros w Hix.
  { intros [= <- <-]. by split_and!. }
  rewrite setup_loop_unfold.
  destruct (setup_attempt_events env host port w)
    as (w1 & r1 & t1 & -> & Ht1 & _ & _ & _ & _ & Hkeep).
  destruct (Hkeep Hix) as (Hst & Hcr & Hr1).
  assert (Hcreate : List.filter is_create (trace w1)
                    = List.filter is_create (trace w)).
  { by rewrite Ht1, List.filter_app, Hcr, app_nil_r. }
  destruct r1 as [client|e].
  { intros [= <- <-]. by split_and!. }
  assert (Hraised : ∃ n, transport env n = Some e).
  { destruct Hr1 as [?|(e' & n & [= <-] & ?)]; [done|eauto]. }
  assert (Hstop : Some (w1, Raise e) = Some (w', r) →
    store w' = store w
    ∧ List.filter is_create (trace w') = List.filter is_create (trace w)
    ∧ ∀ e, r = Raise e → ∃ n, transport env n = Some e).
  { intros [= <- <-]. split_and!; [done..|]. by intros ? [= <-]. }
  destruct (caught_by e ConnectionError || caught_by e NewConnectionError);
    [|done].
  case_bool_decide; [done|].
  intros Hrun. apply IH in Hrun as (-> & -> & Hr).
  - cbn. rewrite !List.filter_app. cbn. rewrite !app_nil_r.
    by split_and!.
  - cbn. by rewrite Hst.
Qed.



Lemma range_first n : 0 < n → ∃ rest, range n = 0 :: rest.
Proof.
  intros Hn. unfold range.
  destruct (Z.to_nat n) as [|k] eqn:Hk; [lia|]. cbn. eauto.
Qed.

Lemma wait_for_opensearch_unfold fuel env timeout w :
  wait_for_opensearch fuel env timeout w
  = wait_loop fuel env (clock w) timeout w.
Proof. reflexivity. Qed.

Lemma setup_opensearch_unfold fuel env max_retries w :
  setup_opensearch fuel env max_retries w =
    match wait_for_opensearch fuel env 300 w with
    | Some (w', Ok _) =>
        setup_loop env "opensearch" 9200 max_retries (range max_retries) w'
    | Some (w', Raise e) => Some (w', Raise e)
    | None => None
    end.
Proof.
  unfold setup_opensearch. cbv [mbind M_bind].
  by destruct (wait_for_opensearch fuel env 300 w) as [[w' [v|e]]|].
Qed.

(** The collection exists: whatever the probes and the transport do,
    [setup_opensearch] creates nothing and leaves the store as it is,
    and the only exceptions are the poll's [TimeoutError] and those
    of the transport. *)
Lemma setup_keeps_existing_index fuel env max_retries w w' r :
  is_Some (store w !! OPENSEARCH_INDEX) →
  setup_opensearch fuel env max_retries w = Some (w', r) →
  store w' = store w
  ∧ List.filter is_create (trace w') = List.filter is_create (trace w)
  ∧ ∀ e, r = Raise e →
         e = Exn TimeoutError "OpenSearch did not become ready in time"
         ∨ ∃ n, transport env n = Some e.
Proof.
  intros Hix. rewrite setup_opensearch_unfold, wait_for_opensearch_unfold.
  destruct (wait_loop fuel env (clock w) 300 w) as [[w1 r1]|] eqn:Hwait;
    [|done].
  pose proof (wait_loop_quiet _ _ _ _ _ _ _ Hwait) as (Hst & _ & t & Ht & Hq).
  assert (Hcreate : List.filter is_create (trace w1)
                    = List.filter is_create (trace w)).
  { rewrite Ht, List.filter_app.
    rewrite (filter_none is_create is_poll_event t); [by rewrite app_nil_r| |done].
    by intros []. }
  destruct r1 as [v|e].
  - intros Hloop. apply setup_loop_keeps_index in Hloop as (-> & -> & Hr);
      [|by rewrite Hst].
    split_and!; [done..|]. intros e He. right. eauto.
  - intros [= <- <-]. split_and!; [done..|]. intros ? [= <-]. left.
    by apply wait_loop_raises in Hwait.
Qed.

(** A reachable cluster answers the first probe. *)
Lemma wait_reachable fuel env timeout w :
  reachable env → 0 < timeout →
  wait_for_opensearch (S fuel) env timeout w =
    Some (add_trace [Log INFO "OpenSearch is ready"]
            (after_get (fst (http_get env (gets_sent w))) w), Ok true).
Proof.
  intros [Hget _] Htimeout.
  rewrite wait_for_opensearch_unfold, wait_loop_unfold, wait_step_run, Hget.
  rewrite bool_decide_eq_true_2; [|unfold seconds; lia].
  by rewrite bool_decide_eq_true_2.
Qed.

(** The first attempt succeeds on a reachable cluster, and afterwards
    the index exists. *)
Lemma setup_loop_reachable env host port max_retries w :
  reachable env → 0 < max_retries →
  ∃ w' t,
    setup_loop env host port max_retries (range max_retries) w
    = Some (w', Ok (Some (OpenSearchClient host port)))
    ∧ trace w' = (trace w ++ t)%list
    ∧ is_Some (store w' !! OPENSEARCH_INDEX)
    ∧ (is_Some (store w !! OPENSEARCH_INDEX) →
       store w' = store w ∧ List.filter is_create t = []).
Proof.
  intros [_ Htransport] Hretries.
  destruct (range_first max_retries Hretries) as [rest ->].
  rewrite setup_loop_unfold, setup_attempt_run. cbv zeta.
  rewrite !Htransport.
  destruct (indices_exists (store w) OPENSEARCH_INDEX) eqn:Hex.
  - apply bool_decide_eq_true in Hex.
    eexists _, [_; _]. split; [reflexivity|]. cbn.
    rewrite <- app_assoc. by split_and!.
  - apply bool_decide_eq_false in Hex.
    eexists _, [_; _; _; _]. split; [reflexivity|]. cbn.
    rewrite <- !app_assoc. split_and!; [done| |done].
    by rewrite lookup_insert_eq.
Qed.

(** C6.  On a reachable cluster [setup_opensearch] returns a client,
    and after it the collection exists.  When the collection existed
    before, the call creates nothing and the store is unchanged.  A
    second call in succession returns the same client, creates nothing
    and leaves the store as the first call left it. *)
Theorem ensure_collection_idempotent fuel env max_retries w :
  reachable env → (0 < fuel)%nat → 0 < max_retries →
  ∃ w1 w2 client,
    setup_opensearch fuel env max_retries w = Some (w1, Ok (Some client))
    ∧ setup_opensearch fuel env max_retries w1 = Some (w2, Ok (Some client))
    ∧ is_Some (store w1 !! OPENSEARCH_INDEX)
    ∧ (is_Some (store w !! OPENSEARCH_INDEX) →
       store w1 = store w
       ∧ List.filter is_create (trace w1) = List.filter is_create (trace w))
    ∧ store w2 = store w1
    ∧ List.filter is_create (trace w2) = List.filter is_create (trace w1).
Proof.
  intros Henv Hfuel Hretries.
  destruct fuel as [|fuel]; [lia|].
  assert (Hcall : ∀ w0, ∃ w' t,
    setup_opensearch (S fuel) env max_retries w0
    = Some (w', Ok (Some (OpenSearchClient "opensearch" 9200)))
    ∧ is_Some (store w' !! OPENSEARCH_INDEX)
    ∧ (is_Some (store w0 !! OPENSEARCH_INDEX) →
       store w' = store w0
       ∧ List.filter is_create (trace w')
         = List.filter is_create (trace w0))).
  { intros w0. rewrite setup_opensearch_unfold.
    rewrite (wait_reachable fuel env 300 w0 Henv); [|done].
    destruct (setup_loop_reachable env "opensearch" 9200 max_retries
                (add_trace [Log INFO "OpenSearch is ready"]
                   (after_get (fst (http_get env (gets_sent w0))) w0))
                Henv Hretries) as (w' & t & Hrun & Ht & Hix & Hkeep).
    exists w', t. split_and!; [done..|].
    intros Hw0. destruct (Hkeep Hw0) as [Hst Hcr].
    split; [done|]. rewrite Ht, List.filter_app, Hcr. cbn.
    rewrite !List.filter_app. cbn. by rewrite !app_nil_r. }
  destruct (Hcall w) as (w1 & t1 & Hrun1 & Hix1 & Hkeep1).
  destruct (Hcall w1) as (w2 & t2 & Hrun2 & Hix2 & Hkeep2).
  destruct (Hkeep2 Hix1) as [Hst2 Hcr2].
  exists w1, w2, (OpenSearchClient "opensearch" 9200).
  by split_and!.
Qed.




(** *** [create_index] *)

Lemma steady_ret {A} (a : A) : @steady float A (mret a).
Proof. intros w. exists w, (Ok a), []. by rewrite app_nil_r. Qed.

Lemma steady_raise {A} e : @steady float A (raise e).
Proof. intros w. exists w, (Raise e), []. by rewrite app_nil_r. Qed.

Lemma steady_bind {A B} (m : @M float A) (k : A → @M float B) :
  steady m → (∀ a, steady (k a)) → steady (m ≫= k).
Proof.
  intros Hm Hk w. destruct (Hm w) as (w1 & r1 & t1 & Hrun & Ht1).
  cbv [mbind M_bind]. rewrite Hrun. destruct r1 as [a|e].
  - destruct (Hk a w1) as (w2 & r2 & t2 & -> & Ht2).
    exists w2, r2, (t1 ++ t2)%list. by rewrite Ht2, Ht1, app_assoc.
  - by exists w1, (Raise e), t1.
Qed.

Lemma steady_emit (ev : event float) : steady (emit ev).
Proof. intros w. by exists (record_event ev w), (Ok tt), [ev]. Qed.

Lemma steady_answer {A} (ev : event float) (answer : result A) :
  steady (λ w, Some (record_event ev w, answer)).
Proof. intros w. by exists (record_event ev w), answer, [ev]. Qed.

Lemma steady_client_request {A} env (ev : event float)
    (serve : gmap string (index_data float)
             → result A * gmap string (index_data float)) :
  steady (client_request env ev serve).
Proof.
  intros w. rewrite client_request_run.
  destruct (transport env (client_requests w)); by eexists _, _, [ev].
Qed.

Lemma steady_embed_nodes env nodes : steady (embed_nodes env nodes).
Proof.
  induction nodes as [|n nodes IH]; [apply steady_ret|].
  cbn [embed_nodes]. apply steady_bind; [apply steady_answer|].
  intros v. apply steady_bind; [done|]. intros records. apply steady_ret.
Qed.

Lemma steady_VectorStoreIndex env nodes : steady (VectorStoreIndex env nodes).
Proof.
  destruct nodes as [|n nodes]; [apply steady_ret|].
  unfold VectorStoreIndex.
  apply steady_bind; [apply steady_embed_nodes|]. intros records.
  apply steady_bind; [apply steady_client_request|]. intros _.
  apply steady_ret.
Qed.

(** [create_index] ends, and the first thing it does is to log the
    number of nodes. *)
Lemma create_index_starts env documents w :
  ∃ w' r t,
    create_index env documents w = Some (w', r)
    ∧ trace w' =
        (trace w
         ++ Log INFO ("Created "
                      +:+ pretty (length (get_nodes_from_documents env
                                            CHUNK_SIZE CHUNK_OVERLAP " "
                                            documents))
                      +:+ " nodes") :: t)%list.
Proof.
  assert (Hrest : ∀ {A} (ev : event float) (k : @M float A), steady k →
    ∃ w' r t, (emit ev ≫= λ _, k) w = Some (w', r)
              ∧ trace w' = (trace w ++ ev :: t)%list).
  { intros A ev k Hk. cbv [mbind M_bind emit].
    destruct (Hk (record_event ev w)) as (w' & r & t & -> & Ht).
    exists w', r, t. split; [done|]. rewrite Ht. cbn.
    by rewrite <- app_assoc. }
  unfold create_index. cbv zeta. apply Hrest.
  apply steady_bind; [apply steady_answer|]. intros _.
  apply steady_bind; [apply steady_answer|]. intros embeddings.
  apply steady_bind.
  { case_bool_decide; [apply steady_raise|apply steady_ret]. }
  intros _. apply steady_bind; [apply steady_emit|]. intros _.
  apply steady_bind; [apply steady_client_request|]. intros _.
  apply steady_bind; [apply steady_VectorStoreIndex|]. intros index.
  apply steady_bind; [apply steady_answer|]. intros _.
  apply steady_bind; [apply steady_emit|]. intros _.
  apply steady_ret.
Qed.

(** The dimension check of [create_index]: a probe vector of another
    length than 1024 stops the run before a client of the store is made
    and before anything is written. *)
Lemma create_index_rejects_dimension env documents w v :
  load_model env = None →
  get_text_embedding env "test" = Ok v →
  Z.of_nat (length v) ≠ VECTOR_DIM →
  ∃ w',
    create_index env documents w
    = Some (w', Raise (Exn ValueError
                         ("Model produces " +:+ pretty (Z.of_nat (length v))
                          +:+ "-dimensional vectors, but index expects "
                          +:+ pretty VECTOR_DIM +:+ " dimensions")))
    ∧ store w' = store w
    ∧ client_requests w' = client_requests w
    ∧ List.filter is_write (trace w') = List.filter is_write (trace w).
Proof.
  intros Hload Hprobe Hdim.
  unfold create_index, HuggingFaceEmbedding, embed_text.
  cbv [mbind M_bind mret M_ret logger_info emit raise].
  rewrite Hload, Hprobe. rewrite bool_decide_eq_true_2 by done.
  eexists. split; [reflexivity|]. cbn.
  rewrite !List.filter_app. cbn. by rewrite !app_nil_r.
Qed.

(** C4, as the code has it.  At ingestion, when the model loads and the
    vector it produces for the probe text has another length than
    1024, [create_index] raises [ValueError] before it makes a client
    of the store and before it writes a record.  At query time nothing
    is checked: whatever the length of the query vector, the search is
    sent with it. *)
Theorem dimension_checked_at_ingestion_only env documents w v
    (float32 : float → float) :
  load_model env = None →
  get_text_embedding env "test" = Ok v →
  Z.of_nat (length v) ≠ VECTOR_DIM →
  (∃ w',
     create_index env documents w
     = Some (w', Raise (Exn ValueError
                          ("Model produces " +:+ pretty (Z.of_nat (length v))
                           +:+ "-dimensional vectors, but index expects "
                           +:+ pretty VECTOR_DIM +:+ " dimensions")))
     ∧ store w' = store w
     ∧ client_requests w' = client_requests w
     ∧ List.filter is_write (trace w') = List.filter is_write (trace w))
  ∧ (∀ (c : Api.collaborators float) q u,
       Api.model_encode c q = Ok u →
       List.filter Api.is_store_search
         (fst (Api.run_search float32 c {| Api.query := q |}))
       = [Api.OpenSearchSearch Api.INDEX_NAME (Api.query_sent float32 u)]
       ∧ length (sq_query_value (Api.query_sent float32 u)) = length u).
Proof.
  intros Hload Hprobe Hdim. split.
  - by apply create_index_rejects_dimension.
  - intros c q u Hu. split; [|cbn; by rewrite List.length_map].
    rewrite run_search_cases. cbv zeta. cbn [Api.query]. rewrite Hu.
    destruct (Api.opensearch_search c Api.INDEX_NAME (Api.query_sent float32 u))
      as [r|e].
    + destruct (Api.items_of_hits (hits r)) as [items|e]; [reflexivity|].
      match goal with
      | |- context [Api.search_handler e ?t] =>
          destruct (search_handler_raises e t) as (logged & -> & Hlog)
      end.
      cbn [fst]. rewrite List.filter_app.
      rewrite (filter_none Api.is_store_search Api.is_log logged
                 log_is_not_store_search Hlog).
      reflexivity.
    + destruct (search_handler_raises e (Api.until_search float32 q u))
        as (logged & -> & Hlog).
      cbn [fst]. rewrite List.filter_app.
      rewrite (filter_none Api.is_store_search Api.is_log logged
                 log_is_not_store_search Hlog).
      reflexivity.
Qed.

(** *** [force_update] *)

(** The run once the store is set up. *)
Lemma force_update_after_setup fuel env w w1 client :
  setup_opensearch fuel env 5 w = Some (w1, Ok client) →
  corpus_dir_ready env →
  force_update fuel env w =
    let w2 := add_trace (process_events env) w1 in
    match loaded env (corpus env) with
    | [] =>
        Some (add_trace [Log ERROR "No documents found to process"] w2, Ok tt)
    | documents =>
        match create_index env documents w2 with
        | Some (w3, Ok _) =>
            Some (add_trace [Log INFO "Force update completed successfully"] w3,
                  Ok tt)
        | Some (w3, Raise e) =>
            Some (add_trace [Log ERROR ("Error during force update: "
                                        +:+ str e)] w3,
                  Raise e)
        | None => None
        end
    end.
Proof.
  intros Hsetup Hready. unfold force_update, try_except.
  cbv [mbind M_bind]. rewrite Hsetup, process_documents_run by done.
  cbv zeta.
  destruct (loaded env (corpus env)) as [|d documents]; [reflexivity|].
  destruct (create_index env (d :: documents) _) as [[w3 [index|e]]|];
    reflexivity.
Qed.

(** The run when the directory of the corpus is missing and cannot be
    made. *)
Lemma force_update_without_directory fuel env w w1 client e :
  setup_opensearch fuel env 5 w = Some (w1, Ok client) →
  pdf_dir_exists env = false → makedirs env = Some e →
  force_update fuel env w =
    Some (add_trace [Log INFO ("Using device: " +:+ torch_device env);
                     MakeDirs "pdf_corpus";
                     Log ERROR ("Error during force update: " +:+ str e)] w1,
          Raise e).
Proof.
  intros Hsetup Hdir Hmake. unfold force_update, try_except.
  cbv [mbind M_bind logger_error emit raise].
  rewrite Hsetup, (process_documents_raises env w1 e Hdir Hmake).
  by rewrite record_event_add, add_trace_app.
Qed.

Lemma last_message t lvl msg :
  last (messages (t ++ [Log lvl msg])) = Some (lvl, msg).
Proof. rewrite messages_app. cbn. apply last_snoc. Qed.

(** C9, as the code has it.  A run that has set the store up and has
    the directory of the corpus (there before, or made by the run) logs
    the number of documents it loaded, and for each file it skipped the
    error that made it skip the file; no count of skipped files is
    logged.  When no document was loaded the run ends there, with an
    error message.  Otherwise it logs the number of nodes before it
    embeds them, and ends either with the message of success or with
    the error that stopped it, which it raises again.  A run that cannot
    make the missing directory logs no count at all: it logs the error
    of [os.makedirs] and raises it again. *)
Theorem force_update_reports fuel env w w1 client :
  setup_opensearch fuel env 5 w = Some (w1, Ok client) →
  (pdf_dir_exists env = true ∨ makedirs env = None →
   ∃ w' r,
     force_update fuel env w = Some (w', r)
     ∧ (INFO, "Loaded " +:+ pretty (length (loaded env (corpus env)))
              +:+ " documents") ∈ messages (trace w')
     ∧ (∀ p e, p ∈ corpus env → read_pages env p = Raise e →
               (ERROR, "Error processing " +:+ p +:+ ": " +:+ str e)
               ∈ messages (trace w'))
     ∧ match loaded env (corpus env) with
       | [] =>
           r = Ok tt
           ∧ last (messages (trace w'))
             = Some (ERROR, "No documents found to process")
       | documents =>
           (INFO, "Created "
                  +:+ pretty (length (get_nodes_from_documents env CHUNK_SIZE
                                        CHUNK_OVERLAP " " documents))
                  +:+ " nodes") ∈ messages (trace w')
           ∧ (r = Ok tt
              ∧ last (messages (trace w'))
                = Some (INFO, "Force update completed successfully")
              ∨ ∃ e, r = Raise e
                     ∧ last (messages (trace w'))
                       = Some (ERROR, "Error during force update: " +:+ str e))
       end)
  ∧ (∀ e, pdf_dir_exists env = false → makedirs env = Some e →
     ∃ w',
       force_update fuel env w = Some (w', Raise e)
       ∧ messages (trace w')
         = (messages (trace w1)
            ++ [(INFO, "Using device: " +:+ torch_device env);
                (ERROR, "Error during force update: " +:+ str e)])%list).
Proof.
  intros Hsetup. split.
  2: { intros e Hdir Hmake.
       rewrite (force_update_without_directory _ _ _ _ _ _ Hsetup Hdir Hmake).
       eexists. split; [reflexivity|].
       cbn [trace add_trace]. by rewrite messages_app. }
  intros Hready.
  rewrite (force_update_after_setup _ _ _ _ _ Hsetup Hready).
  cbv zeta. clear Hready.
  set (w2 := add_trace (process_events env) w1).
  assert (Hloaded : (INFO, "Loaded "
                           +:+ pretty (length (loaded env (corpus env)))
                           +:+ " documents") ∈ messages (trace w2)).
  { unfold w2. cbn [add_trace trace]. unfold process_events.
    rewrite messages_app. apply elem_of_app. right.
    change (?a :: ?l ++ ?r)%list with ([a] ++ l ++ r)%list.
    rewrite !messages_app, !elem_of_app. right. right. right.
    cbn. set_solver. }
  assert (Hskipped : ∀ p e, p ∈ corpus env → read_pages env p = Raise e →
    (ERROR, "Error processing " +:+ p +:+ ": " +:+ str e)
    ∈ messages (trace w2)).
  { intros p e Hp Hr. unfold w2. cbn [add_trace trace].
    unfold process_events. rewrite messages_app. apply elem_of_app. right.
    change (?a :: ?l ++ ?r)%list with ([a] ++ l ++ r)%list.
    rewrite !messages_app, !elem_of_app.
    right. right. left. by apply skipped_is_logged. }
  assert (Hlater : ∀ x w3 t t', trace w3 = (trace w2 ++ t)%list →
    x ∈ messages (trace w2) → x ∈ messages (trace (add_trace t' w3))).
  { intros x w3 t t' Ht Hx. cbn [add_trace trace].
    rewrite Ht, !messages_app, !elem_of_app.
    auto. }
  destruct (loaded env (corpus env)) as [|d documents].
  - eexists _, _. split; [reflexivity|].
    split_and!; [| |done|apply last_message].
    + apply (Hlater _ w2 []); [by rewrite app_nil_r|done].
    + intros p e Hp Hr.
      apply (Hlater _ w2 []); [by rewrite app_nil_r|auto].
  - destruct (create_index_starts env (d :: documents) w2)
      as (w3 & r3 & t3 & -> & Ht3).
    assert (Hnodes : ∀ t',
      (INFO, "Created "
             +:+ pretty (length (get_nodes_from_documents env CHUNK_SIZE
                                   CHUNK_OVERLAP " " (d :: documents)))
             +:+ " nodes") ∈ messages (trace (add_trace t' w3))).
    { intros t'. cbn [add_trace trace]. rewrite Ht3.
      change (?a :: t3)%list with ([a] ++ t3)%list.
      rewrite !messages_app, !elem_of_app. left. right. left.
      cbn. set_solver. }
    destruct r3 as [index|e].
    + eexists _, _. split; [reflexivity|].
      split_and!; [by eapply Hlater|by eauto using Hlater|done|].
      left. split; [done|apply last_message].
    + eexists _, _. split; [reflexivity|].
      split_and!; [by eapply Hlater|by eauto using Hlater|done|].
      right. exists e. split; [done|apply last_message].
Qed.

End EmbeddingFacts.

(** ** Runs of the ingestion *)

Section EmbeddingRuns.
Import OpenSearch Embedding Scenario.


(** With the cluster down for good, the retry loop makes 5 attempts,
    sleeps 4 times, and raises the error of the fifth attempt. *)
Example retries_are_five :
  (λ out, (length (List.filter is_attempt (trace (fst out))),
           List.filter is_sleep (trace (fst out)),
           snd out))
    <$> setup_loop down "opensearch" 9200 5 (range 5) fresh
  = Some (5%nat, replicate 4 (Sleep 5),
          Raise (Exn ConnectionError "ConnectionError(Connection refused)")).
Proof. vm_compute. reflexivity. Qed.

(** C9, counterexample.  Three of the four files cannot be read.  The
    run succeeds; its log has the number of documents loaded and the
    number of nodes, and no message with the number 3 in it. *)
Lemma skipped_count_is_not_logged :
  length (unreadable ready (corpus ready)) = 3%nat
  ∧ summary (force_update 1 ready fresh)
    = Some (20, log_of_four_files, Ok tt)
  ∧ forallb (λ m, negb (contains (pretty 3) (snd m))) log_of_four_files = true.
Proof. split_and!; vm_compute; reflexivity. Qed.

Lemma process_documents_skips_unreadable_witness :
  (∃ w',
     process_documents ready fresh
     = Some (w', Ok (loaded ready (corpus ready)))
     ∧ length (corpus ready) = 4%nat
     ∧ length (unreadable ready (corpus ready)) = 3%nat
     ∧ length (loaded ready (corpus ready)) = 1%nat)
  ∧ (∃ w',
       process_documents no_corpus_dir fresh
       = Some (w', Raise (Exn OSError
                            "[Errno 13] Permission denied: 'pdf_corpus'"))).
Proof.
  split.
  - destruct (proj1 (process_documents_skips_unreadable ready fresh)
                (or_introl eq_refl)) as (w' & Hrun & Hlength & _).
    exists w'. split; [exact Hrun|]. rewrite Hlength.
    split_and!; reflexivity.
  - destruct (proj2 (process_documents_skips_unreadable no_corpus_dir fresh)
                (Exn OSError "[Errno 13] Permission denied: 'pdf_corpus'")
                eq_refl eq_refl) as (_ & w' & Hrun & _).
    exists w'. exact Hrun.
Defined.

Lemma dimension_checked_at_ingestion_only_witness :
  (∃ w',
     create_index narrow_model [] fresh
     = Some (w', Raise (Exn ValueError
                          ("Model produces " +:+ pretty (Z.of_nat (length [1; 2; 3]))
                           +:+ "-dimensional vectors, but index expects "
                           +:+ pretty VECTOR_DIM +:+ " dimensions")))
     ∧ store w' = store fresh
     ∧ client_requests w' = client_requests fresh
     ∧ List.filter is_write (trace w')
       = List.filter is_write (trace fresh))
  ∧ (∀ (c : Api.collaborators Z) q u,
       Api.model_encode c q = Ok u →
       List.filter Api.is_store_search
         (fst (Api.run_search same c {| Api.query := q |}))
       = [Api.OpenSearchSearch Api.INDEX_NAME (Api.query_sent same u)]
       ∧ length (sq_query_value (Api.query_sent same u)) = length u).
Proof.
  apply (dimension_checked_at_ingestion_only narrow_model [] fresh
           [1; 2; 3] same).
  - reflexivity.
  - reflexivity.
  - discriminate.
Defined.

Lemma ensure_collection_idempotent_witness :
  ∃ w1 w2 client,
    setup_opensearch 1 ready 5 fresh = Some (w1, Ok (Some client))
    ∧ setup_opensearch 1 ready 5 w1 = Some (w2, Ok (Some client))
    ∧ is_Some (store w1 !! OPENSEARCH_INDEX)
    ∧ (is_Some (store fresh !! OPENSEARCH_INDEX) →
       store w1 = store fresh
       ∧ List.filter is_create (trace w1)
         = List.filter is_create (trace fresh))
    ∧ store w2 = store w1
    ∧ List.filter is_create (trace w2) = List.filter is_create (trace w1).
Proof.
  apply (ensure_collection_idempotent 1 ready 5 fresh).
  - split; intros n; reflexivity.
  - lia.
  - lia.
Defined.


Lemma force_update_reports_witness :
  (∃ w' r,
     force_update 1 ready fresh = Some (w', r)
     ∧ (INFO, "Loaded " +:+ pretty (length (loaded ready (corpus ready)))
              +:+ " documents") ∈ messages (trace w')
     ∧ (∀ p e, p ∈ corpus ready → read_pages ready p = Raise e →
               (ERROR, "Error processing " +:+ p +:+ ": " +:+ str e)
               ∈ messages (trace w'))
     ∧ match loaded ready (corpus ready) with
       | [] =>
           r = Ok tt
           ∧ last (messages (trace w'))
             = Some (ERROR, "No documents found to process")
       | documents =>
           (INFO, "Created "
                  +:+ pretty (length (get_nodes_from_documents ready CHUNK_SIZE
                                        CHUNK_OVERLAP " " documents))
                  +:+ " nodes") ∈ messages (trace w')
           ∧ (r = Ok tt
              ∧ last (messages (trace w'))
                = Some (INFO, "Force update completed successfully")
              ∨ ∃ e, r = Raise e
                     ∧ last (messages (trace w'))
                       = Some (ERROR, "Error during force update: " +:+ str e))
       end)
  ∧ (∃ w1,
       setup_opensearch 1 no_corpus_dir 5 fresh
       = Some (w1, Ok (Some (OpenSearchClient "opensearch" 9200)))
       ∧ ∃ w',
           force_update 1 no_corpus_dir fresh
           = Some (w', Raise (Exn OSError
                                "[Errno 13] Permission denied: 'pdf_corpus'"))
           ∧ messages (trace w')
             = (messages (trace w1)
                ++ [(INFO, "Using device: " +:+ torch_device no_corpus_dir);
                    (ERROR, "Error during force update: "
                            +:+ str (Exn OSError
                                       "[Errno 13] Permission denied: 'pdf_corpus'"))])%list).
Proof.
  split.
  - refine (proj1 (force_update_reports 1 ready fresh _ _ _)
              (or_introl eq_refl)).
    vm_compute. reflexivity.
  - eexists. split; [vm_compute; reflexivity|].
    refine (proj2 (force_update_reports 1 no_corpus_dir fresh _ _ _)
              (Exn OSError "[Errno 13] Permission denied: 'pdf_corpus'")
              eq_refl eq_refl).
    vm_compute. reflexivity.
Defined.

End EmbeddingRuns.

(** * Strings *)

Lemma append_cons a s1 s2 : String a s1 +:+ s2 = String a (s1 +:+ s2).
Proof. reflexivity. Qed.

Lemma append_assoc s1 s2 s3 : (s1 +:+ s2) +:+ s3 = s1 +:+ (s2 +:+ s3).
Proof.
  induction s1 as [|a s1 IH]; [done|]. by rewrite !append_cons, IH.
Qed.

Lemma length_append s1 s2 :
  String.length (s1 +:+ s2) = (String.length s1 + String.length s2)%nat.
Proof.
  induction s1 as [|a s1 IH]; [done|].
  rewrite append_cons. cbn [String.length]. by rewrite IH.
Qed.

(** * More about the ingestion run *)

Section EmbeddingMore.
Import OpenSearch Embedding.

Context {float : Type}.

#[local] Existing Instances M_ret M_bind.

Implicit Types (env : environment float) (w : world float).
Implicit Types (t : list (event float)) (e : exn).

(** ** The readiness poll *)

(** With a timeout that is not positive the poll raises its
    [TimeoutError] at once: no probe is sent, and nothing is logged. *)
Lemma poll_without_time fuel env timeout w :
  timeout ≤ 0 →
  wait_for_opensearch (S fuel) env timeout w
  = Some (w, Raise (Exn TimeoutError "OpenSearch did not become ready in time")).
Proof.
  intros Htimeout. rewrite wait_for_opensearch_unfold, wait_loop_unfold.
  rewrite bool_decide_eq_false_2; [done|]. unfold seconds. lia.
Qed.

Lemma raised_among_S env first count :
  raised_among env first (S count)
  = ((if probe_raises env first then 1 else 0)
     + raised_among env (S first) count)%nat.
Proof.
  unfold raised_among. cbn [seq List.filter].
  by destruct (probe_raises env first).
Qed.

Lemma time_of_probes_S env first count :
  time_of_probes env first (S count)
  = Z.of_N (fst (http_get env first)) + time_of_probes env (S first) count.
Proof. reflexivity. Qed.

(** The books of the poll, for any start of the loop. *)
Lemma wait_loop_accounts fuel env start_time timeout w w' r :
  wait_loop fuel env start_time timeout w = Some (w', r) →
  ∃ sent t,
    gets_sent w' = (gets_sent w + sent)%nat
    ∧ trace w' = (trace w ++ t)%list
    ∧ List.filter is_sleep t
      = replicate (raised_among env (gets_sent w) sent) (Sleep 5)
    ∧ clock w'
      = clock w + time_of_probes env (gets_sent w) sent
        + seconds 5 * Z.of_nat (raised_among env (gets_sent w) sent)
    ∧ (r = Ok true →
       (0 < sent)%nat
       ∧ snd (http_get env (gets_sent w + sent - 1)) = Ok 200).
Proof.
  revert w. induction fuel as [|fuel IH]; intros w; [done|].
  rewrite wait_loop_unfold. case_bool_decide as Hnow.
  - rewrite wait_step_run.
    assert (Hlast : ∀ sent, (gets_sent w + S sent - 1)%nat
                            = (S (gets_sent w) + sent - 1)%nat) by lia.
    destruct (snd (http_get env (gets_sent w))) as [status_code|e] eqn:Hget.
    + case_bool_decide as Hcode.
      * intros [= <- <-].
        exists 1%nat,
          [RequestsGet OPENSEARCH_ENDPOINT; Log INFO "OpenSearch is ready"].
        rewrite raised_among_S, time_of_probes_S.
        unfold probe_raises. rewrite Hget.
        unfold raised_among, time_of_probes.
        cbn [seq List.filter foldr length replicate Nat.add Z.of_nat
             gets_sent trace clock add_trace after_get is_sleep].
        rewrite <- app_assoc. split_and!; [lia|done|done|lia|].
        intros _. split; [lia|].
        replace (gets_sent w + 1 - 1)%nat with (gets_sent w) by lia.
        by rewrite Hget, Hcode.
      * intros Hrun.
        apply IH in Hrun as (sent & t & Hg & Ht & Hs & Hc & Hr).
        cbn [gets_sent trace clock after_get] in Hg, Ht, Hs, Hc, Hr.
        exists (S sent), (RequestsGet OPENSEARCH_ENDPOINT :: t).
        rewrite raised_among_S, time_of_probes_S.
        unfold probe_raises. rewrite Hget. cbn [Nat.add List.filter is_sleep].
        rewrite Hg, Ht, Hs, Hc, <- app_assoc.
        split_and!; [lia|done|done|lia|].
        intros Hok. destruct (Hr Hok) as [Hpos Hok200]. split; [lia|].
        by rewrite Hlast.
    + intros Hrun.
      apply IH in Hrun as (sent & t & Hg & Ht & Hs & Hc & Hr).
      cbn [gets_sent trace clock after_get after_sleep add_trace]
        in Hg, Ht, Hs, Hc, Hr.
      exists (S sent),
        (RequestsGet OPENSEARCH_ENDPOINT
         :: Log INFO "Waiting for OpenSearch..." :: Sleep 5 :: t).
      rewrite raised_among_S, time_of_probes_S.
      unfold probe_raises. rewrite Hget.
      cbn [Nat.add List.filter is_sleep replicate].
      rewrite Hg, Ht, Hs, Hc, <- !app_assoc.
      split_and!; [lia|done|done|unfold seconds; lia|].
      intros Hok. destruct (Hr Hok) as [Hpos Hok200]. split; [lia|].
      by rewrite Hlast.
  - intros [= <- <-]. exists 0%nat, [].
    rewrite app_nil_r. unfold raised_among, time_of_probes.
    cbn [seq List.filter foldr length replicate Z.of_nat].
    split_and!; [lia|done|done|unfold seconds; lia|done].
Qed.

(** X1.  The books of a finished poll.  It slept 5 seconds once for each
    probe that raised, and never after a probe that was answered, whatever
    the status; the time that passed is the time of the probes and of
    these sleeps; and when it returns, the last probe was answered with
    status 200. *)
Theorem poll_sleeps_after_failures_only fuel env timeout w w' r :
  wait_for_opensearch fuel env timeout w = Some (w', r) →
  ∃ sent t,
    gets_sent w' = (gets_sent w + sent)%nat
    ∧ trace w' = (trace w ++ t)%list
    ∧ List.filter is_sleep t
      = replicate (raised_among env (gets_sent w) sent) (Sleep 5)
    ∧ clock w'
      = clock w + time_of_probes env (gets_sent w) sent
        + seconds 5 * Z.of_nat (raised_among env (gets_sent w) sent)
    ∧ (r = Ok true →
       (0 < sent)%nat
       ∧ snd (http_get env (gets_sent w + sent - 1)) = Ok 200).
Proof. rewrite wait_for_opensearch_unfold. apply wait_loop_accounts. Qed.

(** ** Setting the store up *)

(** The call on a reachable cluster that lacks the index, event by
    event. *)
Lemma setup_fresh fuel env max_retries w :
  reachable env → (0 < fuel)%nat → 0 < max_retries →
  store w !! OPENSEARCH_INDEX = None →
  ∃ w',
    setup_opensearch fuel env max_retries w
    = Some (w', Ok (Some (OpenSearchClient "opensearch" 9200)))
    ∧ store w' = <[OPENSEARCH_INDEX := IndexData index_mapping []]> (store w)
    ∧ client_requests w' = S (S (client_requests w))
    ∧ trace w'
      = (trace w
         ++ [RequestsGet OPENSEARCH_ENDPOINT;
             Log INFO "OpenSearch is ready";
             NewOpenSearch "opensearch" 9200;
             IndicesExists OPENSEARCH_INDEX;
             IndicesCreate OPENSEARCH_INDEX index_mapping;
             Log INFO ("Created index " +:+ OPENSEARCH_INDEX)])%list.
Proof.
  intros Henv Hfuel Hretries Hnone.
  destruct fuel as [|fuel]; [lia|].
  rewrite setup_opensearch_unfold, (wait_reachable fuel env 300 w Henv) by done.
  destruct (range_first max_retries Hretries) as [rest ->].
  rewrite setup_loop_unfold, setup_attempt_run. cbv zeta.
  destruct Henv as [_ Htransport]. rewrite !Htransport.
  cbn [store add_trace after_get].
  unfold indices_exists. rewrite bool_decide_eq_false_2
    by (rewrite Hnone; by intros [? ?]).
  eexists. split; [reflexivity|].
  cbn [store client_requests trace add_trace with_store after_request
       after_get].
  by rewrite <- !app_assoc.
Qed.

(** X2.  On a reachable cluster that lacks the index, [setup_opensearch]
    creates it: with the mapping of the configuration (a [knn_vector] of
    dimension 1024 compared by cosine similarity), without records, with
    one request to ask and one to create, and without touching any other
    index. *)
Theorem setup_creates_index fuel env max_retries w :
  reachable env → (0 < fuel)%nat → 0 < max_retries →
  store w !! OPENSEARCH_INDEX = None →
  ∃ w',
    setup_opensearch fuel env max_retries w
    = Some (w', Ok (Some (OpenSearchClient "opensearch" 9200)))
    ∧ store w' !! OPENSEARCH_INDEX = Some (IndexData index_mapping [])
    ∧ dimension index_mapping = 1024
    ∧ space_type index_mapping = "cosinesimil"
    ∧ (∀ index, index ≠ OPENSEARCH_INDEX → store w' !! index = store w !! index)
    ∧ client_requests w' = (client_requests w + 2)%nat
    ∧ List.filter is_create (trace w')
      = (List.filter is_create (trace w)
         ++ [IndicesCreate OPENSEARCH_INDEX index_mapping])%list.
Proof.
  intros Henv Hfuel Hretries Hnone.
  destruct (setup_fresh fuel env max_retries w)
    as (w' & Hrun & Hstore & Hrequests & Htrace); [done..|].
  exists w'. split; [done|]. rewrite Hstore, Hrequests, Htrace.
  split_and!; [|done|done| | |].
  - apply lookup_insert_eq.
  - intros index Hindex. by rewrite lookup_insert_ne.
  - lia.
  - by rewrite List.filter_app.
Qed.

(** X3.  An exception that is no connection error is not retried: the
    loop raises it out of the first attempt, without a sleep and without
    a second request. *)
Theorem setup_raises_other_errors_at_once env host port max_retries w e :
  0 < max_retries →
  transport env (client_requests w) = Some e →
  retryable e = false →
  setup_loop env host port max_retries (range max_retries) w
  = Some (after_request (IndicesExists OPENSEARCH_INDEX)
            (add_trace [NewOpenSearch host port] w),
          Raise e).
Proof.
  intros Hretries He Hno.
  destruct (range_first max_retries Hretries) as [rest ->].
  rewrite setup_loop_unfold, setup_attempt_run. cbv zeta. rewrite He.
  unfold retryable in Hno. by rewrite Hno.
Qed.

(** The attempts that fail with a connection error and are not the last
    one allowed: each costs one request and one sleep of 5 seconds, and
    the loop goes on with the other attempts. *)
Lemma setup_loop_failing_prefix env host port max_retries
    (failing rest : list Z) w :
  Forall (λ a, a ≠ max_retries - 1) failing →
  (∀ i, (i < length failing)%nat →
        ∃ e, transport env (client_requests w + i) = Some e
             ∧ retryable e = true) →
  ∃ w1 t,
    setup_loop env host port max_retries (failing ++ rest) w
    = setup_loop env host port max_retries rest w1
    ∧ trace w1 = (trace w ++ t)%list
    ∧ length (List.filter is_attempt t) = length failing
    ∧ List.filter is_sleep t = replicate (length failing) (Sleep 5)
    ∧ List.filter is_create t = []
    ∧ clock w1 = clock w + seconds 5 * Z.of_nat (length failing)
    ∧ client_requests w1 = (client_requests w + length failing)%nat
    ∧ store w1 = store w.
Proof.
  revert w. induction failing as [|attempt failing IH]; intros w Hnot Hfail.
  { exists w, []. cbn. rewrite app_nil_r. unfold seconds.
    split_and!; try done; lia. }
  apply Forall_cons in Hnot as [Hattempt Hnot].
  destruct (Hfail 0%nat) as (e & He & Hretry); [cbn; lia|].
  rewrite Nat.add_0_r in He.
  cbn [app]. rewrite setup_loop_unfold, setup_attempt_run. cbv zeta.
  rewrite He. unfold retryable in Hretry. rewrite Hretry.
  rewrite bool_decide_eq_false_2 by done.
  match goal with
  | |- context [setup_loop _ _ _ _ (failing ++ rest) ?w0] =>
      destruct (IH w0) as (w1 & t & -> & Ht & Ha & Hs & Hc & Hclock & Hreq & Hst)
  end; [done| |].
  { intros i Hi. cbn [client_requests after_sleep add_trace after_request].
    destruct (Hfail (S i)) as (e' & He' & Hretry'); [cbn; lia|].
    exists e'. split; [|done]. rewrite <- He'. f_equal. lia. }
  cbn [trace clock client_requests store after_sleep add_trace after_request]
    in Ht, Hclock, Hreq, Hst.
  exists w1.
  exists ([NewOpenSearch host port; IndicesExists OPENSEARCH_INDEX;
           Log WARNING ("Connection attempt " +:+ pretty (attempt + 1)
                        +:+ " failed, retrying..."); Sleep 5] ++ t)%list.
  rewrite Ht, <- !app_assoc. rewrite !List.filter_app. cbn.
  rewrite Ha, Hs, Hc, Hclock, Hreq, Hst. unfold seconds.
  split_and!; try done; lia.
Qed.

Lemma range_split n (k : nat) :
  Z.of_nat k ≤ n →
  range n = (map Z.of_nat (seq 0 k)
             ++ map Z.of_nat (seq k (Z.to_nat n - k)))%list.
Proof.
  intros Hk. unfold range.
  replace (Z.to_nat n) with (k + (Z.to_nat n - k))%nat at 1 by lia.
  by rewrite seq_app, List.map_app.
Qed.

Lemma range_prefix_not_last n (k : nat) :
  Z.of_nat k < n → Forall (λ a, a ≠ n - 1) (map Z.of_nat (seq 0 k)).
Proof.
  intros Hk. apply Forall_forall. intros a Ha.
  apply list_elem_of_In, in_map_iff in Ha as (i & <- & Hi).
  apply in_seq in Hi. lia.
Qed.

(** X4.  After [k] attempts that failed with a connection error, [k]
    smaller than the number of retries, the loop gets through: it returns
    the client after [k + 1] attempts and [k] sleeps of 5 seconds, and the
    index exists. *)
Theorem setup_recovers_after_failures env host port max_retries (k : nat) w :
  Z.of_nat k < max_retries →
  (∀ i, (i < k)%nat →
        ∃ e, transport env (client_requests w + i) = Some e
             ∧ retryable e = true) →
  transport env (client_requests w + k) = None →
  transport env (S (client_requests w + k)) = None →
  ∃ w' t,
    setup_loop env host port max_retries (range max_retries) w
    = Some (w', Ok (Some (OpenSearchClient host port)))
    ∧ trace w' = (trace w ++ t)%list
    ∧ length (List.filter is_attempt t) = S k
    ∧ List.filter is_sleep t = replicate k (Sleep 5)
    ∧ clock w' = clock w + seconds 5 * Z.of_nat k
    ∧ is_Some (store w' !! OPENSEARCH_INDEX).
Proof.
  intros Hk Hfail Hthrough Hnext.
  rewrite (range_split max_retries k) by lia.
  destruct (Z.to_nat max_retries - k)%nat as [|left] eqn:Hleft; [lia|].
  cbn [seq map].
  destruct (setup_loop_failing_prefix env host port max_retries
              (map Z.of_nat (seq 0 k))
              (Z.of_nat k :: map Z.of_nat (seq (S k) left)) w)
    as (w1 & t & -> & Ht & Ha & Hs & _ & Hclock & Hreq & Hst).
  { by apply range_prefix_not_last. }
  { rewrite List.length_map, List.length_seq. done. }
  rewrite List.length_map, List.length_seq in Ha, Hs, Hclock, Hreq.
  rewrite setup_loop_unfold, setup_attempt_run. cbv zeta.
  rewrite Hreq, Hthrough, Hnext.
  destruct (indices_exists (store w1) OPENSEARCH_INDEX) eqn:Hex.
  - apply bool_decide_eq_true in Hex.
    eexists _, (t ++ [NewOpenSearch host port;
                      IndicesExists OPENSEARCH_INDEX])%list.
    split; [reflexivity|].
    cbn [trace clock store after_request add_trace].
    rewrite Ht, <- !app_assoc, !List.filter_app, length_app, Ha, Hs. cbn.
    rewrite app_nil_r.
    split_and!; try done; lia.
  - eexists _, (t ++ [NewOpenSearch host port;
                      IndicesExists OPENSEARCH_INDEX;
                      IndicesCreate OPENSEARCH_INDEX index_mapping;
                      Log INFO ("Created index " +:+ OPENSEARCH_INDEX)])%list.
    split; [reflexivity|].
    cbn [trace clock store after_request add_trace with_store].
    rewrite Ht, <- !app_assoc, !List.filter_app, length_app, Ha, Hs. cbn.
    rewrite app_nil_r, lookup_insert_eq.
    split_and!; try done; lia.
Qed.

(** X5.  When every request fails with a connection error the loop gives
    up: after as many attempts as there are retries, with a sleep of 5
    seconds between two attempts, it raises the error of the last attempt
    and leaves the store alone. *)
Theorem setup_gives_up_after_max_retries env host port max_retries w :
  0 < max_retries →
  (∀ i, ∃ e, transport env (client_requests w + i) = Some e
             ∧ retryable e = true) →
  ∃ w' t e,
    setup_loop env host port max_retries (range max_retries) w
    = Some (w', Raise e)
    ∧ transport env (client_requests w + (Z.to_nat max_retries - 1)) = Some e
    ∧ trace w' = (trace w ++ t)%list
    ∧ length (List.filter is_attempt t) = Z.to_nat max_retries
    ∧ List.filter is_sleep t
      = replicate (Z.to_nat max_retries - 1) (Sleep 5)
    ∧ List.filter is_create t = []
    ∧ clock w' = clock w + seconds 5 * (max_retries - 1)
    ∧ store w' = store w.
Proof.
  intros Hretries Hfail.
  set (k := (Z.to_nat max_retries - 1)%nat).
  rewrite (range_split max_retries k) by lia.
  replace (Z.to_nat max_retries - k)%nat with 1%nat by lia.
  cbn [seq map].
  destruct (setup_loop_failing_prefix env host port max_retries
              (map Z.of_nat (seq 0 k)) [Z.of_nat k] w)
    as (w1 & t & -> & Ht & Ha & Hs & Hc & Hclock & Hreq & Hst).
  { apply range_prefix_not_last. lia. }
  { intros i _. apply Hfail. }
  rewrite List.length_map, List.length_seq in Ha, Hs, Hclock, Hreq.
  destruct (Hfail k) as (e & He & Hretry).
  rewrite setup_loop_unfold, setup_attempt_run. cbv zeta.
  rewrite Hreq, He. unfold retryable in Hretry. rewrite Hretry.
  rewrite bool_decide_eq_true_2 by lia.
  eexists _, (t ++ [NewOpenSearch host port;
                    IndicesExists OPENSEARCH_INDEX])%list, e.
  split; [reflexivity|].
  cbn [trace clock store after_request add_trace].
  rewrite Ht, <- !app_assoc, !List.filter_app, length_app, Ha, Hs, Hc. cbn.
  rewrite app_nil_r. unfold seconds in *.
  split_and!; try done; lia.
Qed.

(** ** Building the index *)

Lemma vector_of_works env text :
  model_works env →
  get_text_embedding env text = Ok (vector_of env text)
  ∧ Z.of_nat (length (vector_of env text)) = VECTOR_DIM.
Proof.
  intros [_ Hmodel]. destruct (Hmodel text) as (v & Hv & Hdim).
  unfold vector_of. by rewrite Hv.
Qed.

Lemma embed_nodes_run env nodes w :
  model_works env →
  embed_nodes env nodes w
  = Some (add_trace (map (λ n, GetTextEmbedding (embed_input env n)) nodes) w,
          Ok (map (record_of env) nodes)).
Proof.
  intros Hmodel. revert w. induction nodes as [|n nodes IH]; intros w.
  { cbn. by rewrite add_trace_nil. }
  cbn [embed_nodes map]. unfold embed_text.
  cbv [mbind M_bind mret M_ret].
  destruct (vector_of_works env (embed_input env n) Hmodel) as [-> _].
  rewrite IH, record_event_add, add_trace_app. reflexivity.
Qed.

Lemma records_fit env (m : mapping) nodes :
  model_works env → dimension m = VECTOR_DIM →
  forallb (fits m) (map (record_of env) nodes) = true
  ∧ filter (λ r, fits m r) (map (record_of env) nodes)
    = map (record_of env) nodes.
Proof.
  intros Hmodel Hdim.
  assert (Hfit : ∀ n, fits m (record_of env n) = true).
  { intros n. unfold fits, record_of. cbn.
    apply bool_decide_eq_true_2. rewrite Hdim.
    apply (vector_of_works env (embed_input env n) Hmodel). }
  induction nodes as [|n nodes [IH1 IH2]]; [done|].
  cbn [map forallb]. rewrite Hfit, IH1. split; [done|].
  rewrite filter_cons_True by (rewrite Hfit; done). by rewrite IH2.
Qed.

(** [create_index] up to the pickle, when the store answers and the model
    works: the world in which the records are written. *)
Lemma create_index_until_pickle env documents w ix :
  (∀ n, transport env n = None) →
  model_works env →
  store w !! OPENSEARCH_INDEX = Some ix →
  dimension (ix_mapping ix) = VECTOR_DIM →
  ∃ w1,
    create_index env documents w
    = match pickle_dump env with
      | Some e => Some (add_trace [PickleDump "index.pkl"] w1, Raise e)
      | None =>
          Some (add_trace [PickleDump "index.pkl";
                           Log INFO "Index created and saved to index.pkl"] w1,
                Ok (map (record_of env)
                      (get_nodes_from_documents env CHUNK_SIZE CHUNK_OVERLAP
                         " " documents)))
      end
    ∧ store w1 !! OPENSEARCH_INDEX
      = Some (IndexData (ix_mapping ix)
                (ix_docs ix
                 ++ map (record_of env)
                      (get_nodes_from_documents env CHUNK_SIZE CHUNK_OVERLAP
                         " " documents)))
    ∧ (∀ index, index ≠ OPENSEARCH_INDEX →
                store w1 !! index = store w !! index).
Proof.
  intros Htransport Hmodel Hix Hdim.
  pose proof (vector_of_works env "test" Hmodel) as [Hprobe Hprobe_dim].
  destruct Hmodel as [Hload Hvectors].
  assert (Hmodel : model_works env) by done.
  unfold create_index. cbv zeta.
  generalize (get_nodes_from_documents env CHUNK_SIZE CHUNK_OVERLAP " "
                documents).
  intros nodes.
  unfold HuggingFaceEmbedding, embed_text, OpensearchVectorClient, pickle.
  cbv [mbind M_bind mret M_ret logger_info emit raise].
  rewrite Hload, Hprobe. rewrite bool_decide_eq_false_2 by (intros ?; done).
  rewrite client_request_run, Htransport.
  cbn [store record_event]. rewrite Hix. cbn [fst snd].
  destruct nodes as [|n nodes].
  - cbn [VectorStoreIndex]. cbv [mret M_ret].
    eexists. split.
    { destruct (pickle_dump env) as [e|].
      - rewrite record_event_add. reflexivity.
      - rewrite !record_event_add, add_trace_app. reflexivity. }
    cbn [store with_store after_request]. rewrite app_nil_r.
    split; [by destruct ix|done].
  - unfold VectorStoreIndex, bulk_write.
    cbv [mbind M_bind mret M_ret].
    rewrite embed_nodes_run by done.
    rewrite client_request_run, Htransport.
    cbn [store with_store after_request add_trace]. rewrite Hix.
    destruct (records_fit env (ix_mapping ix) (n :: nodes) Hmodel Hdim)
      as [-> ->].
    cbn [fst snd].
    eexists. split.
    { destruct (pickle_dump env) as [e|].
      - rewrite record_event_add. reflexivity.
      - rewrite !record_event_add, add_trace_app. reflexivity. }
    cbn [store with_store]. rewrite lookup_insert_eq. split; [done|].
    intros index Hindex. by rewrite lookup_insert_ne.
Qed.

(** X6.  When the store answers, the model works and the index has the
    configured dimension, [create_index] appends to the index one record
    for each node, in the order of the nodes: the text of the node, the
    metadata that the library stores with it, and the vector that the
    model gives for the text that the library embeds.  The records that
    were there stay, and no other index changes. *)
Theorem create_index_appends_records env documents w ix :
  (∀ n, transport env n = None) →
  model_works env →
  pickle_dump env = None →
  store w !! OPENSEARCH_INDEX = Some ix →
  dimension (ix_mapping ix) = VECTOR_DIM →
  ∃ w',
    create_index env documents w
    = Some (w', Ok (map (record_of env)
                      (get_nodes_from_documents env CHUNK_SIZE CHUNK_OVERLAP
                         " " documents)))
    ∧ store w' !! OPENSEARCH_INDEX
      = Some (IndexData (ix_mapping ix)
                (ix_docs ix
                 ++ map (record_of env)
                      (get_nodes_from_documents env CHUNK_SIZE CHUNK_OVERLAP
                         " " documents)))
    ∧ (∀ index, index ≠ OPENSEARCH_INDEX →
                store w' !! index = store w !! index).
Proof.
  intros Htransport Hmodel Hpickle Hix Hdim.
  destruct (create_index_until_pickle env documents w ix)
    as (w1 & Hrun & Hstore & Hother); [done..|].
  rewrite Hpickle in Hrun. eexists. split; [exact Hrun|]. done.
Qed.

(** X7.  A pickle that fails comes too late for the store:
    [create_index] raises the exception of the pickle, and the index has
    all the same grown by one record for each node, behind the records
    that were there. *)
Theorem create_index_keeps_records_when_pickle_fails env documents w ix e :
  (∀ n, transport env n = None) →
  model_works env →
  pickle_dump env = Some e →
  store w !! OPENSEARCH_INDEX = Some ix →
  dimension (ix_mapping ix) = VECTOR_DIM →
  ∃ w' written,
    create_index env documents w = Some (w', Raise e)
    ∧ store w' !! OPENSEARCH_INDEX
      = Some (IndexData (ix_mapping ix) (ix_docs ix ++ written))
    ∧ length written
      = length (get_nodes_from_documents env CHUNK_SIZE CHUNK_OVERLAP " "
                  documents).
Proof.
  intros Htransport Hmodel Hpickle Hix Hdim.
  destruct (create_index_until_pickle env documents w ix)
    as (w1 & Hrun & Hstore & Hother); [done..|].
  rewrite Hpickle in Hrun. eexists _, _. split; [exact Hrun|].
  split; [exact Hstore|]. by rewrite List.length_map.
Qed.

(** ** The whole run *)

Lemma setup_on_reachable fuel env max_retries w :
  reachable env → (0 < fuel)%nat → 0 < max_retries →
  ∃ w',
    setup_opensearch fuel env max_retries w
    = Some (w', Ok (Some (OpenSearchClient "opensearch" 9200)))
    ∧ (is_Some (store w !! OPENSEARCH_INDEX) → store w' = store w).
Proof.
  intros Henv Hfuel Hretries. destruct fuel as [|fuel]; [lia|].
  rewrite setup_opensearch_unfold, (wait_reachable fuel env 300 w Henv) by done.
  destruct (setup_loop_reachable env "opensearch" 9200 max_retries
              (add_trace [Log INFO "OpenSearch is ready"]
                 (after_get (fst (http_get env (gets_sent w))) w))
              Henv Hretries) as (w' & t & Hrun & _ & _ & Hkeep).
  exists w'. split; [done|]. intros Hix. by destruct (Hkeep Hix).
Qed.

Lemma force_update_setup_raises fuel env w w1 e :
  setup_opensearch fuel env 5 w = Some (w1, Raise e) →
  force_update fuel env w
  = Some (add_trace [Log ERROR ("Error during force update: " +:+ str e)] w1,
          Raise e).
Proof.
  intros Hsetup. unfold force_update, try_except.
  cbv [mbind M_bind logger_error emit raise]. by rewrite Hsetup.
Qed.

Lemma force_update_setup_hangs fuel env w :
  setup_opensearch fuel env 5 w = None → force_update fuel env w = None.
Proof.
  intros Hsetup. unfold force_update, try_except.
  cbv [mbind M_bind]. by rewrite Hsetup.
Qed.

(** The run after the setup, when documents were loaded, the store
    answers and the model works. *)
Lemma force_update_appends fuel env w w1 client ix :
  setup_opensearch fuel env 5 w = Some (w1, Ok client) →
  corpus_dir_ready env →
  (∀ n, transport env n = None) →
  model_works env →
  pickle_dump env = None →
  loaded env (corpus env) ≠ [] →
  store w1 !! OPENSEARCH_INDEX = Some ix →
  dimension (ix_mapping ix) = VECTOR_DIM →
  ∃ w',
    force_update fuel env w = Some (w', Ok tt)
    ∧ store w' !! OPENSEARCH_INDEX
      = Some (IndexData (ix_mapping ix)
                (ix_docs ix ++ map (record_of env) (nodes_of env)))
    ∧ (∀ index, index ≠ OPENSEARCH_INDEX →
                store w' !! index = store w1 !! index).
Proof.
  intros Hsetup Hready Htransport Hmodel Hpickle Hloaded Hix Hdim.
  rewrite (force_update_after_setup _ _ _ _ _ Hsetup Hready). cbv zeta.
  unfold nodes_of.
  destruct (loaded env (corpus env)) as [|d documents]; [done|].
  destruct (create_index_until_pickle env (d :: documents)
              (add_trace (process_events env) w1) ix)
    as (w2 & -> & Hstore & Hother); [done..|].
  rewrite Hpickle. eexists. split; [reflexivity|]. done.
Qed.


(** X9.  Nothing removes or replaces the records of an earlier run.  A
    second run, whose nodes the library may have given other ids,
    appends its records behind those of the first: over the same corpus
    the index then holds twice as many records. *)
Theorem rerun_appends_duplicates fuel env again w :
  reachable env → model_works env → pickle_dump env = None →
  loaded env (corpus env) ≠ [] →
  reachable again → model_works again → pickle_dump again = None →
  loaded again (corpus again) ≠ [] →
  (0 < fuel)%nat →
  store w !! OPENSEARCH_INDEX = None →
  ∃ w1 w2,
    force_update fuel env w = Some (w1, Ok tt)
    ∧ force_update fuel again w1 = Some (w2, Ok tt)
    ∧ store w2 !! OPENSEARCH_INDEX
      = Some (IndexData index_mapping
                (map (record_of env) (nodes_of env)
                 ++ map (record_of again) (nodes_of again)))
    ∧ (length (nodes_of again) = length (nodes_of env) →
       ∃ records,
         store w2 !! OPENSEARCH_INDEX = Some (IndexData index_mapping records)
         ∧ length records = (2 * length (nodes_of env))%nat).
Proof.
  intros Henv Hmodel Hpickle Hloaded Henv' Hmodel' Hpickle' Hloaded'
    Hfuel Hnone.
  assert (Hready : corpus_dir_ready env).
  { left. unfold corpus in Hloaded. by destruct (pdf_dir_exists env). }
  assert (Hready' : corpus_dir_ready again).
  { left. unfold corpus in Hloaded'. by destruct (pdf_dir_exists again). }
  destruct (setup_fresh fuel env 5 w)
    as (w0 & Hsetup & Hstore & _); [done..|].
  destruct (force_update_appends fuel env w w0 _ (IndexData index_mapping [])
              Hsetup) as (w1 & Hrun1 & Hindex1 & _);
    [done|by destruct Henv|done..| |done|].
  { rewrite Hstore. apply lookup_insert_eq. }
  destruct (setup_on_reachable fuel again 5 w1)
    as (w1' & Hsetup' & Hkeep); [done..|].
  destruct (force_update_appends fuel again w1 w1' _
              (IndexData index_mapping (map (record_of env) (nodes_of env)))
              Hsetup') as (w2 & Hrun2 & Hindex2 & _);
    [done|by destruct Henv'|done..| |done|].
  { rewrite Hkeep by (rewrite Hindex1; eauto). exact Hindex1. }
  exists w1, w2. split_and!; [done..|].
  intros Hsame. eexists. split; [exact Hindex2|].
  cbn [ix_docs]. rewrite length_app, !List.length_map. lia.
Qed.

(** Reading the corpus neither calls the model nor the store. *)
Lemma process_events_quiet env (p : event float → bool) :
  (∀ lvl msg, p (Log lvl msg) = false) →
  (∀ path, p (ReadPdf path) = false) →
  (∀ path, p (MakeDirs path) = false) →
  List.filter p (process_events env) = [].
Proof.
  intros Hlog Hread Hmake. unfold process_events.
  cbn [List.filter]. rewrite Hlog, !List.filter_app.
  assert (∀ files, List.filter p (read_events env files) = []) as ->.
  { induction files as [|f files IH]; [done|].
    unfold read_events. cbn [flat_map]. fold (read_events env files).
    cbn [List.filter app]. rewrite Hlog, Hread, List.filter_app, IH.
    destruct (read_pages env f); cbn; by rewrite ?Hlog. }
  destruct (pdf_dir_exists env); cbn; by rewrite ?Hmake, ?Hlog.
Qed.

(** X10.  A run that loads nothing, because the directory of the corpus
    had to be made, is empty or holds no readable file, ends there: it
    returns without an exception, the model is neither loaded nor called,
    no further request goes to the store, and the store stays as the
    setup left it. *)
Theorem force_update_without_documents fuel env w w1 client :
  setup_opensearch fuel env 5 w = Some (w1, Ok client) →
  pdf_dir_exists env = true ∨ makedirs env = None →
  loaded env (corpus env) = [] →
  ∃ w',
    force_update fuel env w = Some (w', Ok tt)
    ∧ store w' = store w1
    ∧ client_requests w' = client_requests w1
    ∧ List.filter uses_model (trace w') = List.filter uses_model (trace w1)
    ∧ List.filter is_write (trace w') = List.filter is_write (trace w1).
Proof.
  intros Hsetup Hready Hloaded.
  rewrite (force_update_after_setup _ _ _ _ _ Hsetup Hready). cbv zeta.
  rewrite Hloaded. eexists. split; [reflexivity|].
  cbn [store client_requests trace add_trace].
  rewrite !List.filter_app, !process_events_quiet by done. cbn.
  by rewrite !app_nil_r.
Qed.

(** X11.  No exception is swallowed and none goes unlogged: a run that
    ends with an exception has logged it in its last message and raises
    that very exception; a run that ends without one has said so in its
    last message, or has said that there was nothing to process. *)
Theorem force_update_never_swallows fuel env w w' r :
  force_update fuel env w = Some (w', r) →
  match r with
  | Raise e =>
      last (messages (trace w'))
      = Some (ERROR, "Error during force update: " +:+ str e)
  | Ok _ =>
      last (messages (trace w'))
      = Some (INFO, "Force update completed successfully")
      ∨ last (messages (trace w'))
        = Some (ERROR, "No documents found to process")
  end.
Proof.
  destruct (setup_opensearch fuel env 5 w) as [[w1 [client|e]]|] eqn:Hsetup.
  - assert (Hcases : corpus_dir_ready env
                     ∨ ∃ e, pdf_dir_exists env = false ∧ makedirs env = Some e).
    { unfold corpus_dir_ready. destruct (pdf_dir_exists env); [auto|].
      destruct (makedirs env); eauto. }
    destruct Hcases as [Hready|(e & Hdir & Hmake)].
    2: { rewrite (force_update_without_directory _ _ _ _ _ _ Hsetup Hdir
                    Hmake).
         intros [= <- <-]. cbn [trace add_trace].
         change (trace w1 ++ [?a; ?b; ?c])%list
           with (trace w1 ++ [a; b] ++ [c])%list.
         rewrite app_assoc. apply last_message. }
    rewrite (force_update_after_setup _ _ _ _ _ Hsetup Hready). cbv zeta.
    destruct (loaded env (corpus env)) as [|d documents].
    { intros [= <- <-]. right. apply last_message. }
    destruct (create_index env (d :: documents) _) as [[w3 [index|e]]|];
      [| |done].
    + intros [= <- <-]. left. apply last_message.
    + intros [= <- <-]. apply last_message.
  - rewrite (force_update_setup_raises _ _ _ _ _ Hsetup).
    intros [= <- <-]. apply last_message.
  - by rewrite (force_update_setup_hangs _ _ _ Hsetup).
Qed.

(** X12.  When the setup of the store fails, the run stops there: no file
    is read, the model is not loaded, and the exception of the setup is
    the one that comes out. *)
Theorem force_update_stops_when_setup_fails fuel env w w1 e :
  setup_opensearch fuel env 5 w = Some (w1, Raise e) →
  ∃ w',
    force_update fuel env w = Some (w', Raise e)
    ∧ store w' = store w1
    ∧ List.filter is_read (trace w') = List.filter is_read (trace w1)
    ∧ List.filter uses_model (trace w') = List.filter uses_model (trace w1).
Proof.
  intros Hsetup. rewrite (force_update_setup_raises _ _ _ _ _ Hsetup).
  eexists. split; [reflexivity|]. cbn [store trace add_trace].
  rewrite !List.filter_app. cbn. by rewrite !app_nil_r.
Qed.

(** ** Reading a file *)

Lemma pages_text (pages : list string) acc :
  foldl (λ text page, text +:+ page +:+ newline) acc pages
  = acc +:+ foldr (λ page rest, page +:+ newline +:+ rest) "" pages.
Proof.
  revert acc. induction pages as [|page pages IH]; intros acc.
  - cbn. induction acc as [|a acc IHacc]; [done|].
    by rewrite append_cons, <- IHacc.
  - cbn [foldl foldr]. rewrite IH, !append_assoc. reflexivity.
Qed.

(** X13.  The text of a document is the text of its pages in their order,
    each page followed by a newline, so it is as long as the pages and one
    character more for each; a file without pages gives a document with
    the empty text, which is loaded like any other.  The metadata of the
    document is the path of the file, and nothing is logged. *)
Theorem read_pdf_text env file_path pages w :
  read_pages env file_path = Ok pages →
  ∃ w' d,
    read_pdf env file_path w = Some (w', Ok d)
    ∧ doc_text d = foldr (λ page rest, page +:+ newline +:+ rest) "" pages
    ∧ String.length (doc_text d)
      = (foldr (λ page total, String.length page + total) 0 pages
         + length pages)%nat
    ∧ doc_metadata d = {[ "file_path" := file_path ]}
    ∧ messages (trace w') = messages (trace w).
Proof.
  intros Hpages. rewrite read_pdf_run, Hpages.
  eexists _, _. split; [reflexivity|].
  unfold document_of. cbn [doc_text doc_metadata trace add_trace].
  rewrite pages_text. change ("" +:+ ?s) with s.
  split_and!; [done| |done|].
  - clear. induction pages as [|page pages IH]; [done|].
    cbn [foldr length]. rewrite !length_append, IH. cbn. lia.
  - rewrite messages_app. cbn. by rewrite app_nil_r.
Qed.

End EmbeddingMore.

(** * From the ingestion to the query *)

Section IngestThenSearch.
Import OpenSearch.

Context {float : Type} (float32 : float → float).
Context (knn_score : list float → list float → float).
Context (score_leb : float → float → bool).

Lemma insert_hit_length (h : hit float) l :
  length (insert_hit score_leb h l) = S (length l).
Proof.
  induction l as [|h' l IH]; [done|].
  cbn. destruct (score_leb _ _); cbn; by rewrite ?IH.
Qed.

Lemma insert_hit_elem (h x : hit float) l :
  x ∈ insert_hit score_leb h l → x = h ∨ x ∈ l.
Proof.
  induction l as [|h' l IH]; cbn.
  - intros ?%list_elem_of_singleton. by left.
  - destruct (score_leb _ _).
    + intros [->|?]%elem_of_cons; auto.
    + intros [->|Hx]%elem_of_cons; [right; left|].
      destruct (IH Hx); [by left|right; by right].
Qed.

Lemma ranked_length q (docs : list (record float)) :
  length (ranked knn_score score_leb q docs) = length docs.
Proof.
  unfold ranked. induction docs as [|r docs IH]; [done|].
  cbn. by rewrite insert_hit_length, IH.
Qed.

Lemma ranked_sources q (docs : list (record float)) h :
  h ∈ ranked knn_score score_leb q docs → hit_source h ∈ docs.
Proof.
  unfold ranked. induction docs as [|r docs IH]; cbn.
  - by intros ?%elem_of_nil.
  - intros [->|Hh]%insert_hit_elem; [left|right; auto].
Qed.

(** X14.  With the default configuration, in which both programs reach
    the same cluster and name the same index, the index that a run of the
    ingestion builds on a fresh cluster is the one that the query service
    searches: a query whose vector has the configured dimension is
    answered without an error, with as many results as there are nodes,
    up to 3, and every result carries the text of one of the nodes and
    the metadata that the library stored with it. *)
Theorem ingest_then_search fuel (env : Embedding.environment float)
    (w : Embedding.world float) (encode : string → result (list float)) q u :
  Embedding.reachable env → Embedding.model_works env →
  Embedding.pickle_dump env = None →
  (0 < fuel)%nat →
  Embedding.loaded env (Embedding.corpus env) ≠ [] →
  Embedding.store w !! Embedding.OPENSEARCH_INDEX = None →
  encode q = Ok u →
  Z.of_nat (length u) = Embedding.VECTOR_DIM →
  ∃ w' answer,
    Embedding.force_update fuel env w = Some (w', Ok tt)
    ∧ snd (Api.run_search float32
             (Api.against knn_score score_leb encode (Embedding.store w'))
             {| Api.query := q |})
      = Ok answer
    ∧ length (Api.results answer)
      = min 3 (length (Embedding.nodes_of env))
    ∧ Forall (λ item,
              ∃ n, n ∈ Embedding.nodes_of env
                   ∧ Api.text item = Embedding.node_text n
                   ∧ Api.item_metadata item = Embedding.stored_metadata env n
                   ∧ Api.file_path item
                     = default "N/A"
                         (Embedding.stored_metadata env n !! "file_path"))
             (Api.results answer).
Proof.
  intros Henv Hmodel Hpickle Hfuel Hloaded Hnone Hu Hdim.
  assert (Hready : Embedding.corpus_dir_ready env).
  { left. unfold Embedding.corpus in Hloaded.
    by destruct (Embedding.pdf_dir_exists env). }
  destruct (setup_fresh fuel env 5 w)
    as (w1 & Hsetup & Hstore & _); [done..|].
  destruct (force_update_appends fuel env w w1 _
              (IndexData Embedding.index_mapping []) Hsetup)
    as (w' & Hrun & Hindex & _); [done|by destruct Henv|done..| |done|].
  { rewrite Hstore. apply lookup_insert_eq. }
  cbn [ix_mapping ix_docs app] in Hindex.
  exists w'.
  rewrite run_search_cases. cbv zeta.
  unfold Api.against. cbn [Api.query Api.model_encode Api.opensearch_search].
  rewrite Hu. unfold OpenSearch.search.
  change Api.INDEX_NAME with Embedding.OPENSEARCH_INDEX. rewrite Hindex.
  cbn [ix_docs sq_query_value Api.query_sent Api.create_search_query].
  assert (Hfit : forallb
            (λ r, (length (embedding r) =? length (map float32 u))%nat)
            (map (Embedding.record_of env) (Embedding.nodes_of env)) = true).
  { apply forallb_forall. intros r (n & <- & _)%in_map_iff.
    apply Nat.eqb_eq. rewrite List.length_map. cbn.
    pose proof (vector_of_works env (Embedding.embed_input env n) Hmodel)
      as [_ Hn].
    lia. }
  rewrite Hfit. cbn [hits].
  change (Z.to_nat (sq_size (Api.query_sent float32 u))) with 3%nat.
  set (found := take 3
                  (ranked knn_score score_leb (map float32 u)
                     (map (Embedding.record_of env) (Embedding.nodes_of env)))).
  assert (Hnode : ∀ h, h ∈ found →
    ∃ n, n ∈ Embedding.nodes_of env
         ∧ hit_source h = Embedding.record_of env n).
  { intros h Hh. apply elem_of_take in Hh as (i & Hh & _).
    apply list_elem_of_lookup_2, ranked_sources in Hh.
    apply list_elem_of_In, in_map_iff in Hh as (n & Hrecord & Hn).
    exists n. split; [by apply list_elem_of_In|done]. }
  destruct (items_of_hits_all found) as [items Hitems].
  { apply Forall_forall. intros h Hh.
    destruct (Hnode h Hh) as (n & _ & Hsource).
    unfold Api.item_of_hit. rewrite Hsource. cbn. eauto. }
  rewrite Hitems. eexists. split; [done|]. split; [reflexivity|].
  cbn [snd Api.results].
  split.
  { rewrite (items_of_hits_length _ _ Hitems). unfold found.
    by rewrite length_take, ranked_length, List.length_map. }
  apply items_of_hits_ok in Hitems.
  apply Forall_forall. intros item Hitem.
  apply list_elem_of_lookup_1 in Hitem as [i Hitem].
  destruct (Forall2_lookup_r _ _ _ _ _ Hitems Hitem) as (h & Hh & Hitem_h).
  apply list_elem_of_lookup_2 in Hh.
  destruct (Hnode h Hh) as (n & Hn & Hsource).
  exists n. split; [done|].
  unfold Api.item_of_hit in Hitem_h. rewrite Hsource in Hitem_h.
  cbn in Hitem_h. injection Hitem_h as <-. by cbn.
Qed.

End IngestThenSearch.

(** * More about the query service *)

Section ApiMore.
Import OpenSearch Api.

Context {float : Type} (float32 : float → float).

Implicit Types (c : collaborators float) (request : QueryRequest).

(** X15.  The results of a search are the hits of the store, one for
    one and in the same order, when the metadata of every hit is missing
    or an object.  A result has the score of its hit; its text is the
    content of the hit, or the empty string when the hit has none; its
    file path is the entry of the metadata, or ["N/A"] when the metadata
    or the entry is missing.  A hit whose metadata is there and no
    object, JSON null for one, makes the whole search fail with HTTP
    500. *)
Theorem search_results_mirror_hits c request v r :
  model_encode c (query request) = Ok v →
  opensearch_search c INDEX_NAME (query_sent float32 v) = Ok r →
  (Forall (λ h, ∀ type_name,
             metadata (hit_source h) ≠ Some (NotObject type_name))
          (hits r) →
   ∃ answer,
     snd (run_search float32 c request) = Ok answer
     ∧ length (results answer) = length (hits r)
     ∧ ∀ i h, hits r !! i = Some h →
         ∃ item,
           results answer !! i = Some item
           ∧ score item = hit_score h
           ∧ text item = default "" (content (hit_source h))
           ∧ item_metadata item
             = match metadata (hit_source h) with
               | Some (Object entries) => entries
               | _ => ∅
               end
           ∧ file_path item
             = match metadata (hit_source h) with
               | Some (Object entries) => default "N/A" (entries !! "file_path")
               | _ => "N/A"
               end)
  ∧ (∀ before h after type_name,
       hits r = (before ++ h :: after)%list →
       Forall (λ h, ∀ type_name,
                 metadata (hit_source h) ≠ Some (NotObject type_name))
              before →
       metadata (hit_source h) = Some (NotObject type_name) →
       snd (run_search float32 c request)
       = Raise (HTTPException 500
                  ("Internal server error: '" +:+ type_name
                   +:+ "' object has no attribute 'get'"))).
Proof.
  intros Hv Hr. rewrite run_search_cases. cbv zeta. rewrite Hv, Hr.
  assert (Hgood : ∀ l : list (hit float),
    Forall (λ h, ∀ type_name,
              metadata (hit_source h) ≠ Some (NotObject type_name)) l →
    Forall (λ h, ∃ item, item_of_hit h = Ok item) l).
  { intros l Hl. eapply Forall_impl; [exact Hl|].
    intros h Hh. cbn beta in Hh. unfold item_of_hit.
    destruct (metadata (hit_source h)) as [[entries|type_name]|]; eauto.
    by destruct (Hh type_name). }
  split.
  - intros Hhits.
    destruct (items_of_hits_all _ (Hgood _ Hhits)) as [items Hitems].
    rewrite Hitems. eexists. split; [reflexivity|]. cbn [results].
    split; [by apply items_of_hits_length|].
    apply items_of_hits_ok in Hitems.
    intros i h Hh.
    destruct (Forall2_lookup_l _ _ _ _ _ Hitems Hh) as (item & Hitem & Hok).
    exists item. split; [done|].
    unfold item_of_hit in Hok.
    destruct (metadata (hit_source h)) as [[entries|type_name]|];
      [| done |]; by injection Hok as <-.
  - intros before h after type_name Hsplit Hbefore Hnull.
    rewrite Hsplit.
    rewrite (items_of_hits_first_bad before after h
               (Exn AttributeError
                  ("'" +:+ type_name +:+ "' object has no attribute 'get'"))
               (Hgood _ Hbefore)).
    2: { unfold item_of_hit. by rewrite Hnull. }
    match goal with
    | |- context [search_handler ?e ?t] =>
        destruct (search_handler_raises e t) as (logged & -> & _)
    end.
    reflexivity.
Qed.

Implicit Types (hc : health_collaborators).

(** The run of [health_check], by cases on the answers of the cluster. *)
Lemma health_check_cases hc :
  health_check hc [] =
    match cluster_health hc with
    | Raise e =>
        ([ClusterHealth; LogHealthCheckFailed (str e)],
         Raise (HTTPException 503 ("Service unhealthy: " +:+ str e)))
    | Ok health =>
        match client_indices_exists hc INDEX_NAME with
        | Raise e =>
            ([ClusterHealth; IndicesExists INDEX_NAME;
              LogHealthCheckFailed (str e)],
             Raise (HTTPException 503 ("Service unhealthy: " +:+ str e)))
        | Ok false =>
            match health !! "status" with
            | Some s =>
                ([ClusterHealth; IndicesExists INDEX_NAME],
                 Ok {| status := "healthy"; opensearch_status := s;
                       index_exists := false; report_mapping := None |})
            | None =>
                ([ClusterHealth; IndicesExists INDEX_NAME;
                  LogHealthCheckFailed "'status'"],
                 Raise (HTTPException 503 "Service unhealthy: 'status'"))
            end
        | Ok true =>
            match client_indices_get_mapping hc INDEX_NAME with
            | Raise e =>
                ([ClusterHealth; IndicesExists INDEX_NAME;
                  IndicesGetMapping INDEX_NAME; LogHealthCheckFailed (str e)],
                 Raise (HTTPException 503 ("Service unhealthy: " +:+ str e)))
            | Ok m =>
                match health !! "status" with
                | Some s =>
                    ([ClusterHealth; IndicesExists INDEX_NAME;
                      IndicesGetMapping INDEX_NAME; LogCurrentMapping m],
                     Ok {| status := "healthy"; opensearch_status := s;
                           index_exists := true; report_mapping := Some m |})
                | None =>
                    ([ClusterHealth; IndicesExists INDEX_NAME;
                      IndicesGetMapping INDEX_NAME; LogCurrentMapping m;
                      LogHealthCheckFailed "'status'"],
                     Raise (HTTPException 503 "Service unhealthy: 'status'"))
                end
            end
        end
    end.
Proof.
  unfold health_check, health_body, getitem, health_log, health_call.
  cbv [mbind H_bind mret H_ret]. cbn [app].
  destruct (cluster_health hc) as [health|e]; [|reflexivity].
  destruct (client_indices_exists hc INDEX_NAME) as [[|]|e]; [| |reflexivity].
  - destruct (client_indices_get_mapping hc INDEX_NAME) as [m|e];
      [|reflexivity].
    by destruct (health !! "status").
  - by destruct (health !! "status").
Qed.

(** X16.  Whatever goes wrong in [health_check] comes out as HTTP 503,
    with the text of the failure as detail and as the last thing logged:
    a request for the health, for the index or for the mapping that
    raises, and an answer of the cluster without the key ["status"].
    Nothing else makes the endpoint fail. *)
Theorem health_check_fails_with_503 hc :
  (∀ e, cluster_health hc = Raise e → unhealthy hc e)
  ∧ (∀ health e,
       cluster_health hc = Ok health →
       client_indices_exists hc INDEX_NAME = Raise e →
       unhealthy hc e)
  ∧ (∀ health e,
       cluster_health hc = Ok health →
       client_indices_exists hc INDEX_NAME = Ok true →
       client_indices_get_mapping hc INDEX_NAME = Raise e →
       unhealthy hc e)
  ∧ (∀ health exists_,
       cluster_health hc = Ok health →
       client_indices_exists hc INDEX_NAME = Ok exists_ →
       (exists_ = true →
        ∃ m, client_indices_get_mapping hc INDEX_NAME = Ok m) →
       health !! "status" = None →
       unhealthy hc (Exn KeyError "'status'"))
  ∧ (∀ t e,
       health_check hc [] = (t, Raise e) →
       ∃ cause,
         e = HTTPException 503 ("Service unhealthy: " +:+ cause)
         ∧ last t = Some (LogHealthCheckFailed cause)).
Proof.
  unfold unhealthy. rewrite health_check_cases.
  destruct (cluster_health hc) as [health|e1].
  2: { split_and!; try done.
       - by intros e [= <-].
       - intros t e [= <- <-]. by exists (str e1). }
  destruct (client_indices_exists hc INDEX_NAME) as [[|]|e2].
  3: { split_and!; try done.
       - by intros ? e _ [= <-].
       - intros t e [= <- <-]. by exists (str e2). }
  - destruct (client_indices_get_mapping hc INDEX_NAME) as [m|e3].
    2: { split_and!; try done.
         - by intros ? e _ _ [= <-].
         - intros ? ? _ [= <-] Hm. by destruct (Hm eq_refl) as [m ?].
         - intros t e [= <- <-]. by exists (str e3). }
    destruct (health !! "status") as [s|] eqn:Hstatus.
    + split_and!; try done.
      intros health' exists_ [= <-] _ _ Hnone. congruence.
    + split_and!; try done.
      intros t e [= <- <-]. by exists "'status'".
  - destruct (health !! "status") as [s|] eqn:Hstatus.
    + split_and!; try done.
      intros health' exists_ [= <-] _ _ Hnone. congruence.
    + split_and!; try done.
      intros t e [= <- <-]. by exists "'status'".
Qed.

(** X17.  A cluster that answers tells through [health_check] whether
    the index is there: the report has [index_exists] as the cluster says,
    and the mapping exactly when the index exists; the mapping is asked
    for only then.  A missing index is a healthy answer, not an error. *)
Theorem health_check_reports_index hc health s exists_ :
  cluster_health hc = Ok health →
  health !! "status" = Some s →
  client_indices_exists hc INDEX_NAME = Ok exists_ →
  (exists_ = true → ∃ m, client_indices_get_mapping hc INDEX_NAME = Ok m) →
  ∃ report,
    snd (health_check hc []) = Ok report
    ∧ status report = "healthy"
    ∧ opensearch_status report = s
    ∧ index_exists report = exists_
    ∧ (if exists_
       then Ok <$> report_mapping report
            = Some (client_indices_get_mapping hc INDEX_NAME)
       else report_mapping report = None)
    ∧ List.filter is_get_mapping (fst (health_check hc []))
      = if exists_ then [IndicesGetMapping INDEX_NAME] else [].
Proof.
  intros Hhealth Hstatus Hexists Hmapping.
  rewrite health_check_cases, Hhealth, Hexists.
  destruct exists_.
  - destruct Hmapping as [m Hm]; [done|]. rewrite Hm, Hstatus.
    eexists. split; [reflexivity|]. by cbn.
  - rewrite Hstatus. eexists. split; [reflexivity|]. by cbn.
Qed.

End ApiMore.

(** * The page *)

Section PageFacts.
Import App.

Context {float : Type} (score_ltb : float → float → bool).
Context (strip : string → string).

#[local] Existing Instances U_ret U_bind.

Implicit Types (net : network float) (p : page float).
Implicit Types (l results : list (Api.result_item float)).

(** X18.  [check_api_health] never raises and changes nothing in the
    session.  It calls [http.get] once, and says yes exactly when that
    call was answered with status 200. *)
Theorem check_api_health_never_raises net p :
  ∃ said : bool,
    check_api_health net p
    = (Page (session p) (done p ++ [HttpGet (API_URL +:+ "/health") 5])%list,
       Done said)
    ∧ (said = true
       ↔ ∃ r, http_get net (API_URL +:+ "/health") 5 = Responded r
              ∧ status_code r = 200).
Proof.
  unfold check_api_health, try_except_all, get.
  cbv [mbind U_bind mret U_ret]. cbn [session done].
  destruct (http_get net (API_URL +:+ "/health") 5) as [r|error].
  - eexists. split; [reflexivity|]. rewrite bool_decide_eq_true.
    split; [eauto|]. by intros (r' & [= <-] & ?).
  - exists false. split; [reflexivity|]. split; [done|].
    by intros (r & ? & _).
Qed.

Lemma check_api_health_run net p :
  check_api_health net p
  = (Page (session p) (done p ++ [HttpGet (API_URL +:+ "/health") 5])%list,
     Done (healthy net)).
Proof.
  unfold check_api_health, try_except_all, get, healthy.
  cbv [mbind U_bind mret U_ret]. cbn [session done].
  by destruct (http_get net (API_URL +:+ "/health") 5) as [r|error].
Qed.

(** The handler of the search button, by cases. *)
Lemma search_clicked_cases net user_input p :
  ∃ t out,
    search_clicked net user_input p
    = (Page {| search_results :=
                 if bool_decide (user_input ≠ "") && healthy net
                 then match searched net user_input with
                      | Some results => Some results
                      | None => search_results (session p)
                      end
                 else search_results (session p);
               llm_response := llm_response (session p) |}
            (done p ++ t)%list, out)
    ∧ (∀ e, out ≠ Raised e)
    ∧ (out = Stopped ↔ user_input ≠ "" ∧ healthy net = false)
    ∧ List.filter is_post t
      = (if bool_decide (user_input ≠ "") && healthy net
         then [HttpPost (API_URL +:+ "/search") (Query user_input) SEARCH_TIMEOUT]
         else [])
    ∧ (bool_decide (user_input ≠ "") && healthy net = true →
       searched net user_input = None →
       ∃ message, last t = Some (StError message)).
Proof.
  unfold search_clicked. case_bool_decide as Hinput; cbn [andb].
  2: { exists [], (Done tt). cbv [mret U_ret]. rewrite app_nil_r.
       destruct p as [[? ?] ?]. split; [done|].
       split_and!; [done| |done|done]. split; [done|]. by intros [? _]. }
  unfold try_except. cbv [mbind U_bind]. rewrite check_api_health_run.
  destruct (healthy net) eqn:Hhealthy; cbn [negb].
  2: { eexists [_; _], Stopped.
       unfold st_error, st_stop, act. cbv [mbind U_bind]. cbn [session done].
       rewrite <- app_assoc. destruct p as [[? ?] ?].
       split; [reflexivity|]. split_and!; [done| |done|done]. by split. }
  assert (Hfailed : ∀ (before : list page_event) message,
    (∀ e, Done () ≠ @Raised unit e)
    ∧ (@Done unit () = Stopped ↔ user_input ≠ "" ∧ true = false)
    ∧ List.filter is_post
        [HttpGet (API_URL +:+ "/health") 5;
         HttpPost (API_URL +:+ "/search") (Query user_input) SEARCH_TIMEOUT;
         StError message]
      = [HttpPost (API_URL +:+ "/search") (Query user_input) SEARCH_TIMEOUT]
    ∧ (true = true → @None (list (Api.result_item float)) = None →
       ∃ message',
         last [HttpGet (API_URL +:+ "/health") 5;
               HttpPost (API_URL +:+ "/search") (Query user_input) SEARCH_TIMEOUT;
               StError message] = Some (StError message'))).
  { intros _ message. split_and!; [done| |done|eauto].
    split; [done|]. by intros [_ ?]. }
  unfold post, searched, raise_for_status, json, getitem.
  cbv [mret U_ret]. cbn [session done].
  destruct (http_post net (API_URL +:+ "/search") (Query user_input)
              SEARCH_TIMEOUT)
    as [r|error].
  2: { eexists [_; _; _], (Done tt). unfold st_error, act.
       cbn [session done]. rewrite <- !app_assoc. destruct p as [[? ?] ?].
       split; [reflexivity|]. by apply Hfailed. }
  destruct (bool_decide (400 ≤ status_code r < 500)) eqn:H4.
  { assert (bool_decide (400 ≤ status_code r < 600) = true) as ->.
    { apply bool_decide_eq_true in H4. apply bool_decide_eq_true_2. lia. }
    eexists [_; _; _], (Done tt). unfold raise, st_error, act.
    cbn [session done]. rewrite <- !app_assoc. destruct p as [[? ?] ?].
    split; [reflexivity|]. by apply Hfailed. }
  destruct (bool_decide (500 ≤ status_code r < 600)) eqn:H5.
  { assert (bool_decide (400 ≤ status_code r < 600) = true) as ->.
    { apply bool_decide_eq_true in H5. apply bool_decide_eq_true_2. lia. }
    eexists [_; _; _], (Done tt). unfold raise, st_error, act.
    cbn [session done]. rewrite <- !app_assoc. destruct p as [[? ?] ?].
    split; [reflexivity|]. by apply Hfailed. }
  assert (bool_decide (400 ≤ status_code r < 600) = false) as ->.
  { apply bool_decide_eq_false in H4, H5. apply bool_decide_eq_false_2. lia. }
  destruct (response_body r) as [error|[[results|] models text]];
    cbn [key_results].
  - eexists [_; _; _], (Done tt). unfold raise, st_error, act.
    cbn [session done]. rewrite <- !app_assoc. destruct p as [[? ?] ?].
    split; [reflexivity|]. by apply Hfailed.
  - eexists [_; _; _], (Done tt).
    unfold set_search_results, st_success, act.
    cbv [mbind U_bind mret U_ret]. cbn [session done llm_response].
    rewrite <- !app_assoc.
    split; [reflexivity|]. split_and!; [done| |done|done].
    split; [done|]. by intros [_ ?].
  - eexists [_; _; _], (Done tt). unfold raise, st_error, act.
    cbn [session done]. rewrite <- !app_assoc. destruct p as [[? ?] ?].
    split; [reflexivity|]. by apply Hfailed.
Qed.

(** X19.  A click on the search button never ends in an exception, and
    never touches the answer of the model.  It replaces the results of
    the session only when the input is not empty, the service is healthy
    and the search was answered, with a status that is no error (not 400
    to 599), with a JSON body that has results; in every other case the results of the search before
    stay in the session. *)
Theorem search_click_keeps_results_on_failure net user_input p :
  (∀ e, snd (search_clicked net user_input p) ≠ Raised e)
  ∧ llm_response (session (fst (search_clicked net user_input p)))
    = llm_response (session p)
  ∧ search_results (session (fst (search_clicked net user_input p)))
    = if bool_decide (user_input ≠ "") && healthy net
      then match searched net user_input with
           | Some results => Some results
           | None => search_results (session p)
           end
      else search_results (session p).
Proof.
  destruct (search_clicked_cases net user_input p)
    as (t & out & -> & Hraise & _). by cbn.
Qed.

(** X20.  A click posts no search for an empty input, and none when the
    check of health failed: then it shows an error and stops the script.
    Otherwise it calls [http.post] once for the search, with the input as
    it is, blank or not, and a search that fails ends in an error on the
    page. *)
Theorem search_click_posts_once_when_healthy net user_input p :
  ∃ t,
    done (fst (search_clicked net user_input p)) = (done p ++ t)%list
    ∧ List.filter is_post t
      = (if bool_decide (user_input ≠ "") && healthy net
         then [HttpPost (API_URL +:+ "/search") (Query user_input) SEARCH_TIMEOUT]
         else [])
    ∧ (snd (search_clicked net user_input p) = Stopped
       ↔ user_input ≠ "" ∧ healthy net = false)
    ∧ (bool_decide (user_input ≠ "") && healthy net = true →
       searched net user_input = None →
       ∃ message, last t = Some (StError message)).
Proof.
  destruct (search_clicked_cases net user_input p)
    as (t & out & -> & _ & Hstop & Hpost & Herror).
  exists t. by cbn.
Qed.

(** ** The results that go into the prompt *)

Lemma insert_result_perm (x : Api.result_item float) l :
  Permutation (insert_result score_ltb x l) (x :: l).
Proof.
  induction l as [|y l IH]; [done|]. cbn.
  destruct (score_ltb _ _); [|done].
  rewrite IH. apply perm_swap.
Qed.

Lemma sorted_by_score_perm results :
  Permutation (sorted_by_score score_ltb results) results.
Proof.
  induction results as [|x results IH]; [done|].
  cbn. by rewrite insert_result_perm, IH.
Qed.

Lemma insert_result_descending (x : Api.result_item float) l :
  (∀ a b, score_ltb a b = true → score_ltb b a = false) →
  descending score_ltb l → descending score_ltb (insert_result score_ltb x l).
Proof.
  intros Hasym. induction l as [|y l IH]; [done|].
  intros Hl. cbn [insert_result].
  destruct (score_ltb (Api.score x) (Api.score y)) eqn:Hxy; [|by split].
  destruct l as [|z l]; [cbn; auto|].
  destruct Hl as [Hyz Hl]. specialize (IH Hl).
  cbn [insert_result] in *.
  destruct (score_ltb (Api.score x) (Api.score z)); cbn; auto.
Qed.

Lemma sorted_by_score_descending results :
  (∀ a b, score_ltb a b = true → score_ltb b a = false) →
  descending score_ltb (sorted_by_score score_ltb results).
Proof.
  intros Hasym. induction results as [|x results IH]; [done|].
  cbn. by apply insert_result_descending.
Qed.

(** X21.  The prompt is built from the two best results: the results
    chosen are the first two of an arrangement of all the results in
    which no result is followed by one of a greater score, or all of them
    when there are fewer than two. *)
Theorem prompt_takes_the_best_two results :
  (∀ a b, score_ltb a b = true → score_ltb b a = false) →
  ∃ others,
    Permutation (sorted_results score_ltb results ++ others) results
    ∧ descending score_ltb (sorted_results score_ltb results ++ others)
    ∧ length (sorted_results score_ltb results) = min 2 (length results).
Proof.
  intros Hasym. exists (drop 2 (sorted_by_score score_ltb results)).
  unfold sorted_results. rewrite take_drop. split_and!.
  - apply sorted_by_score_perm.
  - by apply sorted_by_score_descending.
  - rewrite length_take. by rewrite (Permutation_length (sorted_by_score_perm _)).
Qed.

(** X22.  Results that already come by descending score are taken as
    they come: the page keeps their order, also among equal scores, and
    the prompt gets the first two. *)
Theorem prompt_keeps_the_order_of_the_service results :
  descending score_ltb results →
  sorted_results score_ltb results = take 2 results.
Proof.
  intros Hresults. unfold sorted_results. f_equal.
  induction results as [|x results IH]; [done|].
  cbn [sorted_by_score foldr]. fold (sorted_by_score score_ltb results).
  destruct results as [|y results]; [done|].
  destruct Hresults as [Hxy Hrest]. rewrite (IH Hrest).
  cbn [insert_result]. by rewrite Hxy.
Qed.

(** ** The analysis *)

(** [ensure_model_loaded], by cases. *)
Lemma ensure_model_loaded_run net p :
  ∃ t,
    ensure_model_loaded net p
    = (Page (session p) (done p ++ t)%list, Done (model_loaded net))
    ∧ List.filter is_post t
      = match listed net with
        | Some models =>
            if has_model models then []
            else [HttpPost (OLLAMA_URL +:+ "/api/pull") (PullModel MODEL_NAME)
                    600]
        | None => []
        end
    ∧ List.filter is_generate t = []
    ∧ (model_loaded net = true → List.filter is_error t = []).
Proof.
  unfold ensure_model_loaded, model_loaded, listed, pulled, has_model.
  unfold try_except, get, json. cbv [mbind U_bind mret U_ret].
  cbn [session done].
  destruct (http_get net (OLLAMA_URL +:+ "/api/tags") 5) as [r|error].
  2: { eexists [_; _]. unfold st_error, act. cbn [session done].
       rewrite <- app_assoc. by split_and!. }
  destruct (response_body r) as [error|data].
  { eexists [_; _]. unfold raise, st_error, act. cbn [session done].
    rewrite <- app_assoc. by split_and!. }
  destruct (existsb _ (default [] (key_models data))); cbn [negb orb].
  { exists [HttpGet (OLLAMA_URL +:+ "/api/tags") 5]. by split_and!. }
  unfold st_warning, act, post. cbn [session done].
  destruct (http_post net (OLLAMA_URL +:+ "/api/pull") (PullModel MODEL_NAME)
              600) as [r'|error].
  - eexists [_; _; _]. rewrite <- !app_assoc. by split_and!.
  - eexists [_; _; _; _]. unfold st_error, act. cbn [session done].
    rewrite <- !app_assoc. by split_and!.
Qed.

(** X23.  [ensure_model_loaded] never raises and leaves the session
    alone.  It does not look at the status of the list of models: when the
    list names the model it says yes without a pull; when the list can be
    read and lacks the model it pulls the model once, and says yes exactly
    when the pull is answered with status 200; when the list cannot be
    read it says no, without a pull. *)
Theorem ensure_model_loaded_pulls_when_missing net p :
  ∃ t,
    ensure_model_loaded net p
    = (Page (session p) (done p ++ t)%list,
       Done match listed net with
            | Some models => has_model models || pulled net
            | None => false
            end)
    ∧ List.filter is_post t
      = match listed net with
        | Some models =>
            if has_model models then []
            else [HttpPost (OLLAMA_URL +:+ "/api/pull") (PullModel MODEL_NAME)
                    600]
        | None => []
        end.
Proof.
  destruct (ensure_model_loaded_run net p) as (t & Hrun & Hpost & _).
  by exists t.
Qed.

(** [get_ollama_response], by cases. *)
Lemma get_ollama_response_run net prompt p :
  ∃ t,
    get_ollama_response net prompt p
    = (Page (session p) (done p ++ t)%list, Done (generated net prompt))
    ∧ List.filter is_post t
      = [HttpPost (OLLAMA_URL +:+ "/api/generate")
           (Generate MODEL_NAME prompt) OLLAMA_TIMEOUT]
    ∧ List.filter is_generate t
      = [HttpPost (OLLAMA_URL +:+ "/api/generate")
           (Generate MODEL_NAME prompt) OLLAMA_TIMEOUT]
    ∧ match generated net prompt with
      | Some _ => List.filter is_error t = []
      | None =>
          ∃ e, List.filter is_error t
               = [StError ("Error calling Ollama: " +:+ e)]
      end.
Proof.
  unfold get_ollama_response, generated. cbv zeta.
  unfold try_except, post, raise_for_status, json.
  cbv [mbind U_bind mret U_ret]. cbn [session done].
  destruct (http_post net (OLLAMA_URL +:+ "/api/generate")
              (Generate MODEL_NAME prompt) OLLAMA_TIMEOUT) as [r|error].
  2: { eexists [_; _]. unfold st_error, act. cbn [session done].
       rewrite <- app_assoc. split_and!; [done..|]. by eexists. }
  destruct (bool_decide (400 ≤ status_code r < 500)) eqn:H4.
  { assert (bool_decide (400 ≤ status_code r < 600) = true) as ->.
    { apply bool_decide_eq_true in H4. apply bool_decide_eq_true_2. lia. }
    eexists [_; _]. unfold raise, st_error, act. cbn [session done].
    rewrite <- app_assoc. split_and!; [done..|]. by eexists. }
  destruct (bool_decide (500 ≤ status_code r < 600)) eqn:H5.
  { assert (bool_decide (400 ≤ status_code r < 600) = true) as ->.
    { apply bool_decide_eq_true in H5. apply bool_decide_eq_true_2. lia. }
    eexists [_; _]. unfold raise, st_error, act. cbn [session done].
    rewrite <- app_assoc. split_and!; [done..|]. by eexists. }
  assert (bool_decide (400 ≤ status_code r < 600) = false) as ->.
  { apply bool_decide_eq_false in H4, H5. apply bool_decide_eq_false_2. lia. }
  cbn [session done].
  destruct (response_body r) as [error|data].
  - eexists [_; _]. unfold raise, st_error, act. cbn [session done].
    rewrite <- app_assoc. split_and!; [done..|]. by eexists.
  - eexists [_]. by split_and!.
Qed.

(** X24.  [get_ollama_response] never raises and leaves the session
    alone.  It posts the prompt once.  It returns a text exactly when the
    request was answered, with a status that is no error (not 400 to
    599), with a JSON object: the entry
    ["response"], or the empty text when the object has none.  Otherwise
    it returns [None], and has shown one error. *)
Theorem get_ollama_response_never_raises net prompt p :
  ∃ t,
    get_ollama_response net prompt p
    = (Page (session p) (done p ++ t)%list, Done (generated net prompt))
    ∧ List.filter is_post t
      = [HttpPost (OLLAMA_URL +:+ "/api/generate")
           (Generate MODEL_NAME prompt) OLLAMA_TIMEOUT]
    ∧ length (List.filter is_error t)
      = match generated net prompt with
        | Some _ => 0
        | None => 1
        end%nat.
Proof.
  destruct (get_ollama_response_run net prompt p)
    as (t & Hrun & Hpost & _ & Herror).
  exists t. split_and!; [done..|].
  destruct (generated net prompt); [by rewrite Herror|].
  destruct Herror as [e ->]. done.
Qed.

(** The handler of the analysis button, by cases. *)
Lemma analyse_clicked_cases net user_input p :
  ∃ t out,
    analyse_clicked score_ltb strip net user_input p
    = (Page {| search_results := search_results (session p);
               llm_response :=
                 if truthy (search_results (session p)) && model_loaded net
                 then match generated net
                              (prompt_for score_ltb user_input
                                 (search_results (session p))) with
                      | Some text =>
                          if bool_decide (text ≠ "") then Some (strip text)
                          else llm_response (session p)
                      | None => llm_response (session p)
                      end
                 else llm_response (session p) |}
            (done p ++ t)%list, out)
    ∧ (∀ e, out ≠ Raised e)
    ∧ (out = Stopped
       ↔ truthy (search_results (session p)) = true
         ∧ model_loaded net = false)
    ∧ List.filter is_generate t
      = (if truthy (search_results (session p)) && model_loaded net
         then [HttpPost (OLLAMA_URL +:+ "/api/generate")
                 (Generate MODEL_NAME
                    (prompt_for score_ltb user_input
                       (search_results (session p))))
                 OLLAMA_TIMEOUT]
         else [])
    ∧ (truthy (search_results (session p)) && model_loaded net = true →
       length (List.filter is_error t)
       = match generated net
                 (prompt_for score_ltb user_input
                    (search_results (session p))) with
         | Some text => if bool_decide (text ≠ "") then 0 else 1
         | None => 2
         end%nat).
Proof.
  unfold analyse_clicked, get_session. cbv [mbind U_bind].
  destruct (truthy (search_results (session p))) eqn:Htruthy; cbn [andb].
  2: { exists [], (Done tt). cbv [mret U_ret]. rewrite app_nil_r.
       destruct p as [[? ?] ?]. split; [done|].
       split_and!; [done| |done|done]. split; [done|]. by intros [? _]. }
  unfold try_except. cbv [mbind U_bind].
  destruct (ensure_model_loaded_run net p)
    as (t1 & -> & Hpost1 & Hgenerate1 & Herror1).
  destruct (model_loaded net) eqn:Hloaded; cbn [negb].
  2: { eexists (t1 ++ [_])%list, Stopped.
       unfold st_error, st_stop, act. cbv [mbind U_bind]. cbn [session done].
       rewrite <- app_assoc. destruct p as [[? ?] ?].
       split; [reflexivity|]. rewrite List.filter_app, Hgenerate1.
       split_and!; [done| |done|done]. by split. }
  cbv [mret U_ret]. cbn [session done].
  destruct (search_results (session p)) as [results|] eqn:Hresults; [|done].
  cbv [mret U_ret].
  set (prompt := prompt_of user_input
                   (context_of (sorted_results score_ltb results))).
  change (prompt_for score_ltb user_input (Some results)) with prompt.
  destruct (get_ollama_response_run net prompt
              (Page (session p) (done p ++ t1)%list))
    as (t2 & -> & Hpost2 & Hgenerate2 & Herror2).
  cbn [session done] in *.
  specialize (Herror1 eq_refl).
  destruct (generated net prompt) as [text|].
  - case_bool_decide as Htext.
    + eexists (t1 ++ t2 ++ [_])%list, (Done tt).
      unfold set_llm_response, st_success, act.
      cbv [mbind U_bind]. cbn [session done].
      rewrite Hresults, <- !app_assoc.
      split; [reflexivity|].
      rewrite !List.filter_app, Hgenerate1, Hgenerate2, Herror1, Herror2.
      split_and!; [done| |done|done]. split; [done|]. by intros [_ ?].
    + eexists (t1 ++ t2 ++ [_])%list, (Done tt).
      unfold st_error, act. cbn [session done].
      rewrite <- !app_assoc. destruct p as [[? ?] ?].
      cbn [session search_results llm_response] in *. subst.
      split; [reflexivity|].
      rewrite !List.filter_app, Hgenerate1, Hgenerate2, Herror1, Herror2.
      split_and!; [done| |done|done]. split; [done|]. by intros [_ ?].
  - destruct Herror2 as [e Herror2].
    eexists (t1 ++ t2 ++ [_])%list, (Done tt).
    unfold st_error, act. cbn [session done].
    rewrite <- !app_assoc. destruct p as [[? ?] ?].
    cbn [session search_results llm_response] in *. subst.
    split; [reflexivity|].
    rewrite !List.filter_app, Hgenerate1, Hgenerate2, Herror1, Herror2.
    split_and!; [done| |done|done]. split; [done|]. by intros [_ ?].
Qed.

(** X25.  A click on the analysis button never ends in an exception and
    never changes the results of the search.  It replaces the answer of
    the model only when there are results, the model is loaded and Ollama
    gave a text that is not empty, and then by that text stripped; in
    every other case the answer that was there stays. *)
Theorem analysis_keeps_results net user_input p :
  (∀ e, snd (analyse_clicked score_ltb strip net user_input p) ≠ Raised e)
  ∧ search_results
      (session (fst (analyse_clicked score_ltb strip net user_input p)))
    = search_results (session p)
  ∧ llm_response
      (session (fst (analyse_clicked score_ltb strip net user_input p)))
    = if truthy (search_results (session p)) && model_loaded net
      then match generated net
                   (prompt_for score_ltb user_input
                      (search_results (session p))) with
           | Some text =>
               if bool_decide (text ≠ "") then Some (strip text)
               else llm_response (session p)
           | None => llm_response (session p)
           end
      else llm_response (session p).
Proof.
  destruct (analyse_clicked_cases net user_input p)
    as (t & out & -> & Hraise & _). by cbn.
Qed.

(** X26.  The analysis asks Ollama at most once: not at all without
    results, nor when the model could not be loaded, where the script
    stops; otherwise once, with the prompt made of the question and of
    the two best results.  A request that fails shows two errors, an
    empty text one. *)
Theorem analysis_generates_once net user_input p :
  ∃ t,
    done (fst (analyse_clicked score_ltb strip net user_input p))
    = (done p ++ t)%list
    ∧ List.filter is_generate t
      = (if truthy (search_results (session p)) && model_loaded net
         then [HttpPost (OLLAMA_URL +:+ "/api/generate")
                 (Generate MODEL_NAME
                    (prompt_of user_input
                       (context_of
                          (sorted_results score_ltb
                             (default [] (search_results (session p)))))))
                 OLLAMA_TIMEOUT]
         else [])
    ∧ (snd (analyse_clicked score_ltb strip net user_input p) = Stopped
       ↔ truthy (search_results (session p)) = true
         ∧ model_loaded net = false)
    ∧ (truthy (search_results (session p)) && model_loaded net = true →
       length (List.filter is_error t)
       = match generated net
                 (prompt_for score_ltb user_input
                    (search_results (session p))) with
         | Some text => if bool_decide (text ≠ "") then 0 else 1
         | None => 2
         end%nat).
Proof.
  destruct (analyse_clicked_cases net user_input p)
    as (t & out & -> & _ & Hstop & Hgenerate & Herror).
  exists t. by cbn.
Qed.

End PageFacts.

(** * Runs of the three programs *)

Section MoreRuns.
Import OpenSearch Embedding Scenario.

Lemma poll_sleeps_after_failures_only_witness :
  ∃ w' r,
    wait_for_opensearch 5 slow_start 300 fresh = Some (w', r)
    ∧ ∃ sent t,
        gets_sent w' = (gets_sent fresh + sent)%nat
        ∧ trace w' = (trace fresh ++ t)%list
        ∧ List.filter is_sleep t
          = replicate (raised_among slow_start (gets_sent fresh) sent) (Sleep 5)
        ∧ clock w'
          = clock fresh + time_of_probes slow_start (gets_sent fresh) sent
            + seconds 5
              * Z.of_nat (raised_among slow_start (gets_sent fresh) sent)
        ∧ (r = Ok true →
           (0 < sent)%nat
           ∧ snd (http_get slow_start (gets_sent fresh + sent - 1)) = Ok 200).
Proof.
  eexists _, _. split; [vm_compute; reflexivity|].
  apply (poll_sleeps_after_failures_only 5 slow_start 300 fresh).
  vm_compute. reflexivity.
Defined.

Lemma setup_creates_index_witness :
  ∃ w',
    setup_opensearch 1 ready 5 fresh
    = Some (w', Ok (Some (OpenSearchClient "opensearch" 9200)))
    ∧ store w' !! OPENSEARCH_INDEX = Some (IndexData index_mapping [])
    ∧ dimension index_mapping = 1024
    ∧ space_type index_mapping = "cosinesimil"
    ∧ (∀ index, index ≠ OPENSEARCH_INDEX →
                store w' !! index = store fresh !! index)
    ∧ client_requests w' = (client_requests fresh + 2)%nat
    ∧ List.filter is_create (trace w')
      = (List.filter is_create (trace fresh)
         ++ [IndicesCreate OPENSEARCH_INDEX index_mapping])%list.
Proof.
  apply (setup_creates_index 1 ready 5 fresh).
  - split; intros n; reflexivity.
  - lia.
  - lia.
  - reflexivity.
Defined.

Lemma setup_raises_other_errors_at_once_witness :
  setup_loop blocked "opensearch" 9200 5 (range 5) fresh
  = Some (after_request (IndicesExists OPENSEARCH_INDEX)
            (add_trace [NewOpenSearch "opensearch" 9200] fresh),
          Raise (Exn TransportError
                   "TransportError(503, 'cluster_block_exception')")).
Proof.
  apply (setup_raises_other_errors_at_once blocked "opensearch" 9200 5 fresh).
  - lia.
  - reflexivity.
  - reflexivity.
Defined.

Lemma setup_recovers_after_failures_witness :
  ∃ w' t,
    setup_loop slow_start "opensearch" 9200 5 (range 5) fresh
    = Some (w', Ok (Some (OpenSearchClient "opensearch" 9200)))
    ∧ trace w' = (trace fresh ++ t)%list
    ∧ length (List.filter is_attempt t) = 3%nat
    ∧ List.filter is_sleep t = replicate 2 (Sleep 5)
    ∧ clock w' = clock fresh + seconds 5 * Z.of_nat 2
    ∧ is_Some (store w' !! OPENSEARCH_INDEX).
Proof.
  apply (setup_recovers_after_failures slow_start "opensearch" 9200 5 2 fresh).
  - lia.
  - intros [|[|i]] Hi; [eexists; split; reflexivity..|lia].
  - reflexivity.
  - reflexivity.
Defined.

Lemma setup_gives_up_after_max_retries_witness :
  ∃ w' t e,
    setup_loop down "opensearch" 9200 5 (range 5) fresh = Some (w', Raise e)
    ∧ transport down (client_requests fresh + (Z.to_nat 5 - 1)) = Some e
    ∧ trace w' = (trace fresh ++ t)%list
    ∧ length (List.filter is_attempt t) = Z.to_nat 5
    ∧ List.filter is_sleep t = replicate (Z.to_nat 5 - 1) (Sleep 5)
    ∧ List.filter is_create t = []
    ∧ clock w' = clock fresh + seconds 5 * (5 - 1)
    ∧ store w' = store fresh.
Proof.
  apply (setup_gives_up_after_max_retries down "opensearch" 9200 5 fresh).
  - lia.
  - intros i. eexists. split; reflexivity.
Defined.

Lemma create_index_appends_records_witness :
  ∃ w',
    create_index ready [splice_document] indexed
    = Some (w', Ok (map (record_of ready)
                      (get_nodes_from_documents ready CHUNK_SIZE CHUNK_OVERLAP
                         " " [splice_document])))
    ∧ store w' !! OPENSEARCH_INDEX
      = Some (IndexData index_mapping
                (map (record_of ready)
                   (get_nodes_from_documents ready CHUNK_SIZE CHUNK_OVERLAP
                      " " [splice_document])))
    ∧ (∀ index, index ≠ OPENSEARCH_INDEX →
                store w' !! index = store indexed !! index).
Proof.
  apply (create_index_appends_records ready [splice_document] indexed
           (IndexData index_mapping [])).
  - intros n. reflexivity.
  - split; [reflexivity|]. intros text. eexists. split; reflexivity.
  - reflexivity.
  - reflexivity.
  - reflexivity.
Defined.

Lemma create_index_keeps_records_when_pickle_fails_witness :
  ∃ w' written,
    create_index read_only_disk [splice_document] indexed
    = Some (w', Raise (Exn OSError
                         "[Errno 30] Read-only file system: 'index.pkl'"))
    ∧ store w' !! OPENSEARCH_INDEX
      = Some (IndexData index_mapping written)
    ∧ length written
      = length (get_nodes_from_documents read_only_disk CHUNK_SIZE
                  CHUNK_OVERLAP " " [splice_document]).
Proof.
  apply (create_index_keeps_records_when_pickle_fails read_only_disk
           [splice_document] indexed (IndexData index_mapping [])).
  - intros n. reflexivity.
  - split; [reflexivity|]. intros text. eexists. split; reflexivity.
  - reflexivity.
  - reflexivity.
  - reflexivity.
Defined.


Lemma rerun_appends_duplicates_witness :
  ∃ w1 w2,
    force_update 1 ready fresh = Some (w1, Ok tt)
    ∧ force_update 1 ready_again w1 = Some (w2, Ok tt)
    ∧ store w2 !! OPENSEARCH_INDEX
      = Some (IndexData index_mapping
                (map (record_of ready) (nodes_of ready)
                 ++ map (record_of ready_again) (nodes_of ready_again)))
    ∧ (length (nodes_of ready_again) = length (nodes_of ready) →
       ∃ records,
         store w2 !! OPENSEARCH_INDEX = Some (IndexData index_mapping records)
         ∧ length records = (2 * length (nodes_of ready))%nat).
Proof.
  apply (rerun_appends_duplicates 1 ready ready_again fresh).
  - split; intros n; reflexivity.
  - split; [reflexivity|]. intros text. eexists. split; reflexivity.
  - reflexivity.
  - vm_compute. discriminate.
  - split; intros n; reflexivity.
  - split; [reflexivity|]. intros text. eexists. split; reflexivity.
  - reflexivity.
  - vm_compute. discriminate.
  - lia.
  - reflexivity.
Defined.

Lemma force_update_without_documents_witness :
  ∃ w1 client,
    setup_opensearch 1 empty_corpus 5 fresh = Some (w1, Ok client)
    ∧ ∃ w',
        force_update 1 empty_corpus fresh = Some (w', Ok tt)
        ∧ store w' = store w1
        ∧ client_requests w' = client_requests w1
        ∧ List.filter uses_model (trace w')
          = List.filter uses_model (trace w1)
        ∧ List.filter is_write (trace w') = List.filter is_write (trace w1).
Proof.
  eexists _, _. split; [vm_compute; reflexivity|].
  eapply (force_update_without_documents 1 empty_corpus fresh).
  - vm_compute. reflexivity.
  - left. reflexivity.
  - reflexivity.
Defined.

Lemma force_update_never_swallows_witness :
  ∃ w',
    force_update 100 down fresh
    = Some (w', Raise (Exn TimeoutError
                         "OpenSearch did not become ready in time"))
    ∧ last (messages (trace w'))
      = Some (ERROR, "Error during force update: "
                     +:+ str (Exn TimeoutError
                                "OpenSearch did not become ready in time")).
Proof.
  eexists. split; [vm_compute; reflexivity|].
  apply (force_update_never_swallows 100 down fresh _
           (Raise (Exn TimeoutError
                     "OpenSearch did not become ready in time"))).
  vm_compute. reflexivity.
Defined.

Lemma force_update_stops_when_setup_fails_witness :
  ∃ w1,
    setup_opensearch 1 blocked 5 fresh
    = Some (w1, Raise (Exn TransportError
                         "TransportError(503, 'cluster_block_exception')"))
    ∧ ∃ w',
        force_update 1 blocked fresh
        = Some (w', Raise (Exn TransportError
                             "TransportError(503, 'cluster_block_exception')"))
        ∧ store w' = store w1
        ∧ List.filter is_read (trace w') = List.filter is_read (trace w1)
        ∧ List.filter uses_model (trace w')
          = List.filter uses_model (trace w1).
Proof.
  eexists. split; [vm_compute; reflexivity|].
  apply (force_update_stops_when_setup_fails 1 blocked fresh).
  vm_compute. reflexivity.
Defined.

Lemma read_pdf_text_witness :
  ∃ w' d,
    read_pdf ready "pdf_corpus/d.pdf" fresh = Some (w', Ok d)
    ∧ doc_text d
      = foldr (λ page rest, page +:+ newline +:+ rest) ""
          ["Fiber splice loss should not exceed 0.3 dB per joint"]
    ∧ String.length (doc_text d)
      = (foldr (λ page total, String.length page + total) 0
           ["Fiber splice loss should not exceed 0.3 dB per joint"]
         + length ["Fiber splice loss should not exceed 0.3 dB per joint"])%nat
    ∧ doc_metadata d = {[ "file_path" := "pdf_corpus/d.pdf" ]}
    ∧ messages (trace w') = messages (trace fresh).
Proof.
  apply (read_pdf_text ready "pdf_corpus/d.pdf"
           ["Fiber splice loss should not exceed 0.3 dB per joint"] fresh).
  reflexivity.
Defined.

Lemma ingest_then_search_witness :
  ∃ w' answer,
    force_update 1 ready fresh = Some (w', Ok tt)
    ∧ snd (Api.run_search same
             (Api.against dot Z.leb encode1024 (store w'))
             {| Api.query := "acceptable splice loss" |})
      = Ok answer
    ∧ length (Api.results answer) = min 3 (length (nodes_of ready))
    ∧ Forall (λ item,
              ∃ n, n ∈ nodes_of ready
                   ∧ Api.text item = node_text n
                   ∧ Api.item_metadata item = stored_metadata ready n
                   ∧ Api.file_path item
                     = default "N/A" (stored_metadata ready n !! "file_path"))
             (Api.results answer).
Proof.
  apply (ingest_then_search same dot Z.leb 1 ready fresh encode1024
           "acceptable splice loss" (replicate 1024 1)).
  - split; intros n; reflexivity.
  - split; [reflexivity|]. intros text. eexists. split; reflexivity.
  - reflexivity.
  - lia.
  - vm_compute. discriminate.
  - reflexivity.
  - reflexivity.
  - reflexivity.
Defined.

Lemma search_results_mirror_hits_witness :
  (∃ answer,
     snd (ask five_records "acceptable splice loss") = Ok answer
     ∧ length (Api.results answer) = 3%nat
     ∧ Api.text <$> Api.results answer = ["five"; "three"; "four"])
  ∧ snd (ask null_metadata "acceptable splice loss")
    = Raise (HTTPException 500
               "Internal server error: 'NoneType' object has no attribute 'get'").
Proof.
  split.
  - destruct (proj1 (search_results_mirror_hits same (service five_records)
                       {| Api.query := "acceptable splice loss" |} [1; 2; 3]
                       (Response
                          [Hit (short_record "five" [1; 1; 1]) 6;
                           Hit (short_record "three" [0; 0; 1]) 3;
                           Hit (short_record "four" [1; 1; 0]) 3])
                       eq_refl eq_refl))
      as (answer & Hanswer & Hlength & Hitems).
    { repeat constructor; discriminate. }
    exists answer. split; [exact Hanswer|]. split; [exact Hlength|].
    vm_compute in Hanswer. injection Hanswer as <-. reflexivity.
  - apply (proj2 (search_results_mirror_hits same (service null_metadata)
                    {| Api.query := "acceptable splice loss" |} [1; 2; 3]
                    (Response
                       [Hit (short_record "one" [3; 0; 0]) 3;
                        Hit {| content := Some "two";
                               metadata := Some (NotObject "NoneType");
                               embedding := [2; 0; 0] |} 2;
                        Hit (short_record "three" [1; 0; 0]) 1])
                    eq_refl eq_refl)
             [Hit (short_record "one" [3; 0; 0]) 3]
             (Hit {| content := Some "two";
                     metadata := Some (NotObject "NoneType");
                     embedding := [2; 0; 0] |} 2)
             [Hit (short_record "three" [1; 0; 0]) 1]
             "NoneType").
    + reflexivity.
    + repeat constructor; discriminate.
    + reflexivity.
Defined.

Lemma health_check_fails_with_503_witness :
  Api.unhealthy cluster_gone
    (Exn ConnectionError "ConnectionError(Connection refused)")
  ∧ Api.unhealthy no_status (Exn KeyError "'status'").
Proof.
  split.
  - apply (proj1 (health_check_fails_with_503 cluster_gone)).
    reflexivity.
  - apply (proj1 (proj2 (proj2 (proj2 (health_check_fails_with_503 no_status))))
             {[ "cluster_name" := "docker-cluster" ]} false).
    + reflexivity.
    + reflexivity.
    + discriminate.
    + reflexivity.
Defined.

Lemma health_check_reports_index_witness :
  ∃ report,
    snd (Api.health_check green_cluster []) = Ok report
    ∧ Api.status report = "healthy"
    ∧ Api.opensearch_status report = "green"
    ∧ Api.index_exists report = true
    ∧ Ok <$> Api.report_mapping report
      = Some (Api.client_indices_get_mapping green_cluster Api.INDEX_NAME)
    ∧ List.filter Api.is_get_mapping (fst (Api.health_check green_cluster []))
      = [Api.IndicesGetMapping Api.INDEX_NAME].
Proof.
  apply (health_check_reports_index green_cluster {[ "status" := "green" ]}
           "green" true).
  - reflexivity.
  - reflexivity.
  - reflexivity.
  - intros _. eexists. reflexivity.
Defined.

Lemma prompt_takes_the_best_two_witness :
  ∃ others,
    Permutation (App.sorted_results Z.ltb unranked ++ others) unranked
    ∧ App.descending Z.ltb (App.sorted_results Z.ltb unranked ++ others)
    ∧ length (App.sorted_results Z.ltb unranked) = min 2 (length unranked).
Proof.
  apply (prompt_takes_the_best_two Z.ltb unranked).
  intros a b Hab. apply Z.ltb_lt in Hab. apply Z.ltb_ge. lia.
Defined.

Lemma prompt_keeps_the_order_of_the_service_witness :
  App.sorted_results Z.ltb by_score = take 2 by_score.
Proof.
  apply (prompt_keeps_the_order_of_the_service Z.ltb by_score).
  cbn. repeat split.
Defined.

(** The page with both services up: the search fills the session, and
    the analysis that follows asks Ollama about the two best results. *)
Example search_then_analysis :
  let searched := fst (App.search_clicked all_up "splice loss" new_page) in
  let analysed :=
    fst (App.analyse_clicked Z.ltb same_text all_up "splice loss" searched) in
  App.search_results (App.session searched) = Some unranked
  ∧ App.session analysed
    = {| App.search_results := Some unranked;
         App.llm_response := Some "Keep the loss below 0.3 dB." |}
  ∧ List.filter App.is_generate (App.done analysed)
    = [App.HttpPost "http://ollama:11434/api/generate"
         (App.Generate "qwen2:0.5b"
            (App.prompt_of "splice loss"
               (App.context_of [item "two" 7; item "three" 7])))
         120].
Proof. vm_compute. split_and!; reflexivity. Qed.

(** The page with the services down: the search stops the script after
    the check of health, without a search. *)
Example search_without_service :
  App.search_clicked all_down "splice loss" new_page
  = (App.Page {| App.search_results := None; App.llm_response := None |}
       [App.HttpGet "http://api:8000/health" 5;
        App.StError "ไม่สามารถเชื่อมต่อกับ API ได้"],
     App.Stopped).
Proof. vm_compute. reflexivity. Qed.

End MoreRuns.
